(** * Schengen appointment checker: a shallow embedding of the React component

    The repository holds two revisions of [SchengenAppointmentChecker.tsx]:
    the one under [src/src/] (module [Checker] below) and the "defensive"
    one with an [ErrorBoundary] and a calendar grid (module
    [DefensiveChecker]).  Both are embedded; they share the model of
    JavaScript values, of the component state and of the effects a handler
    performs.

    Handlers are modelled in a small monad that records, in order, the
    effects the handler performs ([setX] calls, [fetch], [console.*],
    [alert]) together with its completion (normal or thrown).  A handler
    reads the state of the render it closes over; the [setX] effects are
    applied afterwards (by [run]) to the live state, which is how React
    treats them. *)

From Stdlib Require Import ZArith List String Ascii Bool Lia.
From Stdlib Require Import DecimalString.
From stdpp Require Import base strings gmap.
Import ListNotations.
Open Scope string_scope.
Open Scope list_scope.
Open Scope Z_scope.
Set Warnings "-register-all".

(** ** JavaScript values

    Values as [JSON.parse] produces them, plus [undefined].  Strings are
    kept as their UTF-8 bytes; a lone surrogate, which a JavaScript
    string may hold ([JSON.parse] reads one from an escape) and UTF-8
    proper excludes, is kept as the three bytes [ED A0..BF 80..BF] of
    its generalized encoding.  Numbers are integers: the component only
    ever tests a number for truthiness, where a fraction behaves like any
    non-zero integer.  [JObj] lists the own properties of an object in the
    order [Object.values] enumerates them. *)

Inductive jsval : Type :=
| JUndefined
| JNull
| JBool (b : bool)
| JNum (n : Z)
| JStr (s : string)
| JArr (elems : list jsval)
| JObj (props : list (string * jsval)).

Inductive exn : Type :=
| TypeError (msg : string)
| SyntaxError (msg : string)
| RangeError (msg : string)
| URIError (msg : string)
| Error (msg : string).

(** The completion of an evaluation: a value, or a thrown exception. *)
Inductive completion (A : Type) : Type :=
| Normal (a : A)
| Throw (e : exn).
Arguments Normal {A} a.
Arguments Throw {A} e.

#[export] Instance completion_ret : MRet completion := fun A a => Normal a.
#[export] Instance completion_bind : MBind completion :=
  fun A B f m => match m with Normal a => f a | Throw e => Throw e end.

(** ToBoolean. *)
Definition truthy (v : jsval) : bool :=
  match v with
  | JUndefined | JNull => false
  | JBool b => b
  | JNum n => negb (n =? 0)
  | JStr s => negb (String.eqb s "")
  | JArr _ | JObj _ => true
  end.

Definition nullish (v : jsval) : bool :=
  match v with JUndefined | JNull => true | _ => false end.

Definition isArray (v : jsval) : bool :=
  match v with JArr _ => true | _ => false end.

(** [typeof v === "object"]: objects, arrays and [null]. *)
Definition typeof_object (v : jsval) : bool :=
  match v with JObj _ | JArr _ | JNull => true | _ => false end.

Definition typeof_string (v : jsval) : bool :=
  match v with JStr _ => true | _ => false end.

Fixpoint assoc (k : string) (ps : list (string * jsval)) : option jsval :=
  match ps with
  | [] => None
  | (k', v) :: rest => if String.eqb k k' then Some v else assoc k rest
  end.

(** [v.k] for a [v] that is neither [null] nor [undefined].  None of the
    property names the component reads is defined on the prototypes of
    strings, numbers, booleans, arrays or plain objects, so on anything
    but an object holding the key the read gives [undefined]. *)
Definition prop (v : jsval) (k : string) : jsval :=
  match v with
  | JObj ps => match assoc k ps with Some x => x | None => JUndefined end
  | _ => JUndefined
  end.

(** [v.k] in general: reading a property of [null] or [undefined] throws. *)
Definition get (v : jsval) (k : string) : completion jsval :=
  if nullish v
  then Throw (TypeError ("Cannot read properties of null or undefined (reading '" +:+ k +:+ "')"))
  else Normal (prop v k).

(** [a[0]] for an array (or any other non-nullish value). *)
Definition first_elem (a : jsval) : completion jsval :=
  if nullish a
  then Throw (TypeError "Cannot read properties of null or undefined (reading '0')")
  else Normal (match a with JArr (x :: _) => x | _ => JUndefined end).

Definition Array_isArray (v : completion jsval) : completion jsval :=
  a ← v; mret (JBool (isArray a)).

(** [x || y] and [x && y] with their short-circuit evaluation: the right
    operand is not evaluated (and so cannot throw) when the left decides. *)
Definition or_else (x y : completion jsval) : completion jsval :=
  match x with
  | Normal v => if truthy v then Normal v else y
  | Throw e => Throw e
  end.

Definition and_then (x y : completion jsval) : completion jsval :=
  match x with
  | Normal v => if truthy v then y else Normal v
  | Throw e => Throw e
  end.

Infix "|||" := or_else (at level 50, left associativity).
Infix "&&&" := and_then (at level 40, left associativity).

(** [Object.values(v)] for an object or an array. *)
Definition Object_values (v : jsval) : list jsval :=
  match v with
  | JObj ps => map snd ps
  | JArr l => l
  | _ => []
  end.

Definition elems_of (v : jsval) : list jsval :=
  match v with JArr l => l | _ => [] end.

(** [Array.prototype.map] with a callback that may throw. *)
Fixpoint mapM {A B : Type} (f : A -> completion B) (l : list A) : completion (list B) :=
  match l with
  | [] => Normal []
  | x :: rest => y ← f x; ys ← mapM f rest; mret (y :: ys)
  end.

(** [Array.prototype.filter] with a callback that may throw. *)
Fixpoint filterM {A : Type} (f : A -> completion bool) (l : list A) : completion (list A) :=
  match l with
  | [] => Normal []
  | x :: rest => b ← f x; ys ← filterM f rest; mret (if b : bool then x :: ys else ys)
  end.

(** ** Strings *)

(** [s.includes(needle)]. *)
Fixpoint includes (s needle : string) : bool :=
  String.prefix needle s ||
  match s with
  | EmptyString => false
  | String _ rest => includes rest needle
  end.

(** Decimal rendering of a number inside a template literal. *)
Definition show_Z (z : Z) : string := NilEmpty.string_of_int (Z.to_int z).

(** [encodeURIComponent]: the unreserved marks, letters and digits stay,
    every other character becomes the bytes of its UTF-8 encoding, each
    written [%XX] in upper-case hexadecimal; a lone surrogate has no
    such encoding, and the function throws a [URIError] for a string
    that holds one. *)
Definition is_upper (a : ascii) : bool :=
  let n := N_of_ascii a in ((65 <=? n) && (n <=? 90))%N.
Definition is_lower (a : ascii) : bool :=
  let n := N_of_ascii a in ((97 <=? n) && (n <=? 122))%N.
Definition is_digit (a : ascii) : bool :=
  let n := N_of_ascii a in ((48 <=? n) && (n <=? 57))%N.

Definition uri_mark (a : ascii) : bool :=
  existsb (Ascii.eqb a) ["-"; "_"; "."; "!"; "~"; "*"; "'"; "("; ")"]%char.

Definition uri_unreserved (a : ascii) : bool :=
  is_upper a || is_lower a || is_digit a || uri_mark a.

Definition hex_digit (n : N) : ascii :=
  if (n <? 10)%N then ascii_of_N (48 + n) else ascii_of_N (55 + n).

Definition percent_encode (a : ascii) : string :=
  let n := N_of_ascii a in
  String "%" (String (hex_digit (n / 16)) (String (hex_digit (n mod 16)) EmptyString)).

Fixpoint uri_escape (s : string) : string :=
  match s with
  | EmptyString => EmptyString
  | String a rest =>
      (if uri_unreserved a then String a EmptyString else percent_encode a)
        +:+ uri_escape rest
  end.

(** The bytes [ED A0..BF] start the encoding of a surrogate, and a
    surrogate encoded on its own is a lone one (a pair is one character
    of four bytes). *)
Definition starts_surrogate (a b : ascii) : bool :=
  ((N_of_ascii a =? 237) && (160 <=? N_of_ascii b) && (N_of_ascii b <=? 191))%N.

Fixpoint has_lone_surrogate (s : string) : bool :=
  match s with
  | EmptyString => false
  | String a rest =>
      match rest with
      | String b _ => starts_surrogate a b
      | EmptyString => false
      end || has_lone_surrogate rest
  end.

Definition encodeURIComponent (s : string) : completion string :=
  if has_lone_surrogate s then Throw (URIError "URI malformed") else Normal (uri_escape s).

(** Reading a URL back: the part before the first [?], and the names of
    the [name=value] pairs, separated by [&], after it. *)
Fixpoint split_first (sep : ascii) (s : string) : string * option string :=
  match s with
  | EmptyString => (EmptyString, None)
  | String a rest =>
      if Ascii.eqb a sep then (EmptyString, Some rest)
      else let '(before, after) := split_first sep rest in (String a before, after)
  end.

Fixpoint split_all_aux (sep : ascii) (cur : string) (s : string) : list string :=
  match s with
  | EmptyString => [cur]
  | String a rest =>
      if Ascii.eqb a sep then cur :: split_all_aux sep EmptyString rest
      else split_all_aux sep (cur +:+ String a EmptyString) rest
  end.

Definition split_all (sep : ascii) (s : string) : list string :=
  split_all_aux sep EmptyString s.

Definition url_path (u : string) : string := fst (split_first "?" u).

Definition url_query_names (u : string) : list string :=
  match snd (split_first "?" u) with
  | None => []
  | Some q => map (fun kv => fst (split_first "=" kv)) (split_all "&" q)
  end.

(** ** The data model: [Country] and [SlotSummary] *)

Module Country.
(** [type Country = { code; name; __raw?; availableSummary? }].  The
    declared type of [code] and [name] is [string]; at run time they hold
    whatever the [||] chain of [fetchCountries] picked from the payload,
    so they are values here.  An absent optional field is [JUndefined]. *)
Record t : Type := { code : jsval; name : jsval; __raw : jsval; availableSummary : jsval }.
End Country.

Module City.
(** An element of [SlotSummary.cities].  [address] exists only in the
    defensive revision; it is [JUndefined] where the object has none. *)
Record t : Type := { name : jsval; nextDate : jsval; allDates : jsval; address : jsval }.
End City.

Module SlotSummary.
(** [type SlotSummary = { nextDate; isAvailable; cities; raw? }].  The
    [Omit<SlotSummary, "raw">] that [extractSummaryFromSlotsData] returns
    is a summary whose [raw] is absent, that is [JUndefined]. *)
Record t : Type :=
  { nextDate : jsval; isAvailable : bool; cities : list City.t; raw : jsval }.
End SlotSummary.

(** The object [{ nextDate: null, cities: [], isAvailable: false }]. *)
Definition empty_summary : SlotSummary.t :=
  {| SlotSummary.nextDate := JNull; SlotSummary.isAvailable := false;
     SlotSummary.cities := []; SlotSummary.raw := JUndefined |}.

(** [{ ...summary, raw: data }]. *)
Definition with_raw (summary : SlotSummary.t) (data : jsval) : SlotSummary.t :=
  {| SlotSummary.nextDate := SlotSummary.nextDate summary;
     SlotSummary.isAvailable := SlotSummary.isAvailable summary;
     SlotSummary.cities := SlotSummary.cities summary;
     SlotSummary.raw := data |}.

Definition note (text : string) : jsval := JObj [("note", JStr text)].

(** The two literal records stored when no demo entry exists. *)
Definition offline_fallback : SlotSummary.t :=
  {| SlotSummary.nextDate := JNull; SlotSummary.isAvailable := false;
     SlotSummary.cities := [];
     SlotSummary.raw := note "No demo slots configured for this country in offline mode." |}.

Definition unreachable_fallback : SlotSummary.t :=
  {| SlotSummary.nextDate := JNull; SlotSummary.isAvailable := false;
     SlotSummary.cities := [];
     SlotSummary.raw := note "No slots available or API unreachable." |}.

Definition demo_country (code name : string) : Country.t :=
  {| Country.code := JStr code; Country.name := JStr name;
     Country.__raw := JUndefined; Country.availableSummary := JUndefined |}.

(** A mapped country: [{ code, name, __raw, availableSummary: null }]. *)
Definition mapped_country (code name : string) (raw : jsval) : Country.t :=
  {| Country.code := JStr code; Country.name := JStr name;
     Country.__raw := raw; Country.availableSummary := JNull |}.

Definition DEMO_COUNTRIES : list Country.t :=
  [ demo_country "FR" "France"; demo_country "CH" "Switzerland"; demo_country "DE" "Germany" ].

(** ** Component state, effects and the handler monad *)

(** The [useState] cells of the component.  [selectedDate] is called
    [focusedIsoDate] in the defensive revision. *)
Record State : Type := {
  countries : list Country.t;
  filtered : list Country.t;
  query : string;
  selectedCountry : option Country.t;
  slotsByCountry : gmap string SlotSummary.t;
  loadingCountryCodes : bool;
  loadingSlots : string;
  error : option string;
  countriesRawDebug : jsval;
  offlineMode : bool;
  lastUpdatedAt : option Z;
  selectedCityIndex : nat;
  selectedDate : option string
}.

Definition initial_state : State := {|
  countries := []; filtered := []; query := ""; selectedCountry := None;
  slotsByCountry := ∅; loadingCountryCodes := false; loadingSlots := "";
  error := None; countriesRawDebug := JNull; offlineMode := false;
  lastUpdatedAt := None; selectedCityIndex := 0%nat; selectedDate := None |}.

Inductive console_level : Type := LogLevel | DebugLevel | WarnLevel | ErrorLevel.

Inductive logged : Type :=
| LVal (v : jsval)
| LExn (e : exn).

Inductive effect : Type :=
| SetCountries (v : list Country.t)
| SetFiltered (v : list Country.t)
| SetQuery (v : string)
| SetSelectedCountry (v : option Country.t)
| SetSlotsByCountry (k : string) (v : SlotSummary.t)
    (* the functional update [(s) => ({ ...s, [k]: v })] *)
| SetLoadingCountryCodes (v : bool)
| SetLoadingSlots (v : string)
| SetError (v : option string)
| SetCountriesRawDebug (v : jsval)
| SetOfflineMode (v : bool)
| SetLastUpdatedAt (v : Z)
| SetSelectedCityIndex (v : nat)
| SetSelectedDate (v : option string)
| Fetch (url : string)
    (* [fetch(url)] without options: an HTTP GET *)
| Console (level : console_level) (label : string) (args : list logged)
| Alert (msg : string).

Definition apply_effect (s : State) (e : effect) : State :=
  match e with
  | SetCountries v =>
      {| countries := v; filtered := filtered s; query := query s;
         selectedCountry := selectedCountry s; slotsByCountry := slotsByCountry s;
         loadingCountryCodes := loadingCountryCodes s; loadingSlots := loadingSlots s;
         error := error s; countriesRawDebug := countriesRawDebug s;
         offlineMode := offlineMode s; lastUpdatedAt := lastUpdatedAt s;
         selectedCityIndex := selectedCityIndex s; selectedDate := selectedDate s |}
  | SetFiltered v =>
      {| countries := countries s; filtered := v; query := query s;
         selectedCountry := selectedCountry s; slotsByCountry := slotsByCountry s;
         loadingCountryCodes := loadingCountryCodes s; loadingSlots := loadingSlots s;
         error := error s; countriesRawDebug := countriesRawDebug s;
         offlineMode := offlineMode s; lastUpdatedAt := lastUpdatedAt s;
         selectedCityIndex := selectedCityIndex s; selectedDate := selectedDate s |}
  | SetQuery v =>
      {| countries := countries s; filtered := filtered s; query := v;
         selectedCountry := selectedCountry s; slotsByCountry := slotsByCountry s;
         loadingCountryCodes := loadingCountryCodes s; loadingSlots := loadingSlots s;
         error := error s; countriesRawDebug := countriesRawDebug s;
         offlineMode := offlineMode s; lastUpdatedAt := lastUpdatedAt s;
         selectedCityIndex := selectedCityIndex s; selectedDate := selectedDate s |}
  | SetSelectedCountry v =>
      {| countries := countries s; filtered := filtered s; query := query s;
         selectedCountry := v; slotsByCountry := slotsByCountry s;
         loadingCountryCodes := loadingCountryCodes s; loadingSlots := loadingSlots s;
         error := error s; countriesRawDebug := countriesRawDebug s;
         offlineMode := offlineMode s; lastUpdatedAt := lastUpdatedAt s;
         selectedCityIndex := selectedCityIndex s; selectedDate := selectedDate s |}
  | SetSlotsByCountry k v =>
      {| countries := countries s; filtered := filtered s; query := query s;
         selectedCountry := selectedCountry s; slotsByCountry := <[k := v]> (slotsByCountry s);
         loadingCountryCodes := loadingCountryCodes s; loadingSlots := loadingSlots s;
         error := error s; countriesRawDebug := countriesRawDebug s;
         offlineMode := offlineMode s; lastUpdatedAt := lastUpdatedAt s;
         selectedCityIndex := selectedCityIndex s; selectedDate := selectedDate s |}
  | SetLoadingCountryCodes v =>
      {| countries := countries s; filtered := filtered s; query := query s;
         selectedCountry := selectedCountry s; slotsByCountry := slotsByCountry s;
         loadingCountryCodes := v; loadingSlots := loadingSlots s;
         error := error s; countriesRawDebug := countriesRawDebug s;
         offlineMode := offlineMode s; lastUpdatedAt := lastUpdatedAt s;
         selectedCityIndex := selectedCityIndex s; selectedDate := selectedDate s |}
  | SetLoadingSlots v =>
      {| countries := countries s; filtered := filtered s; query := query s;
         selectedCountry := selectedCountry s; slotsByCountry := slotsByCountry s;
         loadingCountryCodes := loadingCountryCodes s; loadingSlots := v;
         error := error s; countriesRawDebug := countriesRawDebug s;
         offlineMode := offlineMode s; lastUpdatedAt := lastUpdatedAt s;
         selectedCityIndex := selectedCityIndex s; selectedDate := selectedDate s |}
  | SetError v =>
      {| countries := countries s; filtered := filtered s; query := query s;
         selectedCountry := selectedCountry s; slotsByCountry := slotsByCountry s;
         loadingCountryCodes := loadingCountryCodes s; loadingSlots := loadingSlots s;
         error := v; countriesRawDebug := countriesRawDebug s;
         offlineMode := offlineMode s; lastUpdatedAt := lastUpdatedAt s;
         selectedCityIndex := selectedCityIndex s; selectedDate := selectedDate s |}
  | SetCountriesRawDebug v =>
      {| countries := countries s; filtered := filtered s; query := query s;
         selectedCountry := selectedCountry s; slotsByCountry := slotsByCountry s;
         loadingCountryCodes := loadingCountryCodes s; loadingSlots := loadingSlots s;
         error := error s; countriesRawDebug := v;
         offlineMode := offlineMode s; lastUpdatedAt := lastUpdatedAt s;
         selectedCityIndex := selectedCityIndex s; selectedDate := selectedDate s |}
  | SetOfflineMode v =>
      {| countries := countries s; filtered := filtered s; query := query s;
         selectedCountry := selectedCountry s; slotsByCountry := slotsByCountry s;
         loadingCountryCodes := loadingCountryCodes s; loadingSlots := loadingSlots s;
         error := error s; countriesRawDebug := countriesRawDebug s;
         offlineMode := v; lastUpdatedAt := lastUpdatedAt s;
         selectedCityIndex := selectedCityIndex s; selectedDate := selectedDate s |}
  | SetLastUpdatedAt v =>
      {| countries := countries s; filtered := filtered s; query := query s;
         selectedCountry := selectedCountry s; slotsByCountry := slotsByCountry s;
         loadingCountryCodes := loadingCountryCodes s; loadingSlots := loadingSlots s;
         error := error s; countriesRawDebug := countriesRawDebug s;
         offlineMode := offlineMode s; lastUpdatedAt := Some v;
         selectedCityIndex := selectedCityIndex s; selectedDate := selectedDate s |}
  | SetSelectedCityIndex v =>
      {| countries := countries s; filtered := filtered s; query := query s;
         selectedCountry := selectedCountry s; slotsByCountry := slotsByCountry s;
         loadingCountryCodes := loadingCountryCodes s; loadingSlots := loadingSlots s;
         error := error s; countriesRawDebug := countriesRawDebug s;
         offlineMode := offlineMode s; lastUpdatedAt := lastUpdatedAt s;
         selectedCityIndex := v; selectedDate := selectedDate s |}
  | SetSelectedDate v =>
      {| countries := countries s; filtered := filtered s; query := query s;
         selectedCountry := selectedCountry s; slotsByCountry := slotsByCountry s;
         loadingCountryCodes := loadingCountryCodes s; loadingSlots := loadingSlots s;
         error := error s; countriesRawDebug := countriesRawDebug s;
         offlineMode := offlineMode s; lastUpdatedAt := lastUpdatedAt s;
         selectedCityIndex := selectedCityIndex s; selectedDate := v |}
  | Fetch _ | Console _ _ _ | Alert _ => s
  end.

(** The state after the effects of a handler have been applied, in order. *)
Definition run (effs : list effect) (s : State) : State := fold_left apply_effect effs s.

Definition is_state_update (e : effect) : bool :=
  match e with Fetch _ | Console _ _ _ | Alert _ => false | _ => true end.

Definition is_console (e : effect) : bool :=
  match e with Console _ _ _ => true | _ => false end.

(** The URLs a trace requests. *)
Fixpoint requests (effs : list effect) : list string :=
  match effs with
  | [] => []
  | Fetch u :: rest => u :: requests rest
  | _ :: rest => requests rest
  end.

(** A handler: the effects performed so far, and how it completed. *)
Definition M (A : Type) : Type := (list effect * completion A)%type.

#[export] Instance M_ret : MRet M := fun A a => ([], Normal a).
#[export] Instance M_bind : MBind M :=
  fun A B f m =>
    match m with
    | (t, Normal a) => let '(t', r) := f a in (t ++ t', r)
    | (t, Throw e) => (t, Throw e)
    end.

Definition emit (e : effect) : M unit := ([e], Normal tt).
Definition throw {A : Type} (e : exn) : M A := ([], Throw e).
Definition lift {A : Type} (c : completion A) : M A := ([], c).
Definition trace {A : Type} (m : M A) : list effect := fst m.
Definition outcome {A : Type} (m : M A) : completion A := snd m.

(** [try { body } catch (err) { handler }]. *)
Definition try_catch {A : Type} (body : M A) (handler : exn -> M A) : M A :=
  match body with
  | (t, Normal a) => (t, Normal a)
  | (t, Throw e) => let '(t', r) := handler e in (t ++ t', r)
  end.

(** [try { body } finally { fin }], for a [fin] that completes normally. *)
Definition finally {A : Type} (body : M A) (fin : M unit) : M A :=
  let '(t, r) := body in
  let '(t', r') := fin in
  (t ++ t', match r' with Normal _ => r | Throw e => Throw e end).

(** ** The host: what the browser provides

    [typeof fetch], the outcome of a request, the clock read by
    [new Date()], [String.prototype.toLowerCase], the date parser behind
    [new Date(string)] ([None] is an invalid date) and the offset of local
    time, in milliseconds, as ECMAScript's [LocalTZA(t, isUTC)]. *)

Inductive fetch_outcome : Type :=
| Rejects (e : exn)
    (* the promise rejects: the request could not be made *)
| Resolves (ok : bool) (status : Z) (json : completion jsval).
    (* a response with [res.ok], [res.status] and the outcome of [res.json()] *)

Record Host : Type := {
  has_fetch : bool;
  fetch : string -> fetch_outcome;
  Date_now : Z;
  toLowerCase : string -> string;
  Date_parse : string -> option Z;
  LocalTZA : Z -> bool -> Z
}.

(** [await fetch(url)]: the request is recorded, a rejection is thrown. *)
Definition do_fetch (h : Host) (url : string) : M (bool * Z * completion jsval) :=
  emit (Fetch url);;
  match fetch h url with
  | Rejects e => throw e
  | Resolves ok status json => mret (ok, status, json)
  end.

(** [x.toLowerCase()] on a value that is not [null] or [undefined]: only
    strings have the method. *)
Definition call_toLowerCase (h : Host) (v : jsval) : completion string :=
  match v with
  | JStr s => Normal (toLowerCase h s)
  | _ => Throw (TypeError "toLowerCase is not a function")
  end.

(** The names [Object.prototype] defines: [o[k]] is truthy for each of
    them on every plain object, whatever its own properties. *)
Definition object_prototype_keys : list string :=
  [ "constructor"; "hasOwnProperty"; "isPrototypeOf"; "propertyIsEnumerable";
    "toLocaleString"; "toString"; "valueOf"; "__proto__";
    "__defineGetter__"; "__defineSetter__"; "__lookupGetter__"; "__lookupSetter__" ].

Definition inherited (k : string) : bool := existsb (String.eqb k) object_prototype_keys.

(** The test [if (slotsByCountry[k])]: every stored summary is an object,
    hence truthy. *)
Definition has_slots (m : gmap string SlotSummary.t) (k : string) : bool :=
  match m !! k with Some _ => true | None => inherited k end.

(** The argument of [fetchSlotsForCountry]: [string | undefined | null]. *)
Inductive code_arg : Type :=
| CodeUndefined
| CodeNull
| Code (s : string).

(** The first element with a truthy [nextDate], as
    [(cities.find((c) => c.nextDate) || {}).nextDate]. *)
Definition found_nextDate (cities : list City.t) : jsval :=
  match find (fun c => truthy (City.nextDate c)) cities with
  | Some c => City.nextDate c
  | None => JUndefined
  end.

(** [!!cities.length]. *)
Definition nonempty {A : Type} (l : list A) : bool :=
  match l with [] => false | _ => true end.

(** [a || b] on two values already evaluated. *)
Definition jor (a b : jsval) : jsval := if truthy a then a else b.

(** [l.indexOf(x)] on an array of strings: the first index that holds
    [x], or [-1]. *)
Fixpoint indexOf (l : list string) (x : string) : Z :=
  match l with
  | [] => -1
  | y :: rest =>
      if String.eqb y x then 0
      else let i := indexOf rest x in if i <? 0 then -1 else i + 1
  end.

(** [l[i]] for an integer [i]: [None] is [undefined]. *)
Definition at_index {A : Type} (l : list A) (i : Z) : option A :=
  if i <? 0 then None else nth_error l (Z.to_nat i).

(** [dates[0] || null] on an array of strings. *)
Definition first_date (dates : list string) : option string :=
  match dates with
  | String a rest :: _ => Some (String a rest)
  | _ => None
  end.

(** ** [src/src/SchengenAppointmentChecker.tsx] *)

Module Checker.

Definition residence : string := "IN".
Definition citizenship : string := "IN".
Definition pincode : string := "110001".

Definition demo_city (name nextDate : string) (allDates : list string) : City.t :=
  {| City.name := JStr name; City.nextDate := JStr nextDate;
     City.allDates := JArr (map JStr allDates); City.address := JUndefined |}.

Definition demo_FR : SlotSummary.t :=
  {| SlotSummary.nextDate := JStr "December 15, 2025";
     SlotSummary.isAvailable := true;
     SlotSummary.cities :=
       [ demo_city "Ahmedabad" "December 15, 2025"
           ["December 15, 2025"; "December 16, 2025"; "December 17, 2025"];
         demo_city "Bangalore" "December 15, 2025"
           ["December 15, 2025"; "December 18, 2025"] ];
     SlotSummary.raw := note "Demo slots for France used because API could not be reached." |}.

Definition demo_CH : SlotSummary.t :=
  {| SlotSummary.nextDate := JStr "December 15, 2025";
     SlotSummary.isAvailable := true;
     SlotSummary.cities :=
       [ demo_city "Ahmedabad" "December 15, 2025"
           ["December 15, 2025"; "December 20, 2025"];
         demo_city "Bangalore" "December 15, 2025"
           ["December 15, 2025"; "December 22, 2025"] ];
     SlotSummary.raw := note "Demo slots for Switzerland used because API could not be reached." |}.

(** The own properties of [DEMO_SLOTS].  [fetchSlotsForCountry] reads
    [DEMO_SLOTS[countryCode]] only after [slotsByCountry[countryCode]]
    was falsy, which rules out the names inherited from
    [Object.prototype]; so the own properties are all it can see. *)
Definition DEMO_SLOTS (k : string) : option SlotSummary.t :=
  if String.eqb k "FR" then Some demo_FR
  else if String.eqb k "CH" then Some demo_CH
  else None.

(** The callback of the three [.map] calls in
    [extractSummaryFromSlotsData]. *)
Definition city_of (c : jsval) : completion City.t :=
  name ← get c "centre_name_fe" ||| get c "centre_name" ||| get c "cityName"
           ||| get c "name" ||| get c "city" ||| Normal (JStr "-");
  primaryDate ← get c "earliest_date"
           ||| (Array_isArray (get c "actual_dates") &&& (get c "actual_dates" ≫= first_elem))
           ||| (Array_isArray (get c "all_dates") &&& (get c "all_dates" ≫= first_elem))
           ||| get c "nextDate" ||| get c "firstAvailable" ||| Normal JNull;
  allDates ← (Array_isArray (get c "actual_dates") &&& get c "actual_dates")
           ||| (Array_isArray (get c "all_dates") &&& get c "all_dates")
           ||| Normal (JArr []);
  mret {| City.name := name; City.nextDate := primaryDate;
          City.allDates := allDates; City.address := JUndefined |}.

Definition summary (nextDate : jsval) (cities : list City.t) (isAvailable : bool)
  : SlotSummary.t :=
  {| SlotSummary.nextDate := nextDate; SlotSummary.isAvailable := isAvailable;
     SlotSummary.cities := cities; SlotSummary.raw := JUndefined |}.

(** The test of the third [if]: [data.message] is a string whose
    lower-casing includes ["not available"]. *)
Definition says_not_available (h : Host) (message : jsval) : bool :=
  match message with
  | JStr m => includes (toLowerCase h m) "not available"
  | _ => false
  end.

Definition extractSummaryFromSlotsData (h : Host) (data : jsval)
  : completion SlotSummary.t :=
  if negb (truthy data) then mret (summary JNull [] false)
  else
    centre_dates ← get data "centre_dates";
    if isArray centre_dates then
      cities ← mapM city_of (elems_of centre_dates);
      nextDate ← get data "earliest_available_date"
                   ||| Normal (found_nextDate cities) ||| Normal JNull;
      mret (summary nextDate cities (nonempty cities))
    else if isArray data then
      cities ← mapM city_of (elems_of data);
      nextDate ← Normal (found_nextDate cities) ||| Normal JNull;
      mret (summary nextDate cities (nonempty cities))
    else
      message ← get data "message";
      if truthy data && says_not_available h message then
        mret (summary JNull [] false)
      else if truthy data && typeof_object data then
        match List.filter isArray (Object_values data) with
        | arr :: _ =>
            cities ← mapM city_of (elems_of arr);
            nextDate ← Normal (found_nextDate cities) ||| Normal JNull;
            mret (summary nextDate cities (nonempty cities))
        | [] => mret (summary JNull [] false)
        end
      else mret (summary JNull [] false).

Definition countries_url : string :=
  "https://api.atlys.com/api/v3/countries?citizenship=" +:+ citizenship
    +:+ "&residence=" +:+ residence +:+ "&pincode=" +:+ pincode
    +:+ "&isEnterprise=false".

(** The list picked out of the payload: the payload itself when it is
    an array, else its [countries], else its [data], else nothing. *)
Definition countries_list (data : jsval) : list jsval :=
  if isArray data then elems_of data
  else if truthy data && typeof_object data then
    if isArray (prop data "countries") then elems_of (prop data "countries")
    else if isArray (prop data "data") then elems_of (prop data "data")
    else []
  else [].

(** The callback of [list.map] in [fetchCountries]. *)
Definition country_of (c : jsval) : completion Country.t :=
  code ← get c "code" ||| get c "iso2_code" ||| get c "countryCode" ||| get c "alpha2"
           ||| get c "iso2" ||| get c "iso" ||| get c "country_code" ||| Normal (JStr "");
  name ← get c "name" ||| get c "countryName" ||| get c "label" ||| get c "title"
           ||| Normal (JStr "Unknown");
  mret {| Country.code := code; Country.name := name;
          Country.__raw := c; Country.availableSummary := JNull |}.

Definition countries_unreachable : string :=
  "Could not reach Atlys countries API. Showing demo data.".

Definition fetchCountries (h : Host) : M unit :=
  emit (SetLoadingCountryCodes true);;
  emit (SetError None);;
  if negb (has_fetch h) then
    emit (SetOfflineMode true);;
    emit (SetCountries DEMO_COUNTRIES);;
    emit (SetFiltered DEMO_COUNTRIES);;
    emit (SetLoadingCountryCodes false);;
    emit (SetError (Some "Running in preview mode. Showing demo countries."));;
    emit (SetLastUpdatedAt (Date_now h))
  else
    finally
      (try_catch
         ('(ok, status, json) ← do_fetch h countries_url;
          (if negb ok
           then throw (Error ("Countries API returned " +:+ show_Z status))
           else mret tt);;
          data ← try_catch (lift json)
                   (fun jsonErr =>
                      emit (Console ErrorLevel "Failed to parse countries JSON" [LExn jsonErr]);;
                      mret JNull);
          emit (SetCountriesRawDebug data);;
          mapped ← lift (mapM country_of (countries_list data));
          emit (SetOfflineMode false);;
          emit (SetCountries mapped);;
          emit (SetFiltered mapped))
         (fun err =>
            emit (Console ErrorLevel "Countries fetch failed" [LExn err]);;
            emit (SetOfflineMode true);;
            emit (SetError (Some countries_unreachable));;
            emit (SetCountries DEMO_COUNTRIES);;
            emit (SetFiltered DEMO_COUNTRIES)))
      (emit (SetLoadingCountryCodes false);;
       emit (SetLastUpdatedAt (Date_now h))).

(** The template literal of the slots request, around the encoded
    country code. *)
Definition slots_url_with (encoded : string) : string :=
  "https://api.atlys.com/api/v2/application/slots/" +:+ encoded
    +:+ "?residence=" +:+ residence +:+ "&citizenship=" +:+ citizenship
    +:+ "&purpose=atlys_black&travellersCount=1&withAllSlots=true&getCitiesWiseSlots=true".

(** The URL of the slots request, for a country code that
    [encodeURIComponent] accepts. *)
Definition slots_url (countryCode : string) : string :=
  slots_url_with (uri_escape countryCode).

Definition slots_unreachable (countryCode : string) : string :=
  "Could not reach Atlys slots API for " +:+ countryCode +:+ ".".

(** The [try] / [catch] / [finally] statement of [fetchSlotsForCountry]. *)
Definition request_slots (h : Host) (code : string) : M unit :=
  finally
    (try_catch
       (encoded ← lift (encodeURIComponent code);
        '(ok, status, json) ← do_fetch h (slots_url_with encoded);
        (if negb ok
         then throw (Error ("Slots API returned " +:+ show_Z status))
         else mret tt);;
        data ← try_catch (lift json)
                 (fun jsonErr =>
                    emit (Console ErrorLevel "Failed to parse slots JSON" [LExn jsonErr]);;
                    mret JNull);
        summary ← lift (extractSummaryFromSlotsData h data);
        emit (SetSlotsByCountry code (with_raw summary data)))
       (fun err =>
          emit (Console ErrorLevel "Slots fetch failed" [LExn err]);;
          emit (SetError (Some (slots_unreachable code)));;
          match DEMO_SLOTS code with
          | Some demo => emit (SetSlotsByCountry code demo)
          | None => emit (SetSlotsByCountry code unreachable_fallback)
          end))
    (emit (SetLoadingSlots "");;
     emit (SetLastUpdatedAt (Date_now h))).

Definition fetchSlotsForCountry (h : Host) (st : State) (countryCode : code_arg) : M unit :=
  match countryCode with
  | CodeUndefined | CodeNull | Code EmptyString => mret tt
  | Code code =>
    if has_slots (slotsByCountry st) code then mret tt
    else
      emit (SetLoadingSlots code);;
      emit (SetError None);;
      if offlineMode st || negb (has_fetch h) then
        (match DEMO_SLOTS code with
         | Some demo => emit (SetSlotsByCountry code demo)
         | None => emit (SetSlotsByCountry code offline_fallback)
         end);;
        emit (SetLoadingSlots "");;
        emit (SetLastUpdatedAt (Date_now h))
      else request_slots h code
  end.

(** [getCountryCode] on a [Country]: the fields [iso2_code],
    [countryCode], [alpha2] and [iso] do not exist on it and read as
    [undefined]; the guard [if (!obj) return ""] is not taken, a
    [Country] being an object. *)
Definition getCountryCode (obj : Country.t) : completion jsval :=
  Normal (Country.code obj)
    ||| Normal JUndefined
    ||| (Normal (Country.__raw obj)
           &&& (get (Country.__raw obj) "iso2_code" ||| get (Country.__raw obj) "iso2"
                  ||| get (Country.__raw obj) "code" ||| get (Country.__raw obj) "countryCode"))
    ||| Normal JUndefined
    ||| Normal JUndefined
    ||| Normal JUndefined
    ||| Normal (JStr "").

(** The callback of [countries.filter] in [onSearch]. *)
Definition matches (h : Host) (lq : string) (c : Country.t) : completion bool :=
  name ← (Normal (Country.name c) ||| Normal (JStr "")) ≫= call_toLowerCase h;
  if includes name lq then mret true
  else
    code ← (Normal (Country.code c) ||| Normal (JStr "")) ≫= call_toLowerCase h;
    mret (includes code lq).

Definition onSearch (h : Host) (st : State) (q : string) : M unit :=
  emit (SetQuery q);;
  match q with
  | EmptyString => emit (SetFiltered (countries st))
  | _ =>
      let lq := toLowerCase h q in
      kept ← lift (filterM (matches h lq) (countries st));
      emit (SetFiltered kept)
  end.

(** What the modal reads from [activeModalData]. *)
Record ActiveModalData : Type := {
  activeCity : option City.t;
  datesForActiveCity : list jsval;
  effectiveSelectedDate : jsval
}.

(** [activeCity?.name]. *)
Definition activeCity_name (c : option City.t) : jsval :=
  match c with Some city => City.name city | None => JUndefined end.

(** The [onClick] of the "Book This Appointment" button; its free
    variables are the [selectedCountry] and [activeModalData] of the
    render that shows the button. *)
Definition onBookClick (selectedCountry : Country.t) (activeModalData : ActiveModalData)
  : M unit :=
  countryCode ← lift (getCountryCode selectedCountry);
  emit (Console LogLevel "Book appointment"
          [LVal (JObj [ ("country", Country.name selectedCountry);
                        ("countryCode", countryCode);
                        ("center", activeCity_name (activeCity activeModalData));
                        ("date", effectiveSelectedDate activeModalData) ])]).

(** *** The modal and the overview cards *)

(** [getCountryCode(c) || c.code]: the code of a table row, and of the
    modal. *)
Definition row_code (c : Country.t) : completion jsval :=
  getCountryCode c ||| Normal (Country.code c).

(** [cities[selectedCityIndex] || cities[0]]. *)
Definition activeCity_of (cities : list City.t) (selectedCityIndex : nat) : option City.t :=
  match nth_error cities selectedCityIndex with
  | Some city => Some city
  | None => head cities
  end.

(** [selectedDate && datesForActiveCity.includes(selectedDate)
     ? selectedDate : datesForActiveCity[0] || null], the dates being
    strings as [allDates: string[]] declares. *)
Definition effectiveSelectedDate_of (selectedDate : option string)
    (datesForActiveCity : list string) : option string :=
  match selectedDate with
  | Some (String a rest) =>
      if existsb (String.eqb (String a rest)) datesForActiveCity
      then Some (String a rest)
      else first_date datesForActiveCity
  | _ => first_date datesForActiveCity
  end.

(** [changeSelectedDate(direction)]; [activeModalData] is [None] when
    it is [null], else its [datesForActiveCity] and
    [effectiveSelectedDate]. *)
Definition changeSelectedDate (activeModalData : option (list string * option string))
    (direction : Z) : M unit :=
  match activeModalData with
  | None => mret tt
  | Some (datesForActiveCity, effectiveSelectedDate) =>
      match datesForActiveCity, effectiveSelectedDate with
      | _ :: _, Some (String a rest) =>
          let idx := indexOf datesForActiveCity (String a rest) in
          let nextIdx := idx + direction in
          if (nextIdx <? 0) || (Z.of_nat (List.length datesForActiveCity) <=? nextIdx)
          then mret tt
          else emit (SetSelectedDate (at_index datesForActiveCity nextIdx))
      | _, _ => mret tt
      end
  end.

(** [stats]: the counters of the overview cards, computed from the
    countries and from [Object.entries(slotsByCountry)] in the order the
    object enumerates them. *)
Record Stats : Type := {
  total : nat;
  withSlots : nat;
  earliest : jsval;
  mostCountryName : jsval
}.

(** One round of the [forEach]: the accumulators are [earliest],
    [mostCode] and [mostCount]. *)
Definition stats_step (acc : jsval * option string * nat) (entry : string * SlotSummary.t)
  : jsval * option string * nat :=
  let '(earliest, mostCode, mostCount) := acc in
  let '(code, s) := entry in
  let earliest :=
    if truthy (SlotSummary.nextDate s) && negb (truthy earliest)
    then SlotSummary.nextDate s else earliest in
  let count := List.length (SlotSummary.cities s) in
  if (mostCount <? count)%nat then (earliest, Some code, count)
  else (earliest, mostCode, mostCount).

(** [c.code === mostCode]. *)
Definition is_code (mostCode : option string) (c : Country.t) : bool :=
  match mostCode, Country.code c with
  | Some k, JStr k' => String.eqb k' k
  | None, JNull => true
  | _, _ => false
  end.

Definition stats (countries : list Country.t) (entries : list (string * SlotSummary.t))
  : Stats :=
  let '(earliest, mostCode, mostCount) := fold_left stats_step entries (JNull, None, 0%nat) in
  {| total := List.length countries;
     withSlots := List.length (List.filter (fun e => SlotSummary.isAvailable (snd e)) entries);
     earliest := earliest;
     mostCountryName :=
       match find (is_code mostCode) countries with
       | Some c => jor (Country.name c) JNull
       | None => JNull
       end |}.

End Checker.

(** ** [Date]: the time values and operations the calendar uses

    A date object is its time value, milliseconds since the epoch in UTC,
    or [None] when the date is invalid ([NaN]).  A number that may be
    [NaN] is an [option Z] likewise. *)

Module JSDate.

Definition msPerDay : Z := 86400000.

Definition Day (t : Z) : Z := t / msPerDay.

(** Days since the epoch of the first instant of a civil date, and
    back (proleptic Gregorian calendar; months count from 1 here). *)
Definition days_from_civil (y m d : Z) : Z :=
  let y := if m <=? 2 then y - 1 else y in
  let era := y / 400 in
  let yoe := y - era * 400 in
  let doy := (153 * (if 2 <? m then m - 3 else m + 9) + 2) / 5 + d - 1 in
  let doe := yoe * 365 + yoe / 4 - yoe / 100 + doy in
  era * 146097 + doe - 719468.

Definition civil_from_days (z : Z) : Z * Z * Z :=
  let z := z + 719468 in
  let era := z / 146097 in
  let doe := z - era * 146097 in
  let yoe := (doe - doe / 1460 + doe / 36524 - doe / 146096) / 365 in
  let y := yoe + era * 400 in
  let doy := doe - (365 * yoe + yoe / 4 - yoe / 100) in
  let mp := (5 * doy + 2) / 153 in
  let d := doy - (153 * mp + 2) / 5 + 1 in
  let m := if mp <? 10 then mp + 3 else mp - 9 in
  (if m <=? 2 then y + 1 else y, m, d).

Definition YearFromTime (t : Z) : Z := fst (fst (civil_from_days (Day t))).
Definition MonthFromTime (t : Z) : Z := snd (fst (civil_from_days (Day t))) - 1.
Definition DateFromTime (t : Z) : Z := snd (civil_from_days (Day t)).
Definition WeekDay (t : Z) : Z := (Day t + 4) mod 7.

Definition MakeDay (year month date : Z) : Z :=
  days_from_civil (year + month / 12) (month mod 12 + 1) 1 + date - 1.

Definition TimeClip (t : Z) : option Z :=
  if Z.abs t <=? 8640000000000000 then Some t else None.

Definition LocalTime (h : Host) (t : Z) : Z := t + LocalTZA h t true.
Definition UTC (h : Host) (t : Z) : Z := t - LocalTZA h t false.

(** [new Date(year, month, day)]: local midnight of that civil date. *)
Definition make (h : Host) (year month day : option Z) : option Z :=
  match year, month, day with
  | Some y, Some m, Some d =>
      let yr := if (0 <=? y) && (y <=? 99) then 1900 + y else y in
      TimeClip (UTC h (MakeDay yr m d * msPerDay))
  | _, _, _ => None
  end.

Definition getFullYear (h : Host) (t : option Z) : option Z :=
  option_map (fun t => YearFromTime (LocalTime h t)) t.
Definition getMonth (h : Host) (t : option Z) : option Z :=
  option_map (fun t => MonthFromTime (LocalTime h t)) t.
Definition getDate (h : Host) (t : option Z) : option Z :=
  option_map (fun t => DateFromTime (LocalTime h t)) t.
Definition getDay (h : Host) (t : option Z) : option Z :=
  option_map (fun t => WeekDay (LocalTime h t)) t.

(** A number written with exactly [width] decimal digits (its low
    digits, zero-padded), as the fields of an ISO date are. *)
Definition digit_char (n : Z) : ascii := ascii_of_N (48 + Z.to_N (n mod 10)).

Fixpoint digits (width : nat) (n : Z) : string :=
  match width with
  | O => EmptyString
  | S w => digits w (n / 10) +:+ String (digit_char n) EmptyString
  end.

(** [toISOString()]: the UTC fields; a year in 0..9999 has four digits,
    any other year a sign and six digits; an invalid date throws. *)
Definition toISOString (t : option Z) : completion string :=
  match t with
  | None => Throw (RangeError "Invalid time value")
  | Some t =>
      let y := YearFromTime t in
      let ms := t mod msPerDay in
      let year :=
        if (0 <=? y) && (y <=? 9999) then digits 4 y
        else (if y <? 0 then "-" else "+") +:+ digits 6 (Z.abs y) in
      Normal (year +:+ "-" +:+ digits 2 (MonthFromTime t + 1)
                +:+ "-" +:+ digits 2 (DateFromTime t)
                +:+ "T" +:+ digits 2 (ms / 3600000)
                +:+ ":" +:+ digits 2 (ms / 60000 mod 60)
                +:+ ":" +:+ digits 2 (ms / 1000 mod 60)
                +:+ "." +:+ digits 3 (ms mod 1000) +:+ "Z")
  end.

(** [s.slice(0, 10)]. *)
Definition slice_0_10 (s : string) : string := String.substring 0 10 s.

End JSDate.

(** ** The defensive revision (with [ErrorBoundary], [buildMonthGrid] and
    [ModalContent]) *)

Module DefensiveChecker.

Definition residence : string := "IN".
Definition citizenship : string := "IN".
Definition pincode : string := "110001".

Definition demo_city (name nextDate : string) (allDates : list string) (address : string)
  : City.t :=
  {| City.name := JStr name; City.nextDate := JStr nextDate;
     City.allDates := JArr (map JStr allDates); City.address := JStr address |}.

Definition demo_FR : SlotSummary.t :=
  {| SlotSummary.nextDate := JStr "2025-12-15";
     SlotSummary.isAvailable := true;
     SlotSummary.cities :=
       [ demo_city "Ahmedabad" "2025-12-15" ["2025-12-15"; "2025-12-16"; "2025-12-17"]
           "VFS Global Ahmedabad, Some Street, Ahmedabad, 380001";
         demo_city "Bangalore" "2025-12-15" ["2025-12-15"; "2025-12-18"]
           "VFS Bangalore, Address line, Bangalore, 560001" ];
     SlotSummary.raw := note "Demo slots for France used because API could not be reached." |}.

Definition demo_CH : SlotSummary.t :=
  {| SlotSummary.nextDate := JStr "2025-12-15";
     SlotSummary.isAvailable := true;
     SlotSummary.cities :=
       [ demo_city "Ahmedabad" "2025-12-15" ["2025-12-15"; "2025-12-20"]
           "Switzerland VFS Ahmedabad, Some Street, Ahmedabad, 380001";
         demo_city "Bangalore" "2025-12-15" ["2025-12-15"; "2025-12-22"]
           "Switzerland VFS Bangalore, Address line, Bangalore, 560001" ];
     SlotSummary.raw := note "Demo slots for Switzerland used because API could not be reached." |}.

(** The own properties of [DEMO_SLOTS] (see [Checker.DEMO_SLOTS]). *)
Definition DEMO_SLOTS (k : string) : option SlotSummary.t :=
  if String.eqb k "FR" then Some demo_FR
  else if String.eqb k "CH" then Some demo_CH
  else None.

(** The callback of the two [.map] calls in
    [extractSummaryFromSlotsData]. *)
Definition city_of (c : jsval) : completion City.t :=
  name ← get c "centre_name_fe" ||| get c "centre_name" ||| get c "cityName"
           ||| get c "name" ||| get c "city" ||| Normal (JStr "-");
  primaryDate ← get c "earliest_date"
           ||| (Array_isArray (get c "actual_dates") &&& (get c "actual_dates" ≫= first_elem))
           ||| (Array_isArray (get c "all_dates") &&& (get c "all_dates" ≫= first_elem))
           ||| get c "nextDate" ||| get c "firstAvailable" ||| Normal JNull;
  allDates ← (Array_isArray (get c "actual_dates") &&& get c "actual_dates")
           ||| (Array_isArray (get c "all_dates") &&& get c "all_dates")
           ||| Normal (JArr []);
  address ← get c "address" ||| get c "center_address" ||| get c "vfs_address"
           ||| get c "location" ||| Normal JNull;
  mret {| City.name := name; City.nextDate := primaryDate;
          City.allDates := allDates; City.address := address |}.

Definition summary (nextDate : jsval) (cities : list City.t) (isAvailable : bool)
  : SlotSummary.t :=
  {| SlotSummary.nextDate := nextDate; SlotSummary.isAvailable := isAvailable;
     SlotSummary.cities := cities; SlotSummary.raw := JUndefined |}.

(** The body of the [try] block of [extractSummaryFromSlotsData]. *)
Definition extractSummary_body (data : jsval) : completion SlotSummary.t :=
  if negb (truthy data) then mret (summary JNull [] false)
  else
    centre_dates ← get data "centre_dates";
    if isArray centre_dates then
      cities ← mapM city_of (elems_of centre_dates);
      nextDate ← get data "earliest_available_date"
                   ||| Normal (found_nextDate cities) ||| Normal JNull;
      mret (summary nextDate cities (nonempty cities))
    else if truthy data && typeof_object data then
      match List.filter isArray (Object_values data) with
      | arr :: _ =>
          cities ← mapM city_of (elems_of arr);
          nextDate ← Normal (found_nextDate cities) ||| Normal JNull;
          mret (summary nextDate cities (nonempty cities))
      | [] => mret (summary JNull [] false)
      end
    else mret (summary JNull [] false).

Definition extractSummaryFromSlotsData (data : jsval) : M SlotSummary.t :=
  try_catch (lift (extractSummary_body data))
    (fun e =>
       emit (Console ErrorLevel "extractSummaryFromSlotsData error" [LExn e]);;
       mret (summary JNull [] false)).

Definition countries_url : string :=
  "https://api.atlys.com/api/v3/countries?citizenship=" +:+ citizenship
    +:+ "&residence=" +:+ residence +:+ "&pincode=" +:+ pincode
    +:+ "&isEnterprise=false".

Definition countries_list (data : jsval) : list jsval :=
  if isArray data then elems_of data
  else if truthy data && typeof_object data then
    if isArray (prop data "countries") then elems_of (prop data "countries")
    else if isArray (prop data "data") then elems_of (prop data "data")
    else []
  else [].

Definition country_of (c : jsval) : completion Country.t :=
  code ← get c "code" ||| get c "iso2_code" ||| get c "countryCode" ||| get c "alpha2"
           ||| get c "iso2" ||| get c "iso" ||| get c "country_code" ||| Normal (JStr "");
  name ← get c "name" ||| get c "countryName" ||| get c "label" ||| get c "title"
           ||| Normal (JStr "Unknown");
  mret {| Country.code := code; Country.name := name;
          Country.__raw := c; Country.availableSummary := JNull |}.

Definition countries_unreachable : string :=
  "Could not reach Atlys countries API. Showing demo data.".

Definition count {A : Type} (l : list A) : logged := LVal (JNum (Z.of_nat (List.length l))).

Definition fetchCountries (h : Host) : M unit :=
  emit (SetLoadingCountryCodes true);;
  emit (SetError None);;
  emit (Console DebugLevel "fetchCountries start" []);;
  if negb (has_fetch h) then
    emit (SetOfflineMode true);;
    emit (SetCountries DEMO_COUNTRIES);;
    emit (SetFiltered DEMO_COUNTRIES);;
    emit (SetLoadingCountryCodes false);;
    emit (SetError (Some "Preview mode: showing demo countries."));;
    emit (SetLastUpdatedAt (Date_now h))
  else
    finally
      (try_catch
         ('(ok, status, json) ← do_fetch h countries_url;
          (if negb ok
           then throw (Error ("Countries API returned " +:+ show_Z status))
           else mret tt);;
          data ← lift json;
          emit (SetCountriesRawDebug data);;
          mapped ← lift (mapM country_of (countries_list data));
          emit (SetOfflineMode false);;
          emit (SetCountries mapped);;
          emit (SetFiltered mapped);;
          emit (Console DebugLevel "fetchCountries success" [count mapped]))
         (fun err =>
            emit (Console ErrorLevel "fetchCountries error" [LExn err]);;
            emit (SetOfflineMode true);;
            emit (SetError (Some countries_unreachable));;
            emit (SetCountries DEMO_COUNTRIES);;
            emit (SetFiltered DEMO_COUNTRIES)))
      (emit (SetLoadingCountryCodes false);;
       emit (SetLastUpdatedAt (Date_now h))).

(** The template literal of the slots request, around the encoded
    country code. *)
Definition slots_url_with (encoded : string) : string :=
  "https://api.atlys.com/api/v2/application/slots/" +:+ encoded
    +:+ "?residence=" +:+ residence +:+ "&citizenship=" +:+ citizenship
    +:+ "&purpose=atlys_black&travellersCount=1&withAllSlots=true&getCitiesWiseSlots=true".

(** The URL of the slots request, for a country code that
    [encodeURIComponent] accepts. *)
Definition slots_url (countryCode : string) : string :=
  slots_url_with (uri_escape countryCode).

Definition slots_unreachable (countryCode : string) : string :=
  "Could not reach Atlys slots API for " +:+ countryCode +:+ ".".

(** The [try] / [catch] / [finally] statement of [fetchSlotsForCountry]. *)
Definition request_slots (h : Host) (code : string) : M unit :=
  finally
    (try_catch
       (encoded ← lift (encodeURIComponent code);
        '(ok, status, json) ← do_fetch h (slots_url_with encoded);
        (if negb ok
         then throw (Error ("Slots API returned " +:+ show_Z status))
         else mret tt);;
        data ← try_catch (lift json)
                 (fun jsonErr =>
                    emit (Console WarnLevel "Failed to parse slots JSON" [LExn jsonErr]);;
                    mret JNull);
        summary ← extractSummaryFromSlotsData data;
        emit (SetSlotsByCountry code (with_raw summary data));;
        emit (Console DebugLevel "fetchSlotsForCountry success"
                [LVal (JStr code); count (SlotSummary.cities summary)]))
       (fun err =>
          emit (Console ErrorLevel "Slots fetch failed" [LExn err]);;
          emit (SetError (Some (slots_unreachable code)));;
          match DEMO_SLOTS code with
          | Some demo => emit (SetSlotsByCountry code demo)
          | None => emit (SetSlotsByCountry code unreachable_fallback)
          end))
    (emit (SetLoadingSlots "");;
     emit (SetLastUpdatedAt (Date_now h))).

Definition fetchSlotsForCountry (h : Host) (st : State) (countryCode : code_arg) : M unit :=
  match countryCode with
  | CodeUndefined | CodeNull | Code EmptyString => mret tt
  | Code code =>
    if String.eqb (loadingSlots st) code then mret tt
    else if has_slots (slotsByCountry st) code then
      emit (Console DebugLevel "slots cached for" [LVal (JStr code)])
    else
      emit (SetLoadingSlots code);;
      emit (SetError None);;
      emit (Console DebugLevel "fetchSlotsForCountry start" [LVal (JStr code)]);;
      if offlineMode st || negb (has_fetch h) then
        (match DEMO_SLOTS code with
         | Some demo => emit (SetSlotsByCountry code demo)
         | None => emit (SetSlotsByCountry code offline_fallback)
         end);;
        emit (SetLoadingSlots "");;
        emit (SetLastUpdatedAt (Date_now h));;
        emit (Console DebugLevel "fetchSlotsForCountry offline fallback" [LVal (JStr code)])
      else request_slots h code
  end.

Definition getCountryCode (obj : Country.t) : completion jsval :=
  Normal (Country.code obj)
    ||| Normal JUndefined
    ||| (Normal (Country.__raw obj)
           &&& (get (Country.__raw obj) "iso2_code" ||| get (Country.__raw obj) "iso2"
                  ||| get (Country.__raw obj) "code" ||| get (Country.__raw obj) "countryCode"))
    ||| Normal JUndefined
    ||| Normal JUndefined
    ||| Normal JUndefined
    ||| Normal (JStr "").

Definition matches (h : Host) (lq : string) (c : Country.t) : completion bool :=
  name ← (Normal (Country.name c) ||| Normal (JStr "")) ≫= call_toLowerCase h;
  if includes name lq then mret true
  else
    code ← (Normal (Country.code c) ||| Normal (JStr "")) ≫= call_toLowerCase h;
    mret (includes code lq).

Definition onSearch (h : Host) (st : State) (q : string) : M unit :=
  emit (SetQuery q);;
  match q with
  | EmptyString => emit (SetFiltered (countries st))
  | _ =>
      let lq := toLowerCase h q in
      kept ← lift (filterM (matches h lq) (countries st));
      emit (SetFiltered kept)
  end.

(** [activeCity?.name] in [ModalContent]. *)
Definition activeCity_name (c : option City.t) : jsval :=
  match c with Some city => City.name city | None => JUndefined end.

(** [focusedIsoDate || (datesForActiveCity[0] || null)]. *)
Definition booked_date (focusedIsoDate : option string) (datesForActiveCity : list jsval)
  : jsval :=
  match focusedIsoDate with
  | Some (String a rest) => JStr (String a rest)
  | _ => jor (match datesForActiveCity with d :: _ => d | [] => JUndefined end) JNull
  end.

(** The [onClick] of the "Book This Appointment" button of
    [ModalContent]; its free variables are the props and locals of the
    render that shows the button. *)
Definition onBookClick (selectedCountry : Country.t) (code : jsval)
    (activeCity : option City.t) (focusedIsoDate : option string)
    (datesForActiveCity : list jsval) : M unit :=
  emit (Console DebugLevel "Book appointment"
          [LVal (JObj [ ("country", Country.name selectedCountry);
                        ("countryCode", code);
                        ("center", activeCity_name activeCity);
                        ("date", booked_date focusedIsoDate datesForActiveCity) ])]);;
  emit (Alert "Booking flow placeholder â€” integrate your booking endpoint here.").

(** *** [buildMonthGrid] *)

Record MonthGrid : Type := {
  weeks : list (list string);
  year : option Z;
  monthIndex : option Z;
  availableSet : gset string;
  selectedIso : option string
}.

(** [focusedIso || (isoDates && isoDates[0]) || null]; [None] is
    [null]. *)
Definition selected_of (isoDates : list string) (focusedIso : option string)
  : option string :=
  match focusedIso with
  | Some (String a rest) => Some (String a rest)
  | _ =>
      match isoDates with
      | String a rest :: _ => Some (String a rest)
      | _ => None
      end
  end.

(** [selected ? new Date(selected) : new Date()]. *)
Definition anchor_of (h : Host) (selected : option string) : option Z :=
  match selected with
  | Some s => Date_parse h s
  | None => Some (Date_now h)
  end.

(** The callback of [isoDates.map]: the UTC day of the parsed date, or
    the string itself when [toISOString] throws. *)
Definition available_day (h : Host) (d : string) : string :=
  match JSDate.toISOString (Date_parse h d) with
  | Normal iso => JSDate.slice_0_10 iso
  | Throw _ => d
  end.

(** [new Array(startDay).fill("")]. *)
Definition blanks (startDay : option Z) : completion (list string) :=
  match startDay with
  | Some n =>
      if (0 <=? n) && (n <? 4294967296) then Normal (repeat EmptyString (Z.to_nat n))
      else Throw (RangeError "Invalid array length")
  | None => Throw (RangeError "Invalid array length")
  end.

(** The days [1 .. daysInMonth] the [for] loop visits; none when
    [daysInMonth] is [NaN]. *)
Definition days_of (daysInMonth : option Z) : list Z :=
  match daysInMonth with
  | Some n => map Z.of_nat (seq 1 (Z.to_nat n))
  | None => []
  end.

(** The [for] loop: each day's cell is pushed on [week], and a full
    [week] is moved to [weeks]. *)
Fixpoint fill_weeks (h : Host) (year month : option Z) (days : list Z)
    (weeks : list (list string)) (week : list string)
  : completion (list (list string) * list string) :=
  match days with
  | [] => Normal (weeks, week)
  | day :: rest =>
      iso ← JSDate.toISOString (JSDate.make h year month (Some day));
      let week := week ++ [JSDate.slice_0_10 iso] in
      if (List.length week =? 7)%nat
      then fill_weeks h year month rest (weeks ++ [week]) []
      else fill_weeks h year month rest weeks week
  end.

(** [if (week.length) { while (week.length < 7) week.push(""); weeks.push(week) }]. *)
Definition flush (weeks : list (list string)) (week : list string) : list (list string) :=
  match week with
  | [] => weeks
  | _ => weeks ++ [week ++ repeat EmptyString (7 - List.length week)]
  end.

Definition buildMonthGrid (h : Host) (isoDates : list string) (focusedIso : option string)
  : M MonthGrid :=
  try_catch
    (lift
       (let selected := selected_of isoDates focusedIso in
        let anchor := anchor_of h selected in
        let year := JSDate.getFullYear h anchor in
        let month := JSDate.getMonth h anchor in
        let firstOfMonth := JSDate.make h year month (Some 1) in
        let startDay := JSDate.getDay h firstOfMonth in
        let daysInMonth :=
          JSDate.getDate h (JSDate.make h year (option_map (Z.add 1) month) (Some 0)) in
        let availableSet : gset string := list_to_set (map (available_day h) isoDates) in
        week ← blanks startDay;
        '(weeks, week) ← fill_weeks h year month (days_of daysInMonth) [] week;
        mret {| weeks := flush weeks week; year := year; monthIndex := month;
                availableSet := availableSet; selectedIso := selected |}))
    (fun e =>
       emit (Console ErrorLevel "buildMonthGrid error" [LExn e]);;
       mret {| weeks := [];
               year := JSDate.getFullYear h (Some (Date_now h));
               monthIndex := JSDate.getMonth h (Some (Date_now h));
               availableSet := ∅; selectedIso := None |}).

(** *** [CalendarGrid] *)

(** [a === b] on two numbers either of which may be [NaN]. *)
Definition same_number (a b : option Z) : bool :=
  match a, b with
  | Some x, Some y => x =? y
  | _, _ => false
  end.

(** The callback of [dates.filter]: the date falls, in local time, in
    the year and month of the anchor.  ([new Date(d)] does not throw, so
    the [catch] of the callback is never entered.) *)
Definition in_month (h : Host) (year month : option Z) (d : string) : bool :=
  same_number (JSDate.getFullYear h (Date_parse h d)) year
  && same_number (JSDate.getMonth h (Date_parse h d)) month.

(** A day button of the calendar: its date, whether it can be picked,
    whether it is shown as selected, and the number it displays,
    [new Date(iso).getDate()]. *)
Record CalendarCell : Type := {
  cell_iso : string;
  cell_available : bool;
  cell_selected : bool;
  cell_label : option Z
}.

(** The element rendered for a cell of the grid: an empty [div]
    ([None]) for a blank, else a day button. *)
Definition calendar_cell (h : Host) (grid : MonthGrid) (iso : string)
  : option CalendarCell :=
  match iso with
  | EmptyString => None
  | _ =>
      Some {| cell_iso := iso;
              cell_available := bool_decide (iso ∈ availableSet grid);
              cell_selected :=
                match selectedIso grid with
                | Some s => String.eqb iso s
                | None => false
                end;
              cell_label := JSDate.getDate h (Date_parse h iso) |}
  end.

(** [CalendarGrid({ dates, focusedIso, onPick })]: the rows of cells it
    renders, or [None] for the error message of its [catch].  The
    heading (the month in words) is left out. *)
Definition CalendarGrid (h : Host) (dates : list string) (focusedIso : option string)
  : M (option (list (list (option CalendarCell)))) :=
  try_catch
    (let anchorIso := selected_of dates focusedIso in
     let anchorDate := anchor_of h anchorIso in
     let year := JSDate.getFullYear h anchorDate in
     let month := JSDate.getMonth h anchorDate in
     let monthDates := List.filter (in_month h year month) dates in
     grid ← buildMonthGrid h monthDates anchorIso;
     mret (Some (map (map (calendar_cell h grid)) (weeks grid))))
    (fun e =>
       emit (Console ErrorLevel "CalendarGrid render error" [LExn e]);;
       mret None).

(** The [onClick] of a day button: [available && onPick(iso)], where
    [onPick] is [setFocusedIsoDate]. *)
Definition onDayClick (cell : CalendarCell) : M unit :=
  if cell_available cell then emit (SetSelectedDate (Some (cell_iso cell))) else mret tt.

(** *** [ModalContent] *)

(** [getCountryCode(selectedCountry) || selectedCountry.code || ""],
    the [code] of [ModalContent]. *)
Definition modal_code (selectedCountry : Country.t) : completion jsval :=
  getCountryCode selectedCountry ||| Normal (Country.code selectedCountry)
    ||| Normal (JStr "").

(** [cities[selectedCityIndex] || cities[0] || null]. *)
Definition activeCity (cities : list City.t) (selectedCityIndex : nat) : option City.t :=
  match nth_error cities selectedCityIndex with
  | Some city => Some city
  | None => head cities
  end.

(** [datesForActiveCity]: the dates of the active city when [allDates]
    is a non-empty array, else its [nextDate] alone when it is truthy,
    else none. *)
Definition datesForActiveCity (activeCity : option City.t) : list jsval :=
  match activeCity with
  | Some city =>
      if isArray (City.allDates city) && nonempty (elems_of (City.allDates city))
      then elems_of (City.allDates city)
      else if truthy (City.nextDate city) then [City.nextDate city] else []
  | None => []
  end.

(** The [onClick] of "Previous Slot" and of "Next Slot", the dates being
    strings as [allDates: string[]] declares. *)
Definition onPreviousSlotClick (datesForActiveCity : list string)
    (focusedIsoDate : option string) : M unit :=
  match datesForActiveCity with
  | [] => mret tt
  | first :: _ =>
      let current :=
        match focusedIsoDate with Some (String a rest) => String a rest | _ => first end in
      let idx := indexOf datesForActiveCity current in
      match at_index datesForActiveCity (idx - 1) with
      | Some (String a rest) => emit (SetSelectedDate (Some (String a rest)))
      | _ => mret tt
      end
  end.

Definition onNextSlotClick (datesForActiveCity : list string)
    (focusedIsoDate : option string) : M unit :=
  match datesForActiveCity with
  | [] => mret tt
  | first :: _ =>
      let current :=
        match focusedIsoDate with Some (String a rest) => String a rest | _ => first end in
      let idx := indexOf datesForActiveCity current in
      match at_index datesForActiveCity (idx + 1) with
      | Some (String a rest) => emit (SetSelectedDate (Some (String a rest)))
      | _ => mret tt
      end
  end.

(** *** [extractAddress] *)

(** [a.toLowerCase().includes(b.toLowerCase())]. *)
Definition lower_includes (h : Host) (a b : jsval) : completion jsval :=
  la ← call_toLowerCase h a;
  lb ← call_toLowerCase h b;
  mret (JBool (includes la lb)).

(** [city] as the operand of [&&] and [!]: an object or [null]. *)
Definition city_operand (city : option City.t) : jsval :=
  match city with Some _ => JBool true | None => JNull end.

Definition city_name (city : option City.t) : jsval :=
  match city with Some c => City.name c | None => JUndefined end.

(** [c[field] && city && city.name
     && c[field].toLowerCase().includes(city.name.toLowerCase())]. *)
Definition name_matches (h : Host) (c : jsval) (city : option City.t) (field : string)
  : completion jsval :=
  get c field &&& Normal (city_operand city) &&& Normal (city_name city)
    &&& lower_includes h (prop c field) (city_name city).

(** The body of the inner [for] loop: [Some addr] when it returns. *)
Definition centre_address (h : Host) (city : option City.t) (c : jsval)
  : completion (option jsval) :=
  nameMatch ← name_matches h c city "centre_name" ||| name_matches h c city "cityName";
  addr ← get c "address" ||| get c "center_address" ||| get c "vfs_address"
         ||| get c "location" ||| get c "address_text" ||| get c "address_line";
  if (truthy nameMatch || negb (truthy (city_operand city))) && truthy addr
  then mret (Some addr) else mret None.

Fixpoint scan_centres (h : Host) (city : option City.t) (arr : list jsval)
  : completion (option jsval) :=
  match arr with
  | [] => Normal None
  | c :: rest =>
      r ← centre_address h city c;
      match r with
      | Some addr => Normal (Some addr)
      | None => scan_centres h city rest
      end
  end.

Fixpoint scan_arrays (h : Host) (city : option City.t) (arrays : list jsval)
  : completion (option jsval) :=
  match arrays with
  | [] => Normal None
  | arr :: rest =>
      r ← scan_centres h city (elems_of arr);
      match r with
      | Some addr => Normal (Some addr)
      | None => scan_arrays h city rest
      end
  end.

(** [slot && slot.raw]: the payload kept with the summary, when there is
    a summary and the payload is truthy. *)
Definition raw_of (slot : option SlotSummary.t) : option jsval :=
  match slot with
  | Some s => if truthy (SlotSummary.raw s) then Some (SlotSummary.raw s) else None
  | None => None
  end.

(** [extractAddress(city, slot)], [city] being the active city or
    [null] and [slot] the stored summary or [null].  A city has no
    [vfs_address] field. *)
Definition extractAddress (h : Host) (city : option City.t) (slot : option SlotSummary.t)
  : M jsval :=
  try_catch
    (lift
       (let own :=
          match city with Some c => jor (City.address c) JUndefined | None => JNull end in
        if truthy own then mret own
        else
          found ← match raw_of slot with
                  | Some raw => scan_arrays h city (List.filter isArray (Object_values raw))
                  | None => Normal None
                  end;
          match found with
          | Some addr => mret addr
          | None =>
              match raw_of slot with
              | Some raw =>
                  if truthy (prop raw "address") then mret (prop raw "address")
                  else if truthy (prop raw "contact") && typeof_string (prop raw "contact")
                       then mret (prop raw "contact")
                       else mret JNull
              | None => mret JNull
              end
          end))
    (fun e =>
       emit (Console ErrorLevel "extractAddress error" [LExn e]);;
       mret JNull).

End DefensiveChecker.

(** ** A concrete host, for the examples

    ASCII lower-casing, the ISO date-only format [YYYY-MM-DD] (which
    ECMAScript reads as UTC midnight), and a fixed offset of local time
    in minutes east of UTC. *)

Definition lower_ascii (a : ascii) : ascii :=
  if is_upper a then ascii_of_N (N_of_ascii a + 32) else a.

Fixpoint lower (s : string) : string :=
  match s with
  | EmptyString => EmptyString
  | String a rest => String (lower_ascii a) (lower rest)
  end.

Definition digit_value (a : ascii) : option Z :=
  if is_digit a then Some (Z.of_N (N_of_ascii a) - 48) else None.

Fixpoint number_of (acc : Z) (s : string) : option Z :=
  match s with
  | EmptyString => Some acc
  | String a rest =>
      match digit_value a with
      | Some d => number_of (10 * acc + d) rest
      | None => None
      end
  end.

Definition parse_iso_date (s : string) : option Z :=
  if (String.length s =? 10)%nat
     && String.eqb (String.substring 4 1 s) "-" && String.eqb (String.substring 7 1 s) "-"
  then
    match number_of 0 (String.substring 0 4 s),
          number_of 0 (String.substring 5 2 s),
          number_of 0 (String.substring 8 2 s) with
    | Some y, Some m, Some d =>
        if (1 <=? m) && (m <=? 12) && (1 <=? d) && (d <=? 31)
        then Some (JSDate.days_from_civil y m d * JSDate.msPerDay)
        else None
    | _, _, _ => None
    end
  else None.

Definition browser (offset_minutes : Z) (response : fetch_outcome) : Host :=
  {| has_fetch := true;
     fetch := fun _ => response;
     Date_now := 1762128000000;
     toLowerCase := lower;
     Date_parse := parse_iso_date;
     LocalTZA := fun _ _ => offset_minutes * 60000 |}.

(** Outcomes of a request: the network is down, the server answers 503,
    the server answers 200 with a page that is not JSON. *)
Definition network_down : fetch_outcome := Rejects (TypeError "Failed to fetch").
Definition unavailable : fetch_outcome := Resolves false 503 (Normal JNull).
Definition not_json : fetch_outcome :=
  Resolves true 200 (Throw (SyntaxError "Unexpected token '<' is not valid JSON")).

(** A countries payload that carries its list under [data]. *)
Definition sample_payload : jsval :=
  JObj [("data", JArr [JObj [("iso2_code", JStr "PT"); ("label", JStr "Portugal")]])].

(** A countries payload whose only record has a number as [code], and
    the state [fetchCountries] leaves for it. *)
Definition numeric_code_payload : jsval :=
  JArr [JObj [("name", JStr "France"); ("code", JNum 33)]].

Definition numeric_code_state : State :=
  run (trace (Checker.fetchCountries
                (browser 330 (Resolves true 200 (Normal numeric_code_payload)))))
      initial_state.

(** The string that [JSON.parse] reads from the escape of the lone
    surrogate U+D800: the bytes [ED A0 80]. *)
Definition lone_surrogate : string :=
  String (ascii_of_N 237) (String (ascii_of_N 160) (String (ascii_of_N 128) EmptyString)).

(** ** The properties, in the words of the specification *)

(** A handler "only logs": every effect it performs is a console call. *)
Definition only_logs (effs : list effect) : Prop := Forall (fun e => is_console e = true) effs.

(** A handler performs no state update. *)
Definition no_state_update (effs : list effect) : Prop :=
  Forall (fun e => is_state_update e = false) effs.

(** The invariant of a summary: available exactly when it has cities. *)
Definition available_iff_cities (s : SlotSummary.t) : Prop :=
  SlotSummary.isAvailable s = true <-> SlotSummary.cities s <> [].

(** An input of [extractSummaryFromSlotsData] that matches none of the
    recognized shapes: [null] or [undefined], or an object with no
    array-valued [centre_dates], no "not available" message and no
    array-valued field at all. *)
Definition unrecognised (h : Host) (data : jsval) : bool :=
  match data with
  | JNull | JUndefined => true
  | JObj ps =>
      negb (isArray (prop data "centre_dates"))
      && negb (Checker.says_not_available h (prop data "message"))
      && forallb (fun kv => negb (isArray (snd kv))) ps
  | _ => false
  end.

Definition code_fields : list string :=
  ["code"; "iso2_code"; "countryCode"; "alpha2"; "iso2"; "iso"; "country_code"].

Definition name_fields : list string := ["name"; "countryName"; "label"; "title"].

(** The first of [fields] whose value in [c] satisfies [p], else
    [default]. *)
Definition first_such (p : jsval -> bool) (fields : list string) (c default : jsval) : jsval :=
  match find p (map (prop c) fields) with
  | Some v => v
  | None => default
  end.

(** A field is present when the record holds a value for it (anything
    but [undefined] or [null]). *)
Definition present (v : jsval) : bool := negb (nullish v).

Definition first_present : list string -> jsval -> jsval -> jsval := first_such present.
Definition first_truthy : list string -> jsval -> jsval -> jsval := first_such truthy.

(** The internal shape of a country as the specification words it
    (the first field that is present), and as [||] picks it (the first
    field that is truthy). *)
Definition normalized_as_stated (c : jsval) : Country.t :=
  {| Country.code := first_present code_fields c (JStr "");
     Country.name := first_present name_fields c (JStr "Unknown");
     Country.__raw := c; Country.availableSummary := JNull |}.

Definition normalized (c : jsval) : Country.t :=
  {| Country.code := first_truthy code_fields c (JStr "");
     Country.name := first_truthy name_fields c (JStr "Unknown");
     Country.__raw := c; Country.availableSummary := JNull |}.

(** A country whose [code] and [name] are strings, as [type Country]
    declares. *)
Definition declared_strings (c : Country.t) : Prop :=
  exists n k, Country.name c = JStr n /\ Country.code c = JStr k.

Definition text (v : jsval) : string :=
  match v with JStr s => s | _ => EmptyString end.

(** [s] contains [q] as a substring, case-insensitively. *)
Definition contains_ci (h : Host) (q s : string) : Prop :=
  exists pre post, toLowerCase h s = pre +:+ toLowerCase h q +:+ post.

Definition search_hit (h : Host) (q : string) (c : Country.t) : Prop :=
  contains_ci h q (text (Country.name c)) \/ contains_ci h q (text (Country.code c)).

(** The object the "Book This Appointment" handler logs. *)
Definition booking (country countryCode center date : jsval) : logged :=
  LVal (JObj [("country", country); ("countryCode", countryCode);
              ("center", center); ("date", date)]).

(** The value a handler returned, if it returned. *)
Definition returned {A : Type} (m : M A) : option A :=
  match outcome m with Normal a => Some a | Throw _ => None end.

(** A week of the calendar has seven cells. *)
Definition full_week (week : list string) : Prop := List.length week = 7%nat.

(** The grid of December 2025 as the calendar should show it (the 1st is
    a Monday), and as [buildMonthGrid] builds it at UTC+05:30. *)
Definition december_2025 : list (list string) :=
  [ [""; "2025-12-01"; "2025-12-02"; "2025-12-03"; "2025-12-04"; "2025-12-05"; "2025-12-06"];
    ["2025-12-07"; "2025-12-08"; "2025-12-09"; "2025-12-10"; "2025-12-11"; "2025-12-12";
     "2025-12-13"];
    ["2025-12-14"; "2025-12-15"; "2025-12-16"; "2025-12-17"; "2025-12-18"; "2025-12-19";
     "2025-12-20"];
    ["2025-12-21"; "2025-12-22"; "2025-12-23"; "2025-12-24"; "2025-12-25"; "2025-12-26";
     "2025-12-27"];
    ["2025-12-28"; "2025-12-29"; "2025-12-30"; "2025-12-31"; ""; ""; ""] ].

Definition december_2025_shifted : list (list string) :=
  [ [""; "2025-11-30"; "2025-12-01"; "2025-12-02"; "2025-12-03"; "2025-12-04"; "2025-12-05"];
    ["2025-12-06"; "2025-12-07"; "2025-12-08"; "2025-12-09"; "2025-12-10"; "2025-12-11";
     "2025-12-12"];
    ["2025-12-13"; "2025-12-14"; "2025-12-15"; "2025-12-16"; "2025-12-17"; "2025-12-18";
     "2025-12-19"];
    ["2025-12-20"; "2025-12-21"; "2025-12-22"; "2025-12-23"; "2025-12-24"; "2025-12-25";
     "2025-12-26"];
    ["2025-12-27"; "2025-12-28"; "2025-12-29"; "2025-12-30"; ""; ""; ""] ].

(** The test [onSearch] applies to a country with string fields. *)
Definition hit (h : Host) (q : string) (c : Country.t) : bool :=
  includes (toLowerCase h (text (Country.name c))) (toLowerCase h q)
  || includes (toLowerCase h (text (Country.code c))) (toLowerCase h q).

(** The countries request, or the slots request, fails: [fetch] throws or
    the status is not OK. *)
Definition request_fails (h : Host) (url : string) : Prop :=
  (exists e, fetch h url = Rejects e)
  \/ (exists status json, fetch h url = Resolves false status json).

(** The body of an OK response does not parse as JSON. *)
Definition body_unparsable (h : Host) (url : string) : Prop :=
  exists status e, fetch h url = Resolves true status (Throw e).

(** A call of [fetchSlotsForCountry] that reaches the network: a
    non-empty code under which [slotsByCountry] reads falsy (nothing
    stored, and not an inherited name), on line, for which the URL can
    be built (a code that holds no lone surrogate). *)
Definition issues_request (h : Host) (st : State) (code : string) : Prop :=
  code <> EmptyString /\ has_slots (slotsByCountry st) code = false
  /\ offlineMode st = false /\ has_fetch h = true
  /\ has_lone_surrogate code = false.

(** The characters [encodeURIComponent] can produce. *)
Definition uri_safe (a : ascii) : bool :=
  uri_unreserved a || Ascii.eqb a "%" || is_digit a
  || existsb (Ascii.eqb a) ["A"; "B"; "C"; "D"; "E"; "F"]%char.

Definition slots_query_names : list string :=
  ["residence"; "citizenship"; "purpose"; "travellersCount"; "withAllSlots";
   "getCitiesWiseSlots"].

(** [url] is the URL of the slots request for [code]: its path is
    [/application/slots/] (on the API host) followed by
    [encodeURIComponent(code)], which holds only unreserved characters
    and [%XX] escapes, and its query has exactly the six parameters. *)
Definition slots_request_for (code url : string) : Prop :=
  exists encoded,
    encodeURIComponent code = Normal encoded
    /\ forallb uri_safe (list_ascii_of_string encoded) = true
    /\ url_path url = "https://api.atlys.com/api/v2/application/slots/" +:+ encoded
    /\ url_query_names url = slots_query_names.

(** The argument is empty ([undefined], [null] or [""]) or names a
    country whose slots are already stored. *)
Definition cached_or_empty (st : State) (countryCode : code_arg) : Prop :=
  countryCode = CodeUndefined \/ countryCode = CodeNull \/ countryCode = Code EmptyString
  \/ exists code, countryCode = Code code /\ is_Some (slotsByCountry st !! code).

(** What the [catch] block of [fetchCountries] leaves behind. *)
Definition shows_demo_countries (final : State) : Prop :=
  countries final = DEMO_COUNTRIES /\ filtered final = DEMO_COUNTRIES
  /\ offlineMode final = true
  /\ error final = Some "Could not reach Atlys countries API. Showing demo data.".

(** What the [catch] block of [fetchSlotsForCountry] stores: the demo
    entry when [DEMO_SLOTS] has one for the code, else the fallback
    record. *)
Definition demo_or_fallback (demo_slots : string -> option SlotSummary.t) (code : string)
  : SlotSummary.t :=
  match demo_slots code with
  | Some demo => demo
  | None => unreachable_fallback
  end.

(** The slots of [code] were substituted with demo data, and the
    advisory error string is set. *)
Definition slots_substituted (demo_slots : string -> option SlotSummary.t) (code : string)
    (final : State) : Prop :=
  slotsByCountry final !! code = Some (demo_or_fallback demo_slots code)
  /\ error final = Some ("Could not reach Atlys slots API for " +:+ code +:+ ".").

(** What an unparsable body leaves behind instead: the empty summary
    with [raw: null], and no error string. *)
Definition slots_stored_empty (code : string) (final : State) : Prop :=
  slotsByCountry final !! code = Some (with_raw empty_summary JNull)
  /\ error final = None.

(** What the offline branch of [fetchSlotsForCountry] stores. *)
Definition demo_or_offline (demo_slots : string -> option SlotSummary.t) (code : string)
  : SlotSummary.t :=
  match demo_slots code with
  | Some demo => demo
  | None => offline_fallback
  end.

(** A call of [fetchSlotsForCountry] that stays off the network: a
    non-empty code under which [slotsByCountry] reads falsy (nothing
    stored, and not an inherited name), in offline mode or without
    [fetch]. *)
Definition stays_offline (h : Host) (st : State) (code : string) : Prop :=
  code <> EmptyString /\ has_slots (slotsByCountry st) code = false
  /\ (offlineMode st = true \/ has_fetch h = false).

(** The two halves of the slots URL around the encoded country code. *)
Definition slots_path : string := "https://api.atlys.com/api/v2/application/slots/".

Definition slots_query : string :=
  "residence=IN&citizenship=IN&purpose=atlys_black&travellersCount=1&withAllSlots=true&getCitiesWiseSlots=true".

(** Every summary the extraction builds has the form
    [{ nextDate, cities, isAvailable: !!cities.length }]. *)
Definition built_summary (s : SlotSummary.t) : Prop :=
  exists nextDate cities,
    s = Checker.summary nextDate cities (nonempty cities).

(** ** The calendar, for the month grid *)

(** The Gregorian leap years and the length of month [m] (1..12) of year
    [y]. *)
Definition is_leap (y : Z) : bool :=
  (y mod 4 =? 0) && (negb (y mod 100 =? 0) || (y mod 400 =? 0)).

Definition days_in_month (y m : Z) : Z :=
  if m =? 2 then (if is_leap y then 29 else 28)
  else if (m =? 4) || (m =? 6) || (m =? 9) || (m =? 11) then 30
  else 31.

(** The ISO date [YYYY-MM-DD] of a day. *)
Definition iso_date (y m d : Z) : string :=
  JSDate.digits 4 y +:+ "-" +:+ JSDate.digits 2 m +:+ "-" +:+ JSDate.digits 2 d.

(** The ISO date of the day before day [d] of month [m] of year [y]. *)
Definition eve (y m d : Z) : string :=
  if d =? 1 then
    (if m =? 1 then iso_date (y - 1) 12 31
     else iso_date y (m - 1) (days_in_month y (m - 1)))
  else iso_date y m (d - 1).

(** The coordinates [JSDate.days_from_civil] counts in: years that start
    in March, the month of such a year (0 is March), the day of such a
    year and the day of a 400-year era. *)
Definition shifted_year (y m : Z) : Z := if m <=? 2 then y - 1 else y.
Definition shifted_month (m : Z) : Z := if 2 <? m then m - 3 else m + 9.
Definition day_of_year (mp d : Z) : Z := (153 * mp + 2) / 5 + d - 1.
Definition day_of_era (yoe doy : Z) : Z := yoe * 365 + yoe / 4 - yoe / 100 + doy.

(** ** What the component keeps in [slotsByCountry] *)

(** A city as the extraction builds it: a truthy name (["-"] at
    least), an [allDates] that is an array, and a [nextDate] that is
    [null] or truthy. *)
Definition stored_city (c : City.t) : Prop :=
  truthy (City.name c) = true
  /\ isArray (City.allDates c) = true
  /\ (City.nextDate c = JNull \/ truthy (City.nextDate c) = true).

(** A summary as [fetchSlotsForCountry] stores it: available exactly
    when it has cities, each city a [stored_city], and a [nextDate] that
    is [null] or truthy. *)
Definition stored_summary (s : SlotSummary.t) : Prop :=
  SlotSummary.isAvailable s = nonempty (SlotSummary.cities s)
  /\ Forall stored_city (SlotSummary.cities s)
  /\ (SlotSummary.nextDate s = JNull \/ truthy (SlotSummary.nextDate s) = true).

(** The effect is no [setSlotsByCountry], or it stores a value that
    satisfies [P] under the key [k] satisfying [Q]. *)
Definition stores (Q : string -> Prop) (P : SlotSummary.t -> Prop) (e : effect) : Prop :=
  match e with
  | SetSlotsByCountry k v => Q k /\ P v
  | _ => True
  end.

(** What [fetchCountries] leaves behind, however the request went. *)
Definition countries_settled (h : Host) (live final : State) : Prop :=
  loadingCountryCodes final = false
  /\ lastUpdatedAt final = Some (Date_now h)
  /\ filtered final = countries final
  /\ query final = query live
  /\ slotsByCountry final = slotsByCountry live
  /\ selectedCountry final = selectedCountry live
  /\ (offlineMode final = true -> countries final = DEMO_COUNTRIES /\ error final <> None)
  /\ (offlineMode final = false -> error final = None).

(** ** The centres of a slots payload *)

(** The array of centre records the extraction maps: [data.centre_dates]
    when that is an array; else, in the first revision only, [data]
    itself when it is an array; else the first array among the values of
    [data] (in the first revision, unless [data.message] says "not
    available"); no record otherwise. *)
Definition centres (h : Host) (data : jsval) : list jsval :=
  if negb (truthy data) then []
  else if isArray (prop data "centre_dates") then elems_of (prop data "centre_dates")
  else if isArray data then elems_of data
  else if Checker.says_not_available h (prop data "message") then []
  else if typeof_object data then
    match List.filter isArray (Object_values data) with
    | arr :: _ => elems_of arr
    | [] => []
    end
  else [].

Definition defensive_centres (data : jsval) : list jsval :=
  if negb (truthy data) then []
  else if isArray (prop data "centre_dates") then elems_of (prop data "centre_dates")
  else if typeof_object data then
    match List.filter isArray (Object_values data) with
    | arr :: _ => elems_of arr
    | [] => []
    end
  else [].

Definition centre_name_fields : list string :=
  ["centre_name_fe"; "centre_name"; "cityName"; "name"; "city"].

Definition centre_address_fields : list string :=
  ["address"; "center_address"; "vfs_address"; "location"].

(** The first element of an array; [undefined] for anything else. *)
Definition first_of (a : jsval) : jsval :=
  match a with JArr (x :: _) => x | _ => JUndefined end.

(** The dates of a centre record: [actual_dates] when it is an array,
    else [all_dates] when it is an array, else none. *)
Definition centre_dates (c : jsval) : jsval :=
  if isArray (prop c "actual_dates") then prop c "actual_dates"
  else if isArray (prop c "all_dates") then prop c "all_dates"
  else JArr [].

(** The next date of a centre record: the first truthy of
    [earliest_date], the first of [actual_dates], the first of
    [all_dates], [nextDate] and [firstAvailable]; else [null]. *)
Definition centre_next (c : jsval) : jsval :=
  match find truthy [ prop c "earliest_date"; first_of (prop c "actual_dates");
                      first_of (prop c "all_dates"); prop c "nextDate";
                      prop c "firstAvailable" ] with
  | Some v => v
  | None => JNull
  end.

(** The city of a centre record, in the first revision and in the
    defensive one (which adds the address). *)
Definition city_of_centre (c : jsval) : City.t :=
  {| City.name := first_truthy centre_name_fields c (JStr "-");
     City.nextDate := centre_next c;
     City.allDates := centre_dates c;
     City.address := JUndefined |}.

Definition defensive_city_of_centre (c : jsval) : City.t :=
  {| City.name := first_truthy centre_name_fields c (JStr "-");
     City.nextDate := centre_next c;
     City.allDates := centre_dates c;
     City.address := first_truthy centre_address_fields c JNull |}.

(** The [nextDate] of the summary: [data.earliest_available_date] when
    the centres come from [data.centre_dates] and it is truthy, else the
    first truthy [nextDate] of a city, else [null]. *)
Definition summary_next (data : jsval) (cities : list City.t) : jsval :=
  if isArray (prop data "centre_dates")
  then jor (jor (prop data "earliest_available_date") (found_nextDate cities)) JNull
  else jor (found_nextDate cities) JNull.

(** What a call that reaches the end of [fetchSlotsForCountry] leaves
    behind: an entry for the code, no loading marker, the time of the
    update. *)
Definition slots_settled (h : Host) (code : string) (final : State) : Prop :=
  is_Some (slotsByCountry final !! code)
  /\ loadingSlots final = EmptyString
  /\ lastUpdatedAt final = Some (Date_now h).

(** ** Stepping through the dates of the modal *)

(** The state after a click on "Next Slot" ([direction] 1) or "Previous
    Slot" (-1) of the first revision, in the render of state [st] for a
    city with the dates [dates]. *)
Definition after_change (dates : list string) (direction : Z) (st : State) : State :=
  run (trace (Checker.changeSelectedDate
                (Some (dates, Checker.effectiveSelectedDate_of (selectedDate st) dates))
                direction)) st.

(** The same for the two buttons of [ModalContent]. *)
Definition after_next (dates : list string) (st : State) : State :=
  run (trace (DefensiveChecker.onNextSlotClick dates (selectedDate st))) st.

Definition after_previous (dates : list string) (st : State) : State :=
  run (trace (DefensiveChecker.onPreviousSlotClick dates (selectedDate st))) st.

(** A list of dates without repetition and without the empty string. *)
Definition distinct_dates (dates : list string) : Prop :=
  NoDup dates /\ Forall (fun d => d <> EmptyString) dates.

(** ** The day buttons of the calendar *)

(** The host reads a date-only ISO string as UTC midnight of that day,
    as ECMAScript prescribes. *)
Definition reads_iso_dates (h : Host) : Prop :=
  forall y m d, 0 <= y <= 9999 -> 1 <= m <= 12 -> 1 <= d <= days_in_month y m ->
    Date_parse h (iso_date y m d) = Some (JSDate.days_from_civil y m d * JSDate.msPerDay).

(** The ISO date of a day of a year 0..9999. *)
Definition iso_day (s : string) : Prop :=
  exists y m d, 0 <= y <= 9999 /\ 1 <= m <= 12 /\ 1 <= d <= days_in_month y m
                /\ s = iso_date y m d.

(** The day before day [d] of month [m] of year [y]. *)
Definition eve_of (y m d : Z) : Z * Z * Z :=
  if d =? 1 then
    (if m =? 1 then (y - 1, 12, 31) else (y, m - 1, days_in_month y (m - 1)))
  else (y, m, d - 1).

(** The day button the calendar shows at UTC for day [k] of the month
    of the anchor [iso_date y m d0]. *)
Definition day_button (dates : list string) (y m d0 k : Z)
  : option DefensiveChecker.CalendarCell :=
  Some {| DefensiveChecker.cell_iso := iso_date y m k;
          DefensiveChecker.cell_available := bool_decide (iso_date y m k ∈ dates);
          DefensiveChecker.cell_selected := String.eqb (iso_date y m k) (iso_date y m d0);
          DefensiveChecker.cell_label := Some k |}.

(** The day button the calendar shows east of UTC in the place of day
    [k]: the button of the day before. *)
Definition late_button (dates : list string) (y m d0 k : Z)
  : option DefensiveChecker.CalendarCell :=
  Some {| DefensiveChecker.cell_iso := eve y m k;
          DefensiveChecker.cell_available := bool_decide (eve y m k ∈ dates) && negb (k =? 1);
          DefensiveChecker.cell_selected := String.eqb (eve y m k) (iso_date y m d0);
          DefensiveChecker.cell_label := Some (snd (eve_of y m k)) |}.

(** * Proofs *)

(** ** The handler monad *)

Lemma run_app (t1 t2 : list effect) (s : State) : run (t1 ++ t2) s = run t2 (run t1 s).
Proof. unfold run. apply fold_left_app. Qed.

Lemma run_no_state_update (effs : list effect) (s : State) :
  no_state_update effs -> run effs s = s.
Proof.
  unfold no_state_update. intros Hall. revert s.
  induction Hall as [|e rest He _ IH]; intros s; [reflexivity|].
  cbn [run fold_left]. destruct e; try discriminate He; apply IH.
Qed.

Lemma bind_lift_normal {A B : Type} (a : A) (f : A -> M B) :
  (lift (Normal a) ≫= f) = f a.
Proof. unfold mbind, M_bind, lift. now destruct (f a). Qed.

Lemma encodeURIComponent_accepts (s : string) :
  has_lone_surrogate s = false -> encodeURIComponent s = Normal (uri_escape s).
Proof. unfold encodeURIComponent. now intros ->. Qed.

Lemma encodeURIComponent_rejects (s : string) :
  has_lone_surrogate s = true -> encodeURIComponent s = Throw (URIError "URI malformed").
Proof. unfold encodeURIComponent. now intros ->. Qed.

Lemma has_slots_stored (m : gmap string SlotSummary.t) (k : string) :
  is_Some (m !! k) -> has_slots m k = true.
Proof. intros [v Hv]. unfold has_slots. now rewrite Hv. Qed.

Lemma has_slots_false (m : gmap string SlotSummary.t) (k : string) :
  has_slots m k = false -> m !! k = None /\ inherited k = false.
Proof. unfold has_slots. destruct (m !! k); [discriminate|]. now split. Qed.

(** ** Skipping the request *)

(** C5: for a country code that already has an entry in [slotsByCountry],
    and for an empty code ([undefined], [null] or [""]),
    [fetchSlotsForCountry] returns at once: it issues no HTTP request and
    performs no state update, so every piece of state is unchanged.  In
    the first revision it performs no effect at all; in the defensive one
    at most a [console.debug]. *)
Theorem fetchSlots_skips_cached_or_empty (h : Host) (st : State) (countryCode : code_arg) :
  cached_or_empty st countryCode ->
  Checker.fetchSlotsForCountry h st countryCode = ([], Normal tt)
  /\ outcome (DefensiveChecker.fetchSlotsForCountry h st countryCode) = Normal tt
  /\ requests (trace (DefensiveChecker.fetchSlotsForCountry h st countryCode)) = []
  /\ no_state_update (trace (DefensiveChecker.fetchSlotsForCountry h st countryCode))
  /\ forall live : State,
       run (trace (Checker.fetchSlotsForCountry h st countryCode)) live = live
       /\ run (trace (DefensiveChecker.fetchSlotsForCountry h st countryCode)) live = live.
Proof.
  intros [-> | [-> | [-> | (code & -> & Hstored)]]];
    try (repeat split; solve [reflexivity | constructor]).
  apply has_slots_stored in Hstored.
  destruct code as [|a rest]; [repeat split; solve [reflexivity | constructor]|].
  unfold Checker.fetchSlotsForCountry, DefensiveChecker.fetchSlotsForCountry.
  rewrite Hstored.
  destruct (String.eqb (loadingSlots st) (String a rest));
    repeat split; try reflexivity; repeat constructor.
Qed.

Lemma fetchSlots_skips_cached_or_empty_witness :
  cached_or_empty
    (run [SetSlotsByCountry "FR" Checker.demo_FR] initial_state) (Code "FR")
  /\ Checker.fetchSlotsForCountry (browser 330 (Rejects (TypeError "Failed to fetch")))
       (run [SetSlotsByCountry "FR" Checker.demo_FR] initial_state) (Code "FR")
     = ([], Normal tt).
Proof.
  assert (Hc : cached_or_empty
                 (run [SetSlotsByCountry "FR" Checker.demo_FR] initial_state) (Code "FR")).
  { right; right; right. exists "FR". split; [reflexivity|].
    exists Checker.demo_FR. reflexivity. }
  split; [exact Hc|].
  exact (proj1 (fetchSlots_skips_cached_or_empty
                  (browser 330 (Rejects (TypeError "Failed to fetch"))) _ _ Hc)).
Defined.

(** ** Falling back to the demo countries *)

Lemma countries_url_same : DefensiveChecker.countries_url = Checker.countries_url.
Proof. reflexivity. Qed.

(** C2: whenever the countries request fails, because [fetch] throws or
    because the response status is not OK, [fetchCountries] sets both
    [countries] and [filtered] to [DEMO_COUNTRIES], sets [offlineMode] and
    sets the advisory error string (both revisions). *)
Theorem fetchCountries_failure_shows_demo (h : Host) (live : State) :
  has_fetch h = true ->
  request_fails h Checker.countries_url ->
  shows_demo_countries (run (trace (Checker.fetchCountries h)) live)
  /\ shows_demo_countries (run (trace (DefensiveChecker.fetchCountries h)) live)
  /\ outcome (Checker.fetchCountries h) = Normal tt
  /\ outcome (DefensiveChecker.fetchCountries h) = Normal tt.
Proof.
  intros Hfetch Hfails.
  unfold Checker.fetchCountries, DefensiveChecker.fetchCountries, do_fetch.
  rewrite countries_url_same, Hfetch.
  destruct Hfails as [[e He] | (status & json & He)]; rewrite He;
    repeat split; reflexivity.
Qed.

Lemma fetchCountries_failure_shows_demo_witness :
  shows_demo_countries
    (run (trace (Checker.fetchCountries (browser 330 (Resolves false 503 (Normal JNull)))))
         initial_state).
Proof.
  refine (proj1 (fetchCountries_failure_shows_demo
                   (browser 330 (Resolves false 503 (Normal JNull))) initial_state _ _)).
  - reflexivity.
  - right. exists 503, (Normal JNull). reflexivity.
Defined.

(** ** The slots request and its failures *)

Lemma fetchSlots_online (h : Host) (st : State) (code : string) :
  issues_request h st code ->
  Checker.fetchSlotsForCountry h st (Code code)
  = (emit (SetLoadingSlots code);; emit (SetError None);; Checker.request_slots h code).
Proof.
  intros (Hne & Hslots & Hoff & Hfetch & _).
  destruct code as [|a rest]; [congruence|].
  unfold Checker.fetchSlotsForCountry. now rewrite Hslots, Hoff, Hfetch.
Qed.

Lemma defensive_fetchSlots_online (h : Host) (st : State) (code : string) :
  issues_request h st code ->
  loadingSlots st <> code ->
  DefensiveChecker.fetchSlotsForCountry h st (Code code)
  = (emit (SetLoadingSlots code);; emit (SetError None);;
     emit (Console DebugLevel "fetchSlotsForCountry start" [LVal (JStr code)]);;
     DefensiveChecker.request_slots h code).
Proof.
  intros (Hne & Hslots & Hoff & Hfetch & _) Hloading.
  destruct code as [|a rest]; [congruence|].
  unfold DefensiveChecker.fetchSlotsForCountry.
  apply String.eqb_neq in Hloading. now rewrite Hloading, Hslots, Hoff, Hfetch.
Qed.

Lemma slots_url_same (code : string) :
  DefensiveChecker.slots_url code = Checker.slots_url code.
Proof. reflexivity. Qed.

(** The trace of a handler that starts with two state updates and goes on
    with [m]. *)
Lemma trace_prefixed {A : Type} (e1 e2 : effect) (m : M A) :
  trace (emit e1;; emit e2;; m) = e1 :: e2 :: trace m.
Proof. destruct m as [t [a|e]]; reflexivity. Qed.

Lemma trace_prefixed3 {A : Type} (e1 e2 e3 : effect) (m : M A) :
  trace (emit e1;; emit e2;; emit e3;; m) = e1 :: e2 :: e3 :: trace m.
Proof. destruct m as [t [a|e]]; reflexivity. Qed.

(** The trace of the request when it fails, and when the body does not
    parse. *)
Lemma request_slots_malformed (h : Host) (code : string) :
  has_lone_surrogate code = true ->
  trace (Checker.request_slots h code)
  = [ Console ErrorLevel "Slots fetch failed" [LExn (URIError "URI malformed")];
      SetError (Some (Checker.slots_unreachable code));
      SetSlotsByCountry code (demo_or_fallback Checker.DEMO_SLOTS code);
      SetLoadingSlots ""; SetLastUpdatedAt (Date_now h) ]
  /\ trace (DefensiveChecker.request_slots h code)
  = [ Console ErrorLevel "Slots fetch failed" [LExn (URIError "URI malformed")];
      SetError (Some (Checker.slots_unreachable code));
      SetSlotsByCountry code (demo_or_fallback DefensiveChecker.DEMO_SLOTS code);
      SetLoadingSlots ""; SetLastUpdatedAt (Date_now h) ].
Proof.
  intros Hcode.
  unfold Checker.request_slots, DefensiveChecker.request_slots, demo_or_fallback.
  rewrite (encodeURIComponent_rejects code Hcode). cbn.
  destruct (Checker.DEMO_SLOTS code), (DefensiveChecker.DEMO_SLOTS code);
    split; reflexivity.
Qed.

(** For a code that [encodeURIComponent] accepts, the request statement
    goes on with the URL of the code. *)
Ltac with_the_url Hcode :=
  unfold Checker.request_slots, DefensiveChecker.request_slots;
  rewrite (encodeURIComponent_accepts _ Hcode), !bind_lift_normal; cbv beta;
  repeat match goal with
         | |- context [DefensiveChecker.slots_url_with (uri_escape ?code)] =>
             change (DefensiveChecker.slots_url_with (uri_escape code))
               with (Checker.slots_url code)
         | |- context [Checker.slots_url_with (uri_escape ?code)] =>
             change (Checker.slots_url_with (uri_escape code)) with (Checker.slots_url code)
         end.

Lemma request_slots_failed (h : Host) (code : string) :
  has_lone_surrogate code = false ->
  request_fails h (Checker.slots_url code) ->
  exists e,
    trace (Checker.request_slots h code)
    = [ Fetch (Checker.slots_url code);
        Console ErrorLevel "Slots fetch failed" [LExn e];
        SetError (Some (Checker.slots_unreachable code));
        SetSlotsByCountry code (demo_or_fallback Checker.DEMO_SLOTS code);
        SetLoadingSlots ""; SetLastUpdatedAt (Date_now h) ]
    /\ trace (DefensiveChecker.request_slots h code)
    = [ Fetch (Checker.slots_url code);
        Console ErrorLevel "Slots fetch failed" [LExn e];
        SetError (Some (Checker.slots_unreachable code));
        SetSlotsByCountry code (demo_or_fallback DefensiveChecker.DEMO_SLOTS code);
        SetLoadingSlots ""; SetLastUpdatedAt (Date_now h) ].
Proof.
  intros Hcode. with_the_url Hcode. unfold do_fetch, demo_or_fallback.
  intros [[e He] | (status & json & He)]; rewrite He;
    eexists; cbn;
    destruct (Checker.DEMO_SLOTS code), (DefensiveChecker.DEMO_SLOTS code);
    split; reflexivity.
Qed.

Lemma request_slots_unparsable (h : Host) (code : string) :
  has_lone_surrogate code = false ->
  body_unparsable h (Checker.slots_url code) ->
  exists e,
    trace (Checker.request_slots h code)
    = [ Fetch (Checker.slots_url code);
        Console ErrorLevel "Failed to parse slots JSON" [LExn e];
        SetSlotsByCountry code (with_raw empty_summary JNull);
        SetLoadingSlots ""; SetLastUpdatedAt (Date_now h) ]
    /\ trace (DefensiveChecker.request_slots h code)
    = [ Fetch (Checker.slots_url code);
        Console WarnLevel "Failed to parse slots JSON" [LExn e];
        SetSlotsByCountry code (with_raw empty_summary JNull);
        Console DebugLevel "fetchSlotsForCountry success" [LVal (JStr code); LVal (JNum 0)];
        SetLoadingSlots ""; SetLastUpdatedAt (Date_now h) ].
Proof.
  intros Hcode. with_the_url Hcode. unfold do_fetch.
  intros (status & e & He). rewrite He. exists e. split; reflexivity.
Qed.

(** Whatever the network does, the request statement completes
    normally: every exception is caught. *)
Lemma request_slots_completes (h : Host) (code : string) :
  outcome (Checker.request_slots h code) = Normal tt
  /\ outcome (DefensiveChecker.request_slots h code) = Normal tt.
Proof.
  destruct (has_lone_surrogate code) eqn:Hcode.
  { unfold outcome, Checker.request_slots, DefensiveChecker.request_slots.
    rewrite (encodeURIComponent_rejects code Hcode). cbn.
    destruct (Checker.DEMO_SLOTS code), (DefensiveChecker.DEMO_SLOTS code);
      split; reflexivity. }
  with_the_url Hcode. unfold do_fetch.
  unfold DefensiveChecker.extractSummaryFromSlotsData.
  generalize (Checker.slots_url code) as url. intros url.
  destruct (fetch h url) as [e | [] status [data | e]];
    cbn -[Checker.extractSummaryFromSlotsData DefensiveChecker.extractSummary_body];
    try (destruct (Checker.DEMO_SLOTS code), (DefensiveChecker.DEMO_SLOTS code);
         split; reflexivity).
  destruct (Checker.extractSummaryFromSlotsData h data),
           (DefensiveChecker.extractSummary_body data);
    cbn; destruct (Checker.DEMO_SLOTS code); split; reflexivity.
Qed.

Lemma outcome_emit {A : Type} (e : effect) (m : M A) : outcome (emit e;; m) = outcome m.
Proof. destruct m as [t [a|x]]; reflexivity. Qed.

Lemma outcome_prefixed {A : Type} (e1 e2 : effect) (m : M A) :
  outcome (emit e1;; emit e2;; m) = outcome m.
Proof. destruct m as [t [a|e]]; reflexivity. Qed.

Lemma outcome_prefixed3 {A : Type} (e1 e2 e3 : effect) (m : M A) :
  outcome (emit e1;; emit e2;; emit e3;; m) = outcome m.
Proof. destruct m as [t [a|e]]; reflexivity. Qed.

(** C1, amended: for every slots fetch that reaches the network, a
    failure of the request itself ([fetch] throws, or the status is not
    OK) is caught: the entry stored for the country is the [DEMO_SLOTS]
    entry when there is one for the code and the fallback record
    otherwise, and the advisory error string is set.  A body that does not
    parse as JSON is caught separately and is not such a failure: the
    empty summary with [raw: null] is stored and no error string is set. *)
Theorem fetchSlots_failure_substitutes_demo
    (h : Host) (st live : State) (code : string) :
  issues_request h st code ->
  (outcome (Checker.fetchSlotsForCountry h st (Code code)) = Normal tt
   /\ (loadingSlots st <> code ->
       outcome (DefensiveChecker.fetchSlotsForCountry h st (Code code)) = Normal tt))
  /\ (request_fails h (Checker.slots_url code) ->
     slots_substituted Checker.DEMO_SLOTS code
       (run (trace (Checker.fetchSlotsForCountry h st (Code code))) live)
     /\ (loadingSlots st <> code ->
         slots_substituted DefensiveChecker.DEMO_SLOTS code
           (run (trace (DefensiveChecker.fetchSlotsForCountry h st (Code code))) live)))
  /\ (body_unparsable h (Checker.slots_url code) ->
       slots_stored_empty code
         (run (trace (Checker.fetchSlotsForCountry h st (Code code))) live)
       /\ (loadingSlots st <> code ->
           slots_stored_empty code
             (run (trace (DefensiveChecker.fetchSlotsForCountry h st (Code code))) live))).
Proof.
  intros Hreq. pose proof Hreq as (_ & _ & _ & _ & Hcode). split; [|split].
  - destruct (request_slots_completes h code) as [Ho1 Ho2].
    split; [|intros Hloading].
    + now rewrite (fetchSlots_online _ _ _ Hreq), outcome_prefixed.
    + now rewrite (defensive_fetchSlots_online _ _ _ Hreq Hloading), outcome_prefixed3.
  - intros Hfails. destruct (request_slots_failed h code Hcode Hfails) as (e & Ht1 & Ht2).
    split; [|intros Hloading].
    + rewrite (fetchSlots_online _ _ _ Hreq), trace_prefixed, Ht1.
      split; [apply lookup_insert_eq | reflexivity].
    + rewrite (defensive_fetchSlots_online _ _ _ Hreq Hloading), trace_prefixed3, Ht2.
      split; [apply lookup_insert_eq | reflexivity].
  - intros Hbody. destruct (request_slots_unparsable h code Hcode Hbody) as (e & Ht1 & Ht2).
    split; [|intros Hloading].
    + rewrite (fetchSlots_online _ _ _ Hreq), trace_prefixed, Ht1.
      split; [apply lookup_insert_eq | reflexivity].
    + rewrite (defensive_fetchSlots_online _ _ _ Hreq Hloading), trace_prefixed3, Ht2.
      split; [apply lookup_insert_eq | reflexivity].
Qed.

Lemma fetchSlots_failure_substitutes_demo_witness :
  slots_substituted Checker.DEMO_SLOTS "FR"
    (run (trace (Checker.fetchSlotsForCountry (browser 330 unavailable) initial_state (Code "FR")))
         initial_state).
Proof.
  refine (proj1 (proj1 (proj2 (fetchSlots_failure_substitutes_demo
                                 (browser 330 unavailable) initial_state initial_state "FR" _))
                   _)).
  - repeat split; [discriminate | reflexivity..].
  - right. exists 503, (Normal JNull). reflexivity.
Defined.

(** C1 as stated fails for the third kind of failure it lists: when the
    body of an OK response does not parse, the entry stored for "FR" is
    not the demo entry and no error string is set. *)
Lemma unparsable_slots_body_is_not_substituted :
  issues_request (browser 330 not_json) initial_state "FR"
  /\ body_unparsable (browser 330 not_json) (Checker.slots_url "FR")
  /\ ~ slots_substituted Checker.DEMO_SLOTS "FR"
        (run (trace (Checker.fetchSlotsForCountry (browser 330 not_json) initial_state
                       (Code "FR")))
             initial_state)
  /\ ~ slots_substituted DefensiveChecker.DEMO_SLOTS "FR"
        (run (trace (DefensiveChecker.fetchSlotsForCountry (browser 330 not_json)
                       initial_state (Code "FR")))
             initial_state).
Proof.
  split; [repeat split; [discriminate | reflexivity..]|].
  split; [eexists; eexists; reflexivity|].
  split; intros [_ Herror]; vm_compute in Herror; discriminate Herror.
Qed.

(** ** The URL of the slots request *)

Lemma append_cons (x : ascii) (a b : string) : String x a +:+ b = String x (a +:+ b).
Proof. reflexivity. Qed.

Lemma append_assoc (a b c : string) : (a +:+ b) +:+ c = a +:+ b +:+ c.
Proof. induction a as [|x a IH]; [reflexivity|]. now rewrite !append_cons, IH. Qed.

Lemma list_ascii_of_app (a b : string) :
  list_ascii_of_string (a +:+ b) = list_ascii_of_string a ++ list_ascii_of_string b.
Proof.
  induction a as [|x a IH]; [reflexivity|].
  rewrite append_cons. cbn [list_ascii_of_string app]. now rewrite IH.
Qed.

Lemma percent_encode_safe (a : ascii) :
  forallb uri_safe (list_ascii_of_string (percent_encode a)) = true.
Proof. destruct a as [[] [] [] [] [] [] [] []]; reflexivity. Qed.

Lemma uri_escape_safe (s : string) :
  forallb uri_safe (list_ascii_of_string (uri_escape s)) = true.
Proof.
  induction s as [|a s IH]; [reflexivity|].
  cbn [uri_escape]. rewrite list_ascii_of_app, forallb_app, IH, andb_true_r.
  destruct (uri_unreserved a) eqn:Ha; [|apply percent_encode_safe].
  cbn [list_ascii_of_string forallb]. unfold uri_safe. now rewrite Ha.
Qed.

Lemma uri_safe_not_question (a : ascii) : uri_safe a = true -> Ascii.eqb a "?" = false.
Proof. destruct a as [[] [] [] [] [] [] [] []]; (reflexivity || discriminate). Qed.

Lemma split_first_app (sep : ascii) (a b : string) :
  forallb (fun x => negb (Ascii.eqb x sep)) (list_ascii_of_string a) = true ->
  split_first sep (a +:+ String sep b) = (a, Some b).
Proof.
  induction a as [|x a IH]; intros Hall.
  - change (EmptyString +:+ String sep b) with (String sep b).
    cbn [split_first]. now rewrite Ascii.eqb_refl.
  - cbn [list_ascii_of_string forallb] in Hall.
    apply andb_true_iff in Hall as [Hx Hall]. apply negb_true_iff in Hx.
    rewrite append_cons. cbn [split_first]. now rewrite Hx, (IH Hall).
Qed.

Lemma slots_url_shape (code : string) :
  Checker.slots_url code = (slots_path +:+ uri_escape code) +:+ String "?" slots_query.
Proof. unfold Checker.slots_url, Checker.slots_url_with. now rewrite append_assoc. Qed.

Lemma slots_url_split (code : string) :
  split_first "?" (Checker.slots_url code)
  = (slots_path +:+ uri_escape code, Some slots_query).
Proof.
  rewrite slots_url_shape. apply split_first_app.
  rewrite list_ascii_of_app, forallb_app. apply andb_true_iff. split; [reflexivity|].
  pose proof (uri_escape_safe code) as Hsafe.
  rewrite forallb_forall in Hsafe |- *. intros x Hx.
  now rewrite (uri_safe_not_question x (Hsafe x Hx)).
Qed.

Lemma request_slots_requests (h : Host) (code : string) :
  has_lone_surrogate code = false ->
  requests (trace (Checker.request_slots h code)) = [Checker.slots_url code]
  /\ requests (trace (DefensiveChecker.request_slots h code)) = [Checker.slots_url code].
Proof.
  intros Hcode. with_the_url Hcode. unfold do_fetch.
  unfold DefensiveChecker.extractSummaryFromSlotsData.
  generalize (Checker.slots_url code) as url. intros url.
  destruct (fetch h url) as [e | [] status [data | e]]; cbn -[Checker.extractSummaryFromSlotsData DefensiveChecker.extractSummary_body];
    try (destruct (Checker.DEMO_SLOTS code), (DefensiveChecker.DEMO_SLOTS code);
         split; reflexivity).
  destruct (Checker.extractSummaryFromSlotsData h data),
           (DefensiveChecker.extractSummary_body data);
    cbn; destruct (Checker.DEMO_SLOTS code); split; reflexivity.
Qed.

Lemma slots_url_is_for (code : string) :
  has_lone_surrogate code = false -> slots_request_for code (Checker.slots_url code).
Proof.
  intros Hcode. exists (uri_escape code).
  split; [now apply encodeURIComponent_accepts|].
  split; [apply uri_escape_safe|].
  unfold url_path, url_query_names. rewrite slots_url_split. split; reflexivity.
Qed.

(** Whatever the state and the network, a call makes no request or the
    one request for the URL of its code. *)
Lemma fetchSlots_requests_cases (h : Host) (st : State) (code : string) :
  (requests (trace (Checker.fetchSlotsForCountry h st (Code code))) = []
   \/ has_lone_surrogate code = false
      /\ requests (trace (Checker.fetchSlotsForCountry h st (Code code)))
         = [Checker.slots_url code])
  /\ (requests (trace (DefensiveChecker.fetchSlotsForCountry h st (Code code))) = []
      \/ has_lone_surrogate code = false
         /\ requests (trace (DefensiveChecker.fetchSlotsForCountry h st (Code code)))
            = [Checker.slots_url code]).
Proof.
  destruct code as [|a code]; [split; left; reflexivity|].
  unfold Checker.fetchSlotsForCountry, DefensiveChecker.fetchSlotsForCountry.
  destruct (has_lone_surrogate (String a code)) eqn:Hcode.
  - destruct (request_slots_malformed h _ Hcode) as [Ht1 Ht2].
    destruct (String.eqb (loadingSlots st) (String a code)),
             (has_slots (slotsByCountry st) (String a code)),
             (offlineMode st || negb (has_fetch h));
      rewrite ?trace_prefixed3, ?trace_prefixed, ?Ht1, ?Ht2;
      destruct (Checker.DEMO_SLOTS (String a code)),
               (DefensiveChecker.DEMO_SLOTS (String a code));
      split; left; reflexivity.
  - destruct (request_slots_requests h _ Hcode) as [Hr1 Hr2].
    destruct (String.eqb (loadingSlots st) (String a code)),
             (has_slots (slotsByCountry st) (String a code)),
             (offlineMode st || negb (has_fetch h));
      rewrite ?trace_prefixed3, ?trace_prefixed;
      cbn [requests]; rewrite ?Hr1, ?Hr2;
      destruct (Checker.DEMO_SLOTS (String a code)),
               (DefensiveChecker.DEMO_SLOTS (String a code));
      split; ((left; reflexivity) || (right; split; reflexivity)).
Qed.

(** C7: for every country code, whatever the state and the network,
    every request a call of [fetchSlotsForCountry] makes is a
    GET of the URL built for the code: its path is
    [.../application/slots/] followed by [encodeURIComponent(code)],
    which holds only unreserved characters and [%XX] escapes, and its
    query has exactly the parameters [residence], [citizenship],
    [purpose], [travellersCount], [withAllSlots] and
    [getCitiesWiseSlots].  A call that reaches the network makes exactly
    one such request; for a code that holds a lone surrogate
    [encodeURIComponent] throws inside the [try], so that no URL is
    built and no request is made.  Both revisions. *)
Theorem slots_request_url (h : Host) (st : State) (code : string) :
  (Forall (slots_request_for code)
     (requests (trace (Checker.fetchSlotsForCountry h st (Code code))))
   /\ Forall (slots_request_for code)
        (requests (trace (DefensiveChecker.fetchSlotsForCountry h st (Code code)))))
  /\ (issues_request h st code ->
      requests (trace (Checker.fetchSlotsForCountry h st (Code code)))
      = [Checker.slots_url code]
      /\ (loadingSlots st <> code ->
          requests (trace (DefensiveChecker.fetchSlotsForCountry h st (Code code)))
          = [Checker.slots_url code]))
  /\ (has_lone_surrogate code = true ->
      requests (trace (Checker.fetchSlotsForCountry h st (Code code))) = []
      /\ requests (trace (DefensiveChecker.fetchSlotsForCountry h st (Code code))) = []).
Proof.
  destruct (fetchSlots_requests_cases h st code) as [Hfirst Hdefensive].
  split; [|split].
  - split.
    + destruct Hfirst as [-> | [Hcode ->]]; [constructor|].
      constructor; [now apply slots_url_is_for | constructor].
    + destruct Hdefensive as [-> | [Hcode ->]]; [constructor|].
      constructor; [now apply slots_url_is_for | constructor].
  - intros Hreq. pose proof Hreq as (_ & _ & _ & _ & Hcode).
    destruct (request_slots_requests h code Hcode) as [Hr1 Hr2].
    split; [|intros Hloading].
    + now rewrite (fetchSlots_online _ _ _ Hreq), trace_prefixed.
    + now rewrite (defensive_fetchSlots_online _ _ _ Hreq Hloading), trace_prefixed3.
  - intros Hcode. split.
    + destruct Hfirst as [H | [H _]]; [exact H | congruence].
    + destruct Hdefensive as [H | [H _]]; [exact H | congruence].
Qed.

Lemma slots_request_url_witness :
  requests (trace (Checker.fetchSlotsForCountry (browser 330 network_down) initial_state
                     (Code "F R")))
  = ["https://api.atlys.com/api/v2/application/slots/F%20R?residence=IN&citizenship=IN&purpose=atlys_black&travellersCount=1&withAllSlots=true&getCitiesWiseSlots=true"]
  /\ requests (trace (Checker.fetchSlotsForCountry (browser 330 network_down) initial_state
                        (Code lone_surrogate))) = [].
Proof.
  split.
  - refine (proj1 (proj1 (proj2 (slots_request_url (browser 330 network_down)
                                   initial_state "F R")) _)).
    repeat split; [discriminate | reflexivity..].
  - refine (proj1 (proj2 (proj2 (slots_request_url (browser 330 network_down)
                                   initial_state lone_surrogate)) _)).
    reflexivity.
Defined.

(** ** Evaluating [||] and [&&] chains on an object *)

Lemma truthy_not_nullish (v : jsval) : truthy v = true -> nullish v = false.
Proof. destruct v; (reflexivity || discriminate). Qed.

Lemma get_defined (v : jsval) (k : string) : nullish v = false -> get v k = Normal (prop v k).
Proof. unfold get. now intros ->. Qed.

Lemma get_nullish (v : jsval) (k : string) :
  nullish v = true -> exists msg, get v k = Throw (TypeError msg).
Proof. unfold get. intros ->. now eexists. Qed.

Lemma or_else_normal (a b : jsval) : Normal a ||| Normal b = Normal (jor a b).
Proof. unfold or_else, jor. now destruct (truthy a). Qed.

Lemma or_else_throw (e : exn) (y : completion jsval) : Throw e ||| y = Throw e.
Proof. reflexivity. Qed.

(** [Array.isArray(a) && a[0]] never throws: the index is read only from
    an array. *)
Lemma guarded_first_elem (a : jsval) :
  exists v, Array_isArray (Normal a) &&& (Normal a ≫= first_elem) = Normal v.
Proof. destruct a; cbn; eexists; reflexivity. Qed.

Lemma guarded_array (a : jsval) :
  exists v, Array_isArray (Normal a) &&& Normal a = Normal v.
Proof. destruct a; cbn; eexists; reflexivity. Qed.

(** A [.map] whose callback throws only [TypeError]s throws only
    [TypeError]s. *)
Lemma mapM_outcomes {A B : Type} (f : A -> completion B) (l : list A) :
  (forall x, (exists y, f x = Normal y) \/ (exists msg, f x = Throw (TypeError msg))) ->
  (exists ys, mapM f l = Normal ys) \/ (exists msg, mapM f l = Throw (TypeError msg)).
Proof.
  intros Hf. induction l as [|x l IH]; [left; now exists []|].
  cbn [mapM]. destruct (Hf x) as [[y ->] | [msg ->]]; [|right; now exists msg].
  destruct IH as [[ys ->] | [msg ->]]; [left; now exists (y :: ys) | right; now exists msg].
Qed.

Lemma mapM_defined {A B : Type} (f : A -> completion B) (g : A -> B) (l : list A) :
  Forall (fun x => f x = Normal (g x)) l -> mapM f l = Normal (map g l).
Proof.
  induction 1 as [|x l Hx _ IH]; [reflexivity|]. cbn [mapM map]. now rewrite Hx, IH.
Qed.

Lemma city_of_outcomes (c : jsval) :
  (exists y, Checker.city_of c = Normal y)
  \/ (exists msg, Checker.city_of c = Throw (TypeError msg)).
Proof.
  unfold Checker.city_of. destruct (nullish c) eqn:Hc.
  - right. destruct (get_nullish c "centre_name_fe" Hc) as [msg Hmsg].
    exists msg. now rewrite Hmsg.
  - left. rewrite !(get_defined c _ Hc).
    destruct (guarded_first_elem (prop c "actual_dates")) as [v1 ->].
    destruct (guarded_first_elem (prop c "all_dates")) as [v2 ->].
    destruct (guarded_array (prop c "actual_dates")) as [v3 ->].
    destruct (guarded_array (prop c "all_dates")) as [v4 ->].
    rewrite !or_else_normal. eexists. reflexivity.
Qed.

Lemma defensive_city_of_outcomes (c : jsval) :
  (exists y, DefensiveChecker.city_of c = Normal y)
  \/ (exists msg, DefensiveChecker.city_of c = Throw (TypeError msg)).
Proof.
  unfold DefensiveChecker.city_of. destruct (nullish c) eqn:Hc.
  - right. destruct (get_nullish c "centre_name_fe" Hc) as [msg Hmsg].
    exists msg. now rewrite Hmsg.
  - left. rewrite !(get_defined c _ Hc).
    destruct (guarded_first_elem (prop c "actual_dates")) as [v1 ->].
    destruct (guarded_first_elem (prop c "all_dates")) as [v2 ->].
    destruct (guarded_array (prop c "actual_dates")) as [v3 ->].
    destruct (guarded_array (prop c "all_dates")) as [v4 ->].
    rewrite !or_else_normal. eexists. reflexivity.
Qed.

(** ** The summary of a slots payload *)

Lemma built_summary_empty : built_summary (Checker.summary JNull [] false).
Proof. now exists JNull, []. Qed.

Lemma built_summary_invariant (s : SlotSummary.t) : built_summary s -> available_iff_cities s.
Proof.
  intros (nextDate & cities & ->). unfold available_iff_cities. cbn.
  destruct cities; cbn; split; congruence.
Qed.

Lemma built_from_cities (cities : list City.t) (x : completion jsval) :
  (exists v, x = Normal v) ->
  exists s, (nextDate ← x; mret (Checker.summary nextDate cities (nonempty cities)))
            = Normal s /\ built_summary s.
Proof. intros [v ->]. eexists. split; [reflexivity|]. now exists v, cities. Qed.

Lemma extractSummary_outcomes (h : Host) (data : jsval) :
  (exists s, Checker.extractSummaryFromSlotsData h data = Normal s /\ built_summary s)
  \/ (exists msg, Checker.extractSummaryFromSlotsData h data = Throw (TypeError msg)).
Proof.
  unfold Checker.extractSummaryFromSlotsData.
  destruct (truthy data) eqn:Hdata; cbn [negb].
  2:{ left. eexists. split; [reflexivity | apply built_summary_empty]. }
  pose proof (truthy_not_nullish _ Hdata) as Hn.
  rewrite !(get_defined data _ Hn). cbn [mbind completion_bind].
  destruct (isArray (prop data "centre_dates")).
  { destruct (mapM_outcomes Checker.city_of (elems_of (prop data "centre_dates"))
                city_of_outcomes) as [[cities ->] | [msg ->]]; [left | right; now exists msg].
    cbn [mbind completion_bind]. apply built_from_cities.
    rewrite !or_else_normal. now eexists. }
  destruct (isArray data).
  { destruct (mapM_outcomes Checker.city_of (elems_of data) city_of_outcomes)
      as [[cities ->] | [msg ->]]; [left | right; now exists msg].
    cbn [mbind completion_bind]. apply built_from_cities.
    rewrite !or_else_normal. now eexists. }
  cbn [andb].
  destruct (Checker.says_not_available h (prop data "message")).
  { left. eexists. split; [reflexivity | apply built_summary_empty]. }
  destruct (typeof_object data).
  2:{ left. eexists. split; [reflexivity | apply built_summary_empty]. }
  destruct (List.filter isArray (Object_values data)) as [|arr arrays].
  { left. eexists. split; [reflexivity | apply built_summary_empty]. }
  destruct (mapM_outcomes Checker.city_of (elems_of arr) city_of_outcomes)
    as [[cities ->] | [msg ->]]; [left | right; now exists msg].
  cbn [mbind completion_bind]. apply built_from_cities.
  rewrite !or_else_normal. now eexists.
Qed.

Lemma defensive_extractSummary_body_outcomes (data : jsval) :
  (exists s, DefensiveChecker.extractSummary_body data = Normal s /\ built_summary s)
  \/ (exists msg, DefensiveChecker.extractSummary_body data = Throw (TypeError msg)).
Proof.
  unfold DefensiveChecker.extractSummary_body.
  change DefensiveChecker.summary with Checker.summary.
  destruct (truthy data) eqn:Hdata; cbn [negb].
  2:{ left. eexists. split; [reflexivity | apply built_summary_empty]. }
  pose proof (truthy_not_nullish _ Hdata) as Hn.
  rewrite !(get_defined data _ Hn). cbn [mbind completion_bind].
  destruct (isArray (prop data "centre_dates")).
  { destruct (mapM_outcomes DefensiveChecker.city_of (elems_of (prop data "centre_dates"))
                defensive_city_of_outcomes) as [[cities ->] | [msg ->]];
      [left | right; now exists msg].
    cbn [mbind completion_bind]. apply built_from_cities.
    rewrite !or_else_normal. now eexists. }
  cbn [andb]. destruct (typeof_object data).
  2:{ left. eexists. split; [reflexivity | apply built_summary_empty]. }
  destruct (List.filter isArray (Object_values data)) as [|arr arrays].
  { left. eexists. split; [reflexivity | apply built_summary_empty]. }
  destruct (mapM_outcomes DefensiveChecker.city_of (elems_of arr) defensive_city_of_outcomes)
    as [[cities ->] | [msg ->]]; [left | right; now exists msg].
  cbn [mbind completion_bind]. apply built_from_cities.
  rewrite !or_else_normal. now eexists.
Qed.

(** The defensive revision always returns a summary: its [catch] turns
    an exception into the empty one. *)
Lemma defensive_extractSummary_returns (data : jsval) :
  exists s, outcome (DefensiveChecker.extractSummaryFromSlotsData data) = Normal s
            /\ built_summary s.
Proof.
  unfold DefensiveChecker.extractSummaryFromSlotsData.
  destruct (defensive_extractSummary_body_outcomes data) as [(s & -> & Hs) | [msg ->]].
  - now exists s.
  - eexists. split; [reflexivity | apply built_summary_empty].
Qed.

(** C9: for every input, the summary [extractSummaryFromSlotsData]
    returns has [isAvailable] true exactly when its [cities] list is not
    empty.  The defensive revision returns a summary for every input; the
    first revision returns one unless reading a [null] element of the
    payload throws a [TypeError], and then it returns nothing. *)
Theorem extractSummary_available_iff_cities (h : Host) (data : jsval) :
  match Checker.extractSummaryFromSlotsData h data with
  | Normal s => available_iff_cities s
  | Throw e => exists msg, e = TypeError msg
  end
  /\ exists s, outcome (DefensiveChecker.extractSummaryFromSlotsData data) = Normal s
               /\ available_iff_cities s.
Proof.
  split.
  - destruct (extractSummary_outcomes h data) as [(s & -> & Hs) | [msg ->]].
    + now apply built_summary_invariant.
    + now exists msg.
  - destruct (defensive_extractSummary_returns data) as (s & Hs & Hbuilt).
    exists s. split; [exact Hs | now apply built_summary_invariant].
Qed.

Lemma no_array_values (ps : list (string * jsval)) :
  forallb (fun kv => negb (isArray (snd kv))) ps = true ->
  List.filter isArray (map snd ps) = [].
Proof.
  induction ps as [|[k v] ps IH]; [reflexivity|].
  cbn [forallb map List.filter snd]. intros Hall.
  apply andb_true_iff in Hall as [Hv Hall]. apply negb_true_iff in Hv.
  rewrite Hv. now apply IH.
Qed.

(** C3: on an input that matches none of the recognized shapes ([null]
    or [undefined], or an object with no array-valued [centre_dates], no
    "not available" message and no array-valued field),
    [extractSummaryFromSlotsData] returns the empty result
    [{ nextDate: null, cities: [], isAvailable: false }], in both
    revisions and without any effect. *)
Theorem extractSummary_unrecognised_is_empty (h : Host) (data : jsval) :
  unrecognised h data = true ->
  Checker.extractSummaryFromSlotsData h data = Normal empty_summary
  /\ DefensiveChecker.extractSummaryFromSlotsData data = ([], Normal empty_summary).
Proof.
  destruct data as [| | b | n | s | l | ps]; try discriminate; try (split; reflexivity).
  intros Hshape. cbn [unrecognised] in Hshape.
  apply andb_true_iff in Hshape as [Hshape Hfields].
  apply andb_true_iff in Hshape as [Hcentre Hmessage].
  apply negb_true_iff in Hcentre, Hmessage.
  apply no_array_values in Hfields.
  unfold DefensiveChecker.extractSummaryFromSlotsData,
    Checker.extractSummaryFromSlotsData, DefensiveChecker.extractSummary_body.
  rewrite !(get_defined (JObj ps) _ eq_refl).
  cbn [truthy negb mbind completion_bind isArray typeof_object andb Object_values].
  rewrite Hcentre, Hmessage, Hfields. split; reflexivity.
Qed.

Lemma extractSummary_unrecognised_is_empty_witness :
  Checker.extractSummaryFromSlotsData (browser 330 network_down)
    (JObj [("message", JStr "No appointments"); ("total", JNum 0)])
  = Normal empty_summary.
Proof.
  exact (proj1 (extractSummary_unrecognised_is_empty (browser 330 network_down)
                  (JObj [("message", JStr "No appointments"); ("total", JNum 0)])
                  eq_refl)).
Defined.

(** ** Normalizing the countries payload *)

(** A left-nested chain [a || v1 || ... || vn || d] picks the first
    truthy value, else the last operand. *)
Lemma jor_chain (vs : list jsval) (a d : jsval) :
  fold_left jor (vs ++ [d]) a
  = match find truthy (a :: vs) with Some v => v | None => d end.
Proof.
  revert a. induction vs as [|v vs IH]; intros a; cbn [app fold_left find].
  - unfold jor. now destruct (truthy a).
  - rewrite IH. cbn [find]. unfold jor.
    destruct (truthy a) eqn:Ha; [now rewrite Ha | reflexivity].
Qed.

Lemma country_of_defined (c : jsval) :
  nullish c = false ->
  Checker.country_of c = Normal (normalized c)
  /\ DefensiveChecker.country_of c = Normal (normalized c).
Proof.
  intros Hc. unfold Checker.country_of, DefensiveChecker.country_of.
  rewrite !(get_defined c _ Hc), !or_else_normal.
  pose proof (jor_chain (map (prop c) (tl code_fields)) (prop c "code") (JStr "")) as Hcode.
  pose proof (jor_chain (map (prop c) (tl name_fields)) (prop c "name") (JStr "Unknown"))
    as Hname.
  cbn [code_fields name_fields tl map app fold_left] in Hcode, Hname.
  rewrite Hcode, Hname. split; reflexivity.
Qed.

Lemma fetchCountries_success (h : Host) (status : Z) (data : jsval) :
  has_fetch h = true ->
  fetch h Checker.countries_url = Resolves true status (Normal data) ->
  Forall (fun c => nullish c = false) (Checker.countries_list data) ->
  let mapped := map normalized (Checker.countries_list data) in
  trace (Checker.fetchCountries h)
  = [ SetLoadingCountryCodes true; SetError None; Fetch Checker.countries_url;
      SetCountriesRawDebug data; SetOfflineMode false; SetCountries mapped;
      SetFiltered mapped; SetLoadingCountryCodes false; SetLastUpdatedAt (Date_now h) ]
  /\ trace (DefensiveChecker.fetchCountries h)
  = [ SetLoadingCountryCodes true; SetError None;
      Console DebugLevel "fetchCountries start" []; Fetch Checker.countries_url;
      SetCountriesRawDebug data; SetOfflineMode false; SetCountries mapped;
      SetFiltered mapped;
      Console DebugLevel "fetchCountries success" [DefensiveChecker.count mapped];
      SetLoadingCountryCodes false; SetLastUpdatedAt (Date_now h) ].
Proof.
  intros Hfetch Hres Hrecords mapped.
  assert (Hm1 : mapM Checker.country_of (Checker.countries_list data) = Normal mapped).
  { apply mapM_defined. eapply Forall_impl; [exact Hrecords|].
    intros c Hc. apply (country_of_defined c Hc). }
  assert (Hm2 : mapM DefensiveChecker.country_of (DefensiveChecker.countries_list data)
                = Normal mapped).
  { apply mapM_defined. eapply Forall_impl; [exact Hrecords|].
    intros c Hc. apply (country_of_defined c Hc). }
  unfold Checker.fetchCountries, DefensiveChecker.fetchCountries, do_fetch.
  change DefensiveChecker.countries_url with Checker.countries_url.
  rewrite Hfetch, Hres.
  cbn -[mapM Checker.countries_list DefensiveChecker.countries_list Checker.countries_url].
  rewrite Hm1, Hm2. split; reflexivity.
Qed.

Lemma mapM_country_of_null (l : list jsval) :
  Exists (fun c => nullish c = true) l ->
  (exists msg, mapM Checker.country_of l = Throw (TypeError msg))
  /\ (exists msg, mapM DefensiveChecker.country_of l = Throw (TypeError msg)).
Proof.
  induction 1 as [c l Hc | c l _ [[m1 IH1] [m2 IH2]]]; cbn [mapM].
  - unfold Checker.country_of, DefensiveChecker.country_of.
    destruct (get_nullish c "code" Hc) as [msg ->]. split; now exists msg.
  - rewrite IH1, IH2. destruct (nullish c) eqn:Hc.
    + unfold Checker.country_of, DefensiveChecker.country_of.
      destruct (get_nullish c "code" Hc) as [msg ->]. split; now exists msg.
    + destruct (country_of_defined c Hc) as [-> ->]. split; eexists; reflexivity.
Qed.

Lemma fetchCountries_null_record (h : Host) (live : State) (status : Z) (data : jsval) :
  has_fetch h = true ->
  fetch h Checker.countries_url = Resolves true status (Normal data) ->
  Exists (fun c => nullish c = true) (Checker.countries_list data) ->
  shows_demo_countries (run (trace (Checker.fetchCountries h)) live)
  /\ shows_demo_countries (run (trace (DefensiveChecker.fetchCountries h)) live).
Proof.
  intros Hfetch Hres Hnull.
  destruct (mapM_country_of_null _ Hnull) as [[m1 Hm1] [m2 Hm2]].
  change (Checker.countries_list data) with (DefensiveChecker.countries_list data) in Hm2.
  unfold Checker.fetchCountries, DefensiveChecker.fetchCountries, do_fetch.
  change DefensiveChecker.countries_url with Checker.countries_url.
  rewrite Hfetch, Hres.
  cbn -[mapM Checker.countries_list DefensiveChecker.countries_list Checker.countries_url].
  rewrite Hm1, Hm2. split; repeat split; reflexivity.
Qed.

(** C8, amended: the list of raw records is the payload itself when it
    is an array, else its [countries] field, else its [data] field; and
    on a successful response, when no record of that list is [null] or
    [undefined], every record is normalized to the shape
    [{ code, name, __raw, availableSummary: null }] in which [code] is
    the first truthy (not merely present) of the fields [code],
    [iso2_code], [countryCode], [alpha2], [iso2], [iso], [country_code],
    else [""], and [name] the first truthy of [name], [countryName],
    [label], [title], else ["Unknown"]; the normalized list becomes both
    [countries] and [filtered].  A list that holds a [null] or
    [undefined] record is not normalized: reading the fields of that
    record throws, and the demo countries are shown.  Both revisions. *)
Theorem fetchCountries_normalizes (h : Host) (live : State) (status : Z) (data : jsval) :
  has_fetch h = true ->
  fetch h Checker.countries_url = Resolves true status (Normal data) ->
  (Forall (fun c => nullish c = false) (Checker.countries_list data) ->
   countries (run (trace (Checker.fetchCountries h)) live)
     = map normalized (Checker.countries_list data)
   /\ filtered (run (trace (Checker.fetchCountries h)) live)
     = map normalized (Checker.countries_list data)
   /\ countries (run (trace (DefensiveChecker.fetchCountries h)) live)
     = map normalized (DefensiveChecker.countries_list data)
   /\ filtered (run (trace (DefensiveChecker.fetchCountries h)) live)
     = map normalized (DefensiveChecker.countries_list data))
  /\ (Exists (fun c => nullish c = true) (Checker.countries_list data) ->
      shows_demo_countries (run (trace (Checker.fetchCountries h)) live)
      /\ shows_demo_countries (run (trace (DefensiveChecker.fetchCountries h)) live))
  /\ (forall l, Checker.countries_list (JArr l) = l)
  /\ (forall ps l, prop (JObj ps) "countries" = JArr l -> Checker.countries_list (JObj ps) = l)
  /\ (forall ps l, isArray (prop (JObj ps) "countries") = false ->
                   prop (JObj ps) "data" = JArr l -> Checker.countries_list (JObj ps) = l).
Proof.
  intros Hfetch Hres.
  split; [|split; [exact (fetchCountries_null_record h live status data Hfetch Hres)|]].
  { intros Hrecords.
    destruct (fetchCountries_success h status data Hfetch Hres Hrecords) as [Ht1 Ht2].
    rewrite Ht1, Ht2; repeat split; reflexivity. }
  split; [reflexivity|]. split.
  - intros ps l Hl. unfold Checker.countries_list. now rewrite Hl.
  - intros ps l Hc Hl. unfold Checker.countries_list. rewrite Hc, Hl. reflexivity.
Qed.

Lemma fetchCountries_normalizes_witness :
  countries
    (run (trace (Checker.fetchCountries (browser 330 (Resolves true 200 (Normal sample_payload)))))
         initial_state)
  = [ mapped_country "PT" "Portugal"
        (JObj [("iso2_code", JStr "PT"); ("label", JStr "Portugal")]) ]
  /\ shows_demo_countries
       (run (trace (Checker.fetchCountries
                      (browser 330 (Resolves true 200
                                      (Normal (JArr [JObj [("code", JStr "FR")]; JNull]))))))
            initial_state).
Proof.
  split.
  - refine (proj1 (proj1 (fetchCountries_normalizes
                            (browser 330 (Resolves true 200 (Normal sample_payload)))
                            initial_state 200 sample_payload _ _) _)).
    + reflexivity.
    + reflexivity.
    + repeat constructor.
  - refine (proj1 (proj1 (proj2 (fetchCountries_normalizes
                                   (browser 330 (Resolves true 200
                                      (Normal (JArr [JObj [("code", JStr "FR")]; JNull]))))
                                   initial_state 200
                                   (JArr [JObj [("code", JStr "FR")]; JNull]) _ _)) _)).
    + reflexivity.
    + reflexivity.
    + right. left. reflexivity.
Defined.

(** C8 as stated fails on a record whose first present field is empty:
    for [{ code: "", iso2_code: "FR", name: "France" }] the first present
    code field is [code], holding [""], but the mapping gives ["FR"]. *)
Lemma first_present_is_not_what_country_of_picks :
  Country.code
    (normalized_as_stated
       (JObj [("code", JStr ""); ("iso2_code", JStr "FR"); ("name", JStr "France")]))
  = JStr ""
  /\ Checker.country_of
       (JObj [("code", JStr ""); ("iso2_code", JStr "FR"); ("name", JStr "France")])
     = Normal (mapped_country "FR" "France"
                 (JObj [("code", JStr ""); ("iso2_code", JStr "FR"); ("name", JStr "France")]))
  /\ Checker.country_of
       (JObj [("code", JStr ""); ("iso2_code", JStr "FR"); ("name", JStr "France")])
     <> Normal (normalized_as_stated
                 (JObj [("code", JStr ""); ("iso2_code", JStr "FR"); ("name", JStr "France")]))
  /\ DefensiveChecker.country_of
       (JObj [("code", JStr ""); ("iso2_code", JStr "FR"); ("name", JStr "France")])
     <> Normal (normalized_as_stated
                 (JObj [("code", JStr ""); ("iso2_code", JStr "FR"); ("name", JStr "France")])).
Proof. repeat split; try reflexivity; intros Heq; vm_compute in Heq; discriminate Heq. Qed.

(** ** Searching *)

Lemma prefix_spec (n s : string) :
  String.prefix n s = true <-> exists post, s = n +:+ post.
Proof.
  revert s. induction n as [|a n IH]; intros s.
  - split; [intros _; now exists s | intros _; now destruct s].
  - destruct s as [|b s]; cbn [String.prefix].
    + split; [discriminate | intros [post Hpost]; discriminate Hpost].
    + destruct (ascii_dec a b) as [-> | Hab].
      * rewrite IH. split; intros [post Hpost]; exists post.
        -- rewrite append_cons. now rewrite Hpost.
        -- rewrite append_cons in Hpost. now injection Hpost.
      * split; [discriminate|].
        intros [post Hpost]. rewrite append_cons in Hpost. injection Hpost. congruence.
Qed.

Lemma includes_spec (s n : string) :
  includes s n = true <-> exists pre post, s = pre +:+ n +:+ post.
Proof.
  induction s as [|a s IH]; cbn [includes]; rewrite orb_true_iff, prefix_spec.
  - split.
    + intros [[post Hpost] | Hfalse]; [|discriminate]. now exists EmptyString, post.
    + intros (pre & post & Heq). left. destruct pre; [now exists post | discriminate Heq].
  - rewrite IH. split.
    + intros [[post Hpost] | (pre & post & Heq)].
      * now exists EmptyString, post.
      * exists (String a pre), post. rewrite append_cons. now rewrite Heq.
    + intros (pre & post & Heq). destruct pre as [|b pre].
      * left. now exists post.
      * right. rewrite append_cons in Heq. injection Heq as _ Heq. now exists pre, post.
Qed.

Lemma hit_spec (h : Host) (q : string) (c : Country.t) :
  hit h q c = true <-> search_hit h q c.
Proof.
  unfold hit, search_hit, contains_ci. now rewrite orb_true_iff, !includes_spec.
Qed.

Lemma lower_string_field (h : Host) (s : string) :
  (Normal (JStr s) ||| Normal (JStr "")) ≫= call_toLowerCase h = Normal (toLowerCase h s).
Proof. destruct s; reflexivity. Qed.

Lemma matches_defined (h : Host) (q : string) (c : Country.t) :
  declared_strings c ->
  Checker.matches h (toLowerCase h q) c = Normal (hit h q c).
Proof.
  intros (n & k & Hn & Hk). unfold Checker.matches, hit.
  rewrite Hn, Hk, !lower_string_field. cbn [text mbind completion_bind].
  now destruct (includes (toLowerCase h n) (toLowerCase h q)).
Qed.

Lemma filterM_defined {A : Type} (f : A -> completion bool) (g : A -> bool) (l : list A) :
  Forall (fun x => f x = Normal (g x)) l -> filterM f l = Normal (List.filter g l).
Proof.
  induction 1 as [|x l Hx _ IH]; [reflexivity|].
  cbn [filterM List.filter]. rewrite Hx, IH. reflexivity.
Qed.

Lemma onSearch_same (h : Host) (st : State) (q : string) :
  DefensiveChecker.onSearch h st q = Checker.onSearch h st q.
Proof. reflexivity. Qed.

(** C4, amended: for every query [q] and every list of countries whose
    [name] and [code] are strings, as [type Country] declares,
    [onSearch] completes and sets [filtered] to exactly the countries
    whose name or code contains [q] as a case-insensitive substring, in
    their order; for the empty query [filtered] is the full list.  Both
    revisions. *)
Theorem onSearch_filters (h : Host) (st live : State) (q : string) :
  Forall declared_strings (countries st) ->
  outcome (Checker.onSearch h st q) = Normal tt
  /\ DefensiveChecker.onSearch h st q = Checker.onSearch h st q
  /\ query (run (trace (Checker.onSearch h st q)) live) = q
  /\ (q = EmptyString ->
      filtered (run (trace (Checker.onSearch h st q)) live) = countries st)
  /\ (q <> EmptyString ->
      filtered (run (trace (Checker.onSearch h st q)) live)
      = List.filter (hit h q) (countries st)
      /\ forall c, In c (filtered (run (trace (Checker.onSearch h st q)) live))
                   <-> In c (countries st) /\ search_hit h q c).
Proof.
  intros Htyped.
  assert (Hkept : filterM (Checker.matches h (toLowerCase h q)) (countries st)
                  = Normal (List.filter (hit h q) (countries st))).
  { apply filterM_defined. eapply Forall_impl; [exact Htyped|].
    intros c Hc. now apply matches_defined. }
  split; [|split; [apply onSearch_same|]].
  - destruct q as [|a q]; [reflexivity|].
    unfold Checker.onSearch, lift. now rewrite Hkept.
  - destruct q as [|a q].
    + split; [reflexivity|]. split; [reflexivity | congruence].
    + assert (Htrace : trace (Checker.onSearch h st (String a q))
                       = [ SetQuery (String a q);
                           SetFiltered (List.filter (hit h (String a q)) (countries st)) ]).
      { unfold Checker.onSearch, lift. now rewrite Hkept. }
      rewrite Htrace. cbn [run fold_left apply_effect query filtered].
      split; [reflexivity|]. split; [discriminate|].
      intros _. split; [reflexivity|].
      intros c. rewrite filter_In, hit_spec. reflexivity.
Qed.

Lemma onSearch_filters_witness :
  filtered
    (run (trace (Checker.onSearch (browser 330 network_down)
                   (run [SetCountries DEMO_COUNTRIES] initial_state) "fR"))
         initial_state)
  = [demo_country "FR" "France"].
Proof.
  refine (proj1 (proj2 (proj2 (proj2 (proj2
            (onSearch_filters (browser 330 network_down)
               (run [SetCountries DEMO_COUNTRIES] initial_state) initial_state "fR" _)))) _)).
  - repeat constructor; eexists; eexists; split; reflexivity.
  - discriminate.
Defined.

(** C4 as stated fails on a list that [fetchCountries] itself builds:
    the payload [[{ name: "France", code: 33 }]] gives a country whose
    code is the number 33; a search for "de" then throws a [TypeError]
    after [setQuery], and [filtered] keeps the whole list although
    neither the name nor the code of the country contains "de".  Both
    revisions. *)
Lemma onSearch_does_not_filter_a_numeric_code :
  map Country.code (countries numeric_code_state) = [JNum 33]
  /\ List.filter (hit (browser 330 network_down) "de") (countries numeric_code_state) = []
  /\ Checker.onSearch (browser 330 network_down) numeric_code_state "de"
     = ([SetQuery "de"], Throw (TypeError "toLowerCase is not a function"))
  /\ filtered (run (trace (Checker.onSearch (browser 330 network_down)
                             numeric_code_state "de"))
                   numeric_code_state)
     <> List.filter (hit (browser 330 network_down) "de") (countries numeric_code_state)
  /\ filtered (run (trace (DefensiveChecker.onSearch (browser 330 network_down)
                             numeric_code_state "de"))
                   numeric_code_state)
     <> List.filter (hit (browser 330 network_down) "de") (countries numeric_code_state).
Proof.
  split; [reflexivity|]. split; [reflexivity|]. split; [reflexivity|].
  split; intros Heq; vm_compute in Heq; discriminate Heq.
Qed.

(** ** The booking placeholder *)

Lemma getCountryCode_defined (obj : Country.t) :
  exists v, Checker.getCountryCode obj = Normal v.
Proof.
  unfold Checker.getCountryCode. rewrite or_else_normal.
  assert (Hraw : exists v,
             Normal (Country.__raw obj)
               &&& (get (Country.__raw obj) "iso2_code" ||| get (Country.__raw obj) "iso2"
                      ||| get (Country.__raw obj) "code"
                      ||| get (Country.__raw obj) "countryCode") = Normal v).
  { unfold and_then. destruct (truthy (Country.__raw obj)) eqn:Hraw; [|now eexists].
    rewrite !(get_defined _ _ (truthy_not_nullish _ Hraw)), !or_else_normal. now eexists. }
  destruct Hraw as [v ->]. rewrite !or_else_normal. now eexists.
Qed.

(** C6, amended: a click on "Book This Appointment" logs the selected
    country, the country code, the centre and the date to the console
    and, in the [ModalContent] revision, then shows a placeholder
    [alert]; it performs no state update and issues no request, so all
    component state is unchanged. *)
Theorem book_click_changes_nothing
    (selectedCountry : Country.t) (activeModalData : Checker.ActiveModalData)
    (code : jsval) (activeCity : option City.t) (focusedIsoDate : option string)
    (datesForActiveCity : list jsval) (live : State) :
  (exists countryCode,
     Checker.getCountryCode selectedCountry = Normal countryCode
     /\ Checker.onBookClick selectedCountry activeModalData
        = ([ Console LogLevel "Book appointment"
               [ booking (Country.name selectedCountry) countryCode
                   (Checker.activeCity_name (Checker.activeCity activeModalData))
                   (Checker.effectiveSelectedDate activeModalData) ] ],
           Normal tt))
  /\ DefensiveChecker.onBookClick selectedCountry code activeCity focusedIsoDate
       datesForActiveCity
     = ([ Console DebugLevel "Book appointment"
            [ booking (Country.name selectedCountry) code
                (DefensiveChecker.activeCity_name activeCity)
                (DefensiveChecker.booked_date focusedIsoDate datesForActiveCity) ];
          Alert "Booking flow placeholder â€” integrate your booking endpoint here." ],
        Normal tt)
  /\ only_logs (trace (Checker.onBookClick selectedCountry activeModalData))
  /\ no_state_update (trace (Checker.onBookClick selectedCountry activeModalData))
  /\ requests (trace (Checker.onBookClick selectedCountry activeModalData)) = []
  /\ run (trace (Checker.onBookClick selectedCountry activeModalData)) live = live
  /\ no_state_update
       (trace (DefensiveChecker.onBookClick selectedCountry code activeCity focusedIsoDate
                 datesForActiveCity))
  /\ requests
       (trace (DefensiveChecker.onBookClick selectedCountry code activeCity focusedIsoDate
                 datesForActiveCity)) = []
  /\ run (trace (DefensiveChecker.onBookClick selectedCountry code activeCity focusedIsoDate
                   datesForActiveCity)) live = live.
Proof.
  destruct (getCountryCode_defined selectedCountry) as [countryCode Hcode].
  assert (Hclick : Checker.onBookClick selectedCountry activeModalData
                   = ([ Console LogLevel "Book appointment"
                          [ booking (Country.name selectedCountry) countryCode
                              (Checker.activeCity_name (Checker.activeCity activeModalData))
                              (Checker.effectiveSelectedDate activeModalData) ] ],
                      Normal tt)).
  { unfold Checker.onBookClick, lift. now rewrite Hcode. }
  split; [now exists countryCode|]. split; [reflexivity|]. rewrite Hclick.
  repeat split; repeat constructor.
Qed.

(** C6 as stated fails in the [ModalContent] revision: its handler does
    more than log, it also calls [alert]. *)
Lemma modal_book_click_also_alerts :
  ~ only_logs
      (trace (DefensiveChecker.onBookClick (demo_country "FR" "France") (JStr "FR")
                None (Some "2025-12-15") [JStr "2025-12-15"])).
Proof.
  intros Hlogs. inversion Hlogs as [|e1 rest _ Hrest]; subst.
  inversion Hrest as [|e2 rest' Halert _]; subst. discriminate Halert.
Qed.

(** ** The month grid *)

Lemma fill_weeks_full (h : Host) (year month : option Z) (days : list Z) :
  forall (weeks : list (list string)) (week : list string)
         (weeks' : list (list string)) (week' : list string),
    Forall full_week weeks ->
    (List.length week < 7)%nat ->
    DefensiveChecker.fill_weeks h year month days weeks week = Normal (weeks', week') ->
    Forall full_week weeks' /\ (List.length week' < 7)%nat.
Proof.
  induction days as [|day days IH]; intros weeks week weeks' week' Hweeks Hweek Hfill.
  - cbn [DefensiveChecker.fill_weeks] in Hfill. injection Hfill as <- <-. now split.
  - cbn [DefensiveChecker.fill_weeks] in Hfill.
    destruct (JSDate.toISOString (JSDate.make h year month (Some day))) as [iso|e];
      [|discriminate Hfill].
    cbn [mbind completion_bind] in Hfill.
    destruct (List.length (week ++ [JSDate.slice_0_10 iso]) =? 7)%nat eqn:Hfull.
    + apply Nat.eqb_eq in Hfull.
      apply (IH _ _ _ _) in Hfill; [exact Hfill | | cbn; lia].
      apply Forall_app. split; [exact Hweeks | now constructor].
    + apply Nat.eqb_neq in Hfull.
      apply (IH _ _ _ _) in Hfill; [exact Hfill | exact Hweeks |].
      rewrite length_app in Hfull |- *. cbn [List.length] in Hfull |- *. lia.
Qed.

Lemma flush_full (weeks : list (list string)) (week : list string) :
  Forall full_week weeks -> (List.length week < 7)%nat ->
  Forall full_week (DefensiveChecker.flush weeks week).
Proof.
  intros Hweeks Hweek. unfold DefensiveChecker.flush.
  destruct week as [|cell week]; [exact Hweeks|].
  apply Forall_app. split; [exact Hweeks|]. constructor; [|constructor].
  unfold full_week. rewrite length_app, repeat_length. lia.
Qed.

Lemma blanks_short (startDay : Z) (week : list string) :
  0 <= startDay < 7 ->
  DefensiveChecker.blanks (Some startDay) = Normal week -> (List.length week < 7)%nat.
Proof.
  intros Hday. unfold DefensiveChecker.blanks.
  destruct ((0 <=? startDay) && (startDay <? 4294967296)); [|discriminate].
  intros Hweek. injection Hweek as <-. rewrite repeat_length. lia.
Qed.

Lemma buildMonthGrid_full_weeks
    (h : Host) (isoDates : list string) (focusedIso : option string) :
  exists grid,
    outcome (DefensiveChecker.buildMonthGrid h isoDates focusedIso) = Normal grid
    /\ Forall full_week (DefensiveChecker.weeks grid).
Proof.
  unfold DefensiveChecker.buildMonthGrid, lift, try_catch.
  set (selected := DefensiveChecker.selected_of isoDates focusedIso).
  set (anchor := DefensiveChecker.anchor_of h selected).
  set (year := JSDate.getFullYear h anchor).
  set (month := JSDate.getMonth h anchor).
  set (days := DefensiveChecker.days_of _).
  destruct (JSDate.getDay h (JSDate.make h year month (Some 1))) as [startDay|] eqn:HstartDay.
  2:{ eexists. split; [reflexivity | constructor]. }
  assert (Hrange : 0 <= startDay < 7).
  { unfold JSDate.getDay in HstartDay.
    destruct (JSDate.make h year month (Some 1)) as [t|]; [|discriminate].
    injection HstartDay as <-. unfold JSDate.WeekDay. apply Z.mod_pos_bound. lia. }
  destruct (DefensiveChecker.blanks (Some startDay)) as [week|e] eqn:Hblanks.
  2:{ eexists. split; [reflexivity | constructor]. }
  cbn [mbind completion_bind].
  destruct (DefensiveChecker.fill_weeks h year month days [] week) as [[weeks' week']|e]
    eqn:Hfill.
  2:{ eexists. split; [reflexivity | constructor]. }
  eexists. split; [reflexivity|]. cbn [DefensiveChecker.weeks].
  apply (fill_weeks_full h year month days [] week) in Hfill as [Hweeks Hweek];
    [now apply flush_full | constructor | now apply (blanks_short startDay)].
Qed.

(** For every input and in every time zone, [buildMonthGrid] returns a
    grid, and each of its weeks has exactly seven cells. *)
Theorem buildMonthGrid_weeks_are_full
    (h : Host) (isoDates : list string) (focusedIso : option string) :
  exists grid,
    outcome (DefensiveChecker.buildMonthGrid h isoDates focusedIso) = Normal grid
    /\ Forall full_week (DefensiveChecker.weeks grid).
Proof. exact (buildMonthGrid_full_weeks h isoDates focusedIso). Qed.

(** C10 at UTC+05:30 (the calendar of a browser in India), for the dates
    [["2025-12-15"]] and no focused date: each cell is the UTC day of a
    local midnight, so the non-empty cells run from 30 November to 30
    December instead of from 1 to 31 December; at UTC the same call gives
    the grid of December. *)
Theorem buildMonthGrid_is_a_day_early_east_of_UTC :
  option_map DefensiveChecker.weeks
    (returned (DefensiveChecker.buildMonthGrid (browser 330 network_down) ["2025-12-15"] None))
  = Some december_2025_shifted
  /\ option_map DefensiveChecker.monthIndex
       (returned (DefensiveChecker.buildMonthGrid (browser 330 network_down) ["2025-12-15"]
                    None))
     = Some (Some 11)
  /\ option_map DefensiveChecker.weeks
       (returned (DefensiveChecker.buildMonthGrid (browser 0 network_down) ["2025-12-15"] None))
     = Some december_2025
  /\ december_2025_shifted <> december_2025.
Proof.
  split; [vm_compute; reflexivity|].
  split; [vm_compute; reflexivity|].
  split; [vm_compute; reflexivity | discriminate].
Qed.

(** ** Further properties of the two requests *)

(** [fetchSlotsForCountry] never throws, whatever its argument, the
    state and the network: every exception is caught (both revisions). *)
Theorem fetchSlots_never_throws (h : Host) (st : State) (countryCode : code_arg) :
  outcome (Checker.fetchSlotsForCountry h st countryCode) = Normal tt
  /\ outcome (DefensiveChecker.fetchSlotsForCountry h st countryCode) = Normal tt.
Proof.
  destruct countryCode as [| |[|a code]]; try (split; reflexivity).
  unfold Checker.fetchSlotsForCountry, DefensiveChecker.fetchSlotsForCountry.
  destruct (request_slots_completes h (String a code)) as [Ho1 Ho2].
  destruct (String.eqb (loadingSlots st) (String a code)),
           (has_slots (slotsByCountry st) (String a code));
    try (split; reflexivity);
    destruct (offlineMode st || negb (has_fetch h));
    rewrite ?outcome_emit, ?Ho1, ?Ho2;
    destruct (Checker.DEMO_SLOTS (String a code)),
             (DefensiveChecker.DEMO_SLOTS (String a code));
    split; reflexivity.
Qed.

(** Off line (in offline mode, or where [fetch] does not exist) a call
    for a non-empty code under which [slotsByCountry] reads falsy
    (nothing is stored under it, and it is not a name that every object
    inherits, such as ["constructor"]) issues no request: it stores the
    demo entry of the code, or the offline fallback record, clears the
    error and the loading marker; in the defensive revision, when the
    code is not the one already loading. *)
Theorem fetchSlots_offline_uses_demo (h : Host) (st live : State) (code : string) :
  stays_offline h st code ->
  (requests (trace (Checker.fetchSlotsForCountry h st (Code code))) = []
   /\ slotsByCountry (run (trace (Checker.fetchSlotsForCountry h st (Code code))) live)
        !! code = Some (demo_or_offline Checker.DEMO_SLOTS code)
   /\ error (run (trace (Checker.fetchSlotsForCountry h st (Code code))) live) = None
   /\ loadingSlots (run (trace (Checker.fetchSlotsForCountry h st (Code code))) live)
      = EmptyString)
  /\ (loadingSlots st <> code ->
      requests (trace (DefensiveChecker.fetchSlotsForCountry h st (Code code))) = []
      /\ slotsByCountry
           (run (trace (DefensiveChecker.fetchSlotsForCountry h st (Code code))) live)
           !! code = Some (demo_or_offline DefensiveChecker.DEMO_SLOTS code)
      /\ error (run (trace (DefensiveChecker.fetchSlotsForCountry h st (Code code))) live)
         = None
      /\ loadingSlots
           (run (trace (DefensiveChecker.fetchSlotsForCountry h st (Code code))) live)
         = EmptyString).
Proof.
  intros (Hne & Hslots & Hoff).
  assert (Hbranch : offlineMode st || negb (has_fetch h) = true).
  { destruct Hoff as [-> | ->]; [reflexivity | apply orb_true_r]. }
  destruct code as [|a code]; [congruence|].
  unfold Checker.fetchSlotsForCountry, DefensiveChecker.fetchSlotsForCountry, demo_or_offline.
  rewrite Hslots, Hbranch. split.
  - destruct (Checker.DEMO_SLOTS (String a code));
      (split; [reflexivity|]; split; [apply lookup_insert_eq|]; split; reflexivity).
  - intros Hloading. apply String.eqb_neq in Hloading. rewrite Hloading.
    destruct (DefensiveChecker.DEMO_SLOTS (String a code));
      (split; [reflexivity|]; split; [apply lookup_insert_eq|]; split; reflexivity).
Qed.

Lemma fetchSlots_offline_uses_demo_witness :
  slotsByCountry
    (run (trace (Checker.fetchSlotsForCountry (browser 330 network_down)
                   (run [SetOfflineMode true] initial_state) (Code "CH")))
         initial_state) !! "CH"
  = Some Checker.demo_CH.
Proof.
  refine (proj1 (proj2 (proj1 (fetchSlots_offline_uses_demo (browser 330 network_down)
                                 (run [SetOfflineMode true] initial_state) initial_state
                                 "CH" _)))).
  split; [discriminate|]. split; [reflexivity | left; reflexivity].
Defined.

(** A countries response whose body does not parse: the first revision
    catches the parse error by itself and goes on with no data, so the
    list of countries becomes empty and the component stays on line; the
    defensive revision lets the error reach the outer [catch] and shows
    the demo countries. *)
Theorem fetchCountries_unparsable_body (h : Host) (live : State) :
  has_fetch h = true ->
  body_unparsable h Checker.countries_url ->
  (countries (run (trace (Checker.fetchCountries h)) live) = []
   /\ filtered (run (trace (Checker.fetchCountries h)) live) = []
   /\ offlineMode (run (trace (Checker.fetchCountries h)) live) = false
   /\ error (run (trace (Checker.fetchCountries h)) live) = None)
  /\ shows_demo_countries (run (trace (DefensiveChecker.fetchCountries h)) live).
Proof.
  intros Hfetch (status & e & Hres).
  unfold Checker.fetchCountries, DefensiveChecker.fetchCountries, do_fetch.
  change DefensiveChecker.countries_url with Checker.countries_url.
  rewrite Hfetch, Hres. repeat split; reflexivity.
Qed.

Lemma fetchCountries_unparsable_body_witness :
  countries (run (trace (Checker.fetchCountries (browser 330 not_json))) initial_state) = []
  /\ countries (run (trace (DefensiveChecker.fetchCountries (browser 330 not_json)))
                  initial_state) = DEMO_COUNTRIES.
Proof.
  pose proof (fetchCountries_unparsable_body (browser 330 not_json) initial_state eq_refl)
    as Hwitness.
  refine ((fun H => conj (proj1 (proj1 H)) (proj1 (proj2 H))) (Hwitness _)).
  eexists; eexists; reflexivity.
Defined.

(** [onSearch] relies on the declared type: on a country whose [name]
    does not match and whose [code] is a number (as a payload may carry
    it), [toLowerCase] is not a function and the handler throws after
    having set the query. *)
Theorem onSearch_throws_on_numeric_code (h : Host) (st : State) (q name : string) (n : Z) :
  q <> EmptyString ->
  n <> 0 ->
  includes (toLowerCase h name) (toLowerCase h q) = false ->
  countries st = [ {| Country.code := JNum n; Country.name := JStr name;
                      Country.__raw := JNull; Country.availableSummary := JNull |} ] ->
  Checker.onSearch h st q
  = ([SetQuery q], Throw (TypeError "toLowerCase is not a function")).
Proof.
  intros Hq Hn Hname Hcountries. destruct q as [|a q]; [congruence|].
  unfold Checker.onSearch, Checker.matches. rewrite Hcountries.
  cbn [filterM Country.name Country.code]. rewrite lower_string_field.
  cbn [mbind completion_bind]. rewrite Hname.
  unfold or_else. cbn [truthy]. apply Z.eqb_neq in Hn. rewrite Hn. reflexivity.
Qed.

Lemma onSearch_throws_on_numeric_code_witness :
  Checker.onSearch (browser 330 network_down)
    (run [SetCountries [ {| Country.code := JNum 33; Country.name := JStr "France";
                            Country.__raw := JNull; Country.availableSummary := JNull |} ]]
         initial_state) "de"
  = ([SetQuery "de"], Throw (TypeError "toLowerCase is not a function")).
Proof.
  refine (onSearch_throws_on_numeric_code (browser 330 network_down) _ "de" "France" 33
            _ _ _ _).
  - discriminate.
  - discriminate.
  - reflexivity.
  - reflexivity.
Defined.

(** ** The calendar arithmetic behind [Date] *)

Lemma days_from_civil_eq (y m d : Z) :
  JSDate.days_from_civil y m d
  = (shifted_year y m / 400) * 146097
    + day_of_era (shifted_year y m - shifted_year y m / 400 * 400)
        (day_of_year (shifted_month m) d)
    - 719468.
Proof. reflexivity. Qed.

Lemma year_of_era_recovered (yoe doy : Z) :
  0 <= yoe <= 399 ->
  0 <= doy <= 365 ->
  (doy = 365 -> (yoe + 1) mod 4 = 0 /\ ((yoe + 1) mod 100 <> 0 \/ yoe = 399)) ->
  0 <= day_of_era yoe doy <= 146096
  /\ (day_of_era yoe doy - day_of_era yoe doy / 1460 + day_of_era yoe doy / 36524
      - day_of_era yoe doy / 146096) / 365 = yoe.
Proof.
  intros Hy Hd Hleap. unfold day_of_era.
  assert (Hcases : doy <= 364 \/ doy = 365) by lia.
  destruct Hcases as [Hlt | ->].
  - clear Hleap. split; Z.div_mod_to_equations; lia.
  - specialize (Hleap eq_refl). split; Z.div_mod_to_equations; lia.
Qed.

Lemma month_cases (m : Z) :
  1 <= m <= 12 ->
  m = 1 \/ m = 2 \/ m = 3 \/ m = 4 \/ m = 5 \/ m = 6 \/ m = 7 \/ m = 8 \/ m = 9
  \/ m = 10 \/ m = 11 \/ m = 12.
Proof. lia. Qed.

Ltac each_month m Hm :=
  destruct (month_cases m Hm)
    as [-> | [-> | [-> | [-> | [-> | [-> | [-> | [-> | [-> | [-> | [-> | ->]]]]]]]]]]].

Lemma days_in_month_bounds (y m : Z) : 28 <= days_in_month y m <= 31.
Proof.
  unfold days_in_month.
  destruct (m =? 2); [destruct (is_leap y); lia|].
  destruct ((m =? 4) || (m =? 6) || (m =? 9) || (m =? 11)); lia.
Qed.

Lemma is_leap_true (y : Z) :
  is_leap y = true -> y mod 4 = 0 /\ (y mod 100 <> 0 \/ y mod 400 = 0).
Proof.
  unfold is_leap. rewrite andb_true_iff, orb_true_iff, negb_true_iff, !Z.eqb_eq, Z.eqb_neq.
  tauto.
Qed.

Lemma is_leap_false (y : Z) :
  is_leap y = false -> y mod 4 <> 0 \/ (y mod 100 = 0 /\ y mod 400 <> 0).
Proof.
  unfold is_leap. rewrite andb_false_iff, orb_false_iff, negb_false_iff, !Z.eqb_eq, !Z.eqb_neq.
  tauto.
Qed.

Lemma day_of_year_recovered (y m d : Z) :
  1 <= m <= 12 -> 1 <= d <= days_in_month y m ->
  0 <= day_of_year (shifted_month m) d <= 365
  /\ (5 * day_of_year (shifted_month m) d + 2) / 153 = shifted_month m
  /\ day_of_year (shifted_month m) d - (153 * shifted_month m + 2) / 5 + 1 = d
  /\ (day_of_year (shifted_month m) d = 365 -> m = 2 /\ is_leap y = true).
Proof.
  intros Hm Hd. unfold days_in_month in Hd.
  each_month m Hm; cbn [Z.eqb Pos.eqb orb] in Hd;
    try (destruct (is_leap y) eqn:Hleap);
    unfold day_of_year, shifted_month; cbn [Z.ltb Z.compare Pos.compare Pos.compare_cont];
    repeat split; try (Z.div_mod_to_equations; lia).
Qed.

Lemma civil_from_days_eq (era doe : Z) :
  0 <= doe <= 146096 ->
  JSDate.civil_from_days (era * 146097 + doe - 719468)
  = let yoe := (doe - doe / 1460 + doe / 36524 - doe / 146096) / 365 in
    let doy := doe - (365 * yoe + yoe / 4 - yoe / 100) in
    let mp := (5 * doy + 2) / 153 in
    let d := doy - (153 * mp + 2) / 5 + 1 in
    let m := if mp <? 10 then mp + 3 else mp - 9 in
    (if m <=? 2 then yoe + era * 400 + 1 else yoe + era * 400, m, d).
Proof.
  intros Hdoe. unfold JSDate.civil_from_days.
  replace (era * 146097 + doe - 719468 + 719468) with (era * 146097 + doe) by lia.
  assert (Hera : (era * 146097 + doe) / 146097 = era) by (Z.div_mod_to_equations; lia).
  rewrite Hera.
  replace (era * 146097 + doe - era * 146097) with doe by lia.
  reflexivity.
Qed.

Lemma shifted_year_leap (y m : Z) :
  m = 2 -> is_leap y = true ->
  let yoe := shifted_year y m - shifted_year y m / 400 * 400 in
  (yoe + 1) mod 4 = 0 /\ ((yoe + 1) mod 100 <> 0 \/ yoe = 399).
Proof.
  intros -> Hleap. apply is_leap_true in Hleap. unfold shifted_year. cbn [Z.leb Z.compare Pos.compare Pos.compare_cont].
  cbv zeta. Z.div_mod_to_equations; lia.
Qed.

Lemma civil_roundtrip (y m d : Z) :
  1 <= m <= 12 -> 1 <= d <= days_in_month y m ->
  JSDate.civil_from_days (JSDate.days_from_civil y m d) = (y, m, d).
Proof.
  intros Hm Hd. rewrite days_from_civil_eq.
  destruct (day_of_year_recovered y m d Hm Hd) as (Hdoy & Hmp & Hday & Hlast).
  set (Y := shifted_year y m) in *. set (mp := shifted_month m) in *.
  set (doy := day_of_year mp d) in *.
  set (era := Y / 400). set (yoe := Y - era * 400).
  assert (Hyoe : 0 <= yoe <= 399) by (subst yoe era; Z.div_mod_to_equations; lia).
  assert (Hleap : doy = 365 -> (yoe + 1) mod 4 = 0 /\ ((yoe + 1) mod 100 <> 0 \/ yoe = 399)).
  { intros Hd365. destruct (Hlast Hd365) as [H2 Hl]. exact (shifted_year_leap y m H2 Hl). }
  destruct (year_of_era_recovered yoe doy Hyoe Hdoy Hleap) as [Hdoe Hrec].
  rewrite (civil_from_days_eq era _ Hdoe). cbv zeta. rewrite Hrec.
  replace (day_of_era yoe doy - (365 * yoe + yoe / 4 - yoe / 100)) with doy
    by (unfold day_of_era; lia).
  rewrite Hmp, Hday.
  assert (Hmonth : (if mp <? 10 then mp + 3 else mp - 9) = m).
  { subst mp. unfold shifted_month. each_month m Hm; reflexivity. }
  rewrite Hmonth. f_equal. f_equal.
  subst yoe era Y. unfold shifted_year.
  destruct (m <=? 2); lia.
Qed.

Lemma civil_month_range (z : Z) : 1 <= snd (fst (JSDate.civil_from_days z)) <= 12.
Proof.
  set (era := (z + 719468) / 146097). set (doe := z + 719468 - era * 146097).
  assert (Hdoe : 0 <= doe <= 146096) by (subst doe era; Z.div_mod_to_equations; lia).
  replace z with (era * 146097 + doe - 719468) by (subst doe; lia).
  rewrite (civil_from_days_eq era doe Hdoe). cbv zeta. cbn [fst snd].
  set (yoe := (doe - doe / 1460 + doe / 36524 - doe / 146096) / 365).
  assert (Hdoy : 0 <= doe - (365 * yoe + yoe / 4 - yoe / 100) <= 365).
  { subst yoe. Z.div_mod_to_equations; lia. }
  set (doy := doe - (365 * yoe + yoe / 4 - yoe / 100)) in *.
  assert (Hmp : 0 <= (5 * doy + 2) / 153 <= 11) by (Z.div_mod_to_equations; lia).
  destruct ((5 * doy + 2) / 153 <? 10) eqn:Hlt;
    [apply Z.ltb_lt in Hlt | apply Z.ltb_ge in Hlt]; lia.
Qed.

Lemma days_from_civil_day (y m d : Z) :
  JSDate.days_from_civil y m d = JSDate.days_from_civil y m 1 + d - 1.
Proof. unfold JSDate.days_from_civil. cbv zeta. lia. Qed.

Lemma next_month (y m : Z) :
  1 <= m <= 12 ->
  (y + m / 12, m mod 12 + 1) = if m =? 12 then (y + 1, 1) else (y, m + 1).
Proof.
  intros Hm. destruct (m =? 12) eqn:H12.
  - apply Z.eqb_eq in H12. subst m. reflexivity.
  - apply Z.eqb_neq in H12. rewrite Z.div_small, Z.mod_small by lia. f_equal. lia.
Qed.

(* Conditions on closed numbers are decided by computation. *)
Ltac eval_ifs :=
  repeat match goal with
    | |- context [if ?b then _ else _] =>
        let v := eval vm_compute in b in
        change b with v; cbv iota
    end.

Lemma next_month_start (y m : Z) :
  1 <= m <= 12 ->
  JSDate.days_from_civil (y + m / 12) (m mod 12 + 1) 1
  = JSDate.days_from_civil y m (days_in_month y m) + 1.
Proof.
  intros Hm.
  assert (Hnext : JSDate.days_from_civil (y + m / 12) (m mod 12 + 1) 1
                  = if m =? 12 then JSDate.days_from_civil (y + 1) 1 1
                    else JSDate.days_from_civil y (m + 1) 1).
  { pose proof (next_month y m Hm) as Hnext.
    destruct (m =? 12); injection Hnext as -> ->; reflexivity. }
  rewrite Hnext. unfold days_in_month.
  each_month m Hm; cbn [Z.eqb Pos.eqb orb];
    try (destruct (is_leap y) eqn:Hleap;
         [apply is_leap_true in Hleap | apply is_leap_false in Hleap]);
    unfold JSDate.days_from_civil; cbv zeta; eval_ifs;
    Z.div_mod_to_equations; lia.
Qed.

Lemma length_append (a b : string) :
  String.length (a +:+ b) = (String.length a + String.length b)%nat.
Proof.
  induction a as [|x a IH]; [reflexivity|].
  rewrite append_cons. cbn [String.length]. now rewrite IH.
Qed.

Lemma length_digits (w : nat) (n : Z) : String.length (JSDate.digits w n) = w.
Proof.
  revert n. induction w as [|w IH]; intros n; [reflexivity|].
  cbn [JSDate.digits]. rewrite length_append, IH. cbn [String.length]. lia.
Qed.

Lemma length_iso_date (y m d : Z) : String.length (iso_date y m d) = 10%nat.
Proof. unfold iso_date. rewrite !length_append, !length_digits. reflexivity. Qed.

Lemma substring_prefix (a b : string) : String.substring 0 (String.length a) (a +:+ b) = a.
Proof.
  induction a as [|x a IH].
  - destruct b; reflexivity.
  - rewrite append_cons. cbn [String.length String.substring]. now rewrite IH.
Qed.

Lemma slice_iso_date (y m d : Z) (rest : string) :
  JSDate.slice_0_10 (iso_date y m d +:+ rest) = iso_date y m d.
Proof.
  unfold JSDate.slice_0_10. rewrite <- (length_iso_date y m d). apply substring_prefix.
Qed.

Lemma iso_date_app (y m d : Z) (rest : string) :
  JSDate.digits 4 y +:+ "-" +:+ JSDate.digits 2 m +:+ "-" +:+ JSDate.digits 2 d +:+ rest
  = iso_date y m d +:+ rest.
Proof. unfold iso_date. now rewrite !append_assoc. Qed.

Lemma fill_weeks_cells (h : Host) (year month : option Z) (cell : Z -> string)
    (days : list Z) :
  (forall day, In day days ->
     exists iso, JSDate.toISOString (JSDate.make h year month (Some day)) = Normal iso
                 /\ JSDate.slice_0_10 iso = cell day) ->
  forall weeks week,
  exists weeks' week',
    DefensiveChecker.fill_weeks h year month days weeks week = Normal (weeks', week')
    /\ concat weeks' ++ week' = concat weeks ++ week ++ map cell days.
Proof.
  induction days as [|day days IH]; intros Hcells weeks week.
  - exists weeks, week. split; [reflexivity|]. cbn [map]. now rewrite app_nil_r.
  - destruct (Hcells day (or_introl eq_refl)) as (iso & Hiso & Hcell).
    cbn [DefensiveChecker.fill_weeks]. rewrite Hiso. cbn [mbind completion_bind].
    rewrite Hcell.
    assert (Hrest : forall d, In d days ->
              exists iso, JSDate.toISOString (JSDate.make h year month (Some d)) = Normal iso
                          /\ JSDate.slice_0_10 iso = cell d).
    { intros d Hd. apply Hcells. now right. }
    destruct (List.length (week ++ [cell day]) =? 7)%nat.
    + destruct (IH Hrest (weeks ++ [week ++ [cell day]]) []) as (ws & wk & Hfill & Hconcat).
      exists ws, wk. split; [exact Hfill|]. rewrite Hconcat, concat_app. cbn [concat map].
      rewrite !app_nil_r, <- !app_assoc. reflexivity.
    + destruct (IH Hrest weeks (week ++ [cell day])) as (ws & wk & Hfill & Hconcat).
      exists ws, wk. split; [exact Hfill|]. rewrite Hconcat. cbn [map].
      rewrite <- !app_assoc. reflexivity.
Qed.

Lemma flush_concat (weeks : list (list string)) (week : list string) :
  (List.length week < 7)%nat ->
  exists trailing,
    (trailing < 7)%nat
    /\ concat (DefensiveChecker.flush weeks week)
       = concat weeks ++ week ++ repeat EmptyString trailing.
Proof.
  intros Hweek. unfold DefensiveChecker.flush. destruct week as [|cell week].
  - exists 0%nat. split; [lia|]. cbn [repeat app]. now rewrite app_nil_r.
  - exists (7 - List.length (cell :: week))%nat. split; [cbn [List.length] in *; lia|].
    rewrite concat_app. cbn [concat]. now rewrite app_nil_r.
Qed.

Lemma days_of_range (n day : Z) :
  In day (DefensiveChecker.days_of (Some n)) -> 1 <= day <= n.
Proof.
  unfold DefensiveChecker.days_of. rewrite in_map_iff. intros (k & <- & Hk).
  apply in_seq in Hk. lia.
Qed.

(** The day before a valid day is a valid day, of the same year or of
    the year before, and [eve] is its ISO date. *)
Lemma day_before (y m d : Z) :
  1 <= m <= 12 -> 1 <= d <= days_in_month y m ->
  exists y' m' d',
    y - 1 <= y' <= y /\ 1 <= m' <= 12 /\ 1 <= d' <= days_in_month y' m'
    /\ JSDate.days_from_civil y' m' d' = JSDate.days_from_civil y m d - 1
    /\ iso_date y' m' d' = eve y m d.
Proof.
  intros Hm Hd. unfold eve. destruct (d =? 1) eqn:Hfirst.
  - apply Z.eqb_eq in Hfirst. subst d. destruct (m =? 1) eqn:Hjan.
    + apply Z.eqb_eq in Hjan. subst m. exists (y - 1), 12, 31.
      repeat split; try lia; try reflexivity.
      pose proof (next_month_start (y - 1) 12 ltac:(lia)) as Hnext.
      change (days_in_month (y - 1) 12) with 31 in Hnext.
      change (12 / 12) with 1 in Hnext. change (12 mod 12 + 1) with 1 in Hnext.
      replace (y - 1 + 1) with y in Hnext by lia. lia.
    + apply Z.eqb_neq in Hjan. pose proof (days_in_month_bounds y (m - 1)) as Hdim.
      exists y, (m - 1), (days_in_month y (m - 1)).
      repeat split; try lia.
      pose proof (next_month_start y (m - 1) ltac:(lia)) as Hnext.
      rewrite Z.div_small, Z.mod_small in Hnext by lia.
      replace (y + 0) with y in Hnext by lia.
      replace (m - 1 + 1) with m in Hnext by lia. lia.
  - apply Z.eqb_neq in Hfirst. exists y, m, (d - 1).
    repeat split; try lia.
    rewrite (days_from_civil_day y m d), (days_from_civil_day y m (d - 1)). lia.
Qed.

Section FixedOffset.

Variable h : Host.
Variable offset : Z.
Hypothesis fixed_offset : forall t isUTC, LocalTZA h t isUTC = offset.
Hypothesis within_a_day : - JSDate.msPerDay < offset < JSDate.msPerDay.

Lemma Day_of_midnight (D : Z) : JSDate.Day (D * JSDate.msPerDay) = D.
Proof. unfold JSDate.Day, JSDate.msPerDay. Z.div_mod_to_equations. lia. Qed.

(** The UTC day of a local midnight: the same day at or west of UTC, the
    day before east of it. *)
Lemma Day_of_local_midnight_west (D : Z) :
  offset <= 0 -> JSDate.Day (D * JSDate.msPerDay - offset) = D.
Proof.
  intros Hwest. unfold JSDate.Day, JSDate.msPerDay in *. Z.div_mod_to_equations. lia.
Qed.

Lemma Day_of_local_midnight_east (D : Z) :
  0 < offset -> JSDate.Day (D * JSDate.msPerDay - offset) = D - 1.
Proof.
  intros Heast. unfold JSDate.Day, JSDate.msPerDay in *. Z.div_mod_to_equations. lia.
Qed.

Lemma days_from_civil_bounded (y m d : Z) :
  99 <= y <= 9999 -> 1 <= m <= 12 -> 0 <= d <= 31 ->
  -700000 <= JSDate.days_from_civil y m d <= 3000000.
Proof.
  intros Hy Hm Hd. unfold JSDate.days_from_civil. cbv zeta.
  destruct (m <=? 2), (2 <? m); Z.div_mod_to_equations; lia.
Qed.

Lemma make_local_midnight (y m0 d : Z) :
  100 <= y <= 9999 -> 0 <= m0 <= 11 -> 0 <= d <= 31 ->
  JSDate.make h (Some y) (Some m0) (Some d)
  = Some (JSDate.days_from_civil y (m0 + 1) d * JSDate.msPerDay - offset).
Proof.
  intros Hy Hm Hd. unfold JSDate.make.
  assert (Hyear : ((0 <=? y) && (y <=? 99)) = false).
  { apply andb_false_iff. right. apply Z.leb_gt. lia. }
  rewrite Hyear. unfold JSDate.UTC, JSDate.MakeDay. rewrite fixed_offset.
  rewrite Z.div_small, Z.mod_small by lia.
  replace (y + 0) with y by lia.
  rewrite <- (days_from_civil_day y (m0 + 1) d).
  pose proof (days_from_civil_bounded y (m0 + 1) d ltac:(lia) ltac:(lia) Hd) as Hbound.
  unfold JSDate.TimeClip.
  assert (Hclip : (Z.abs (JSDate.days_from_civil y (m0 + 1) d * JSDate.msPerDay - offset)
                   <=? 8640000000000000) = true).
  { apply Z.leb_le. unfold JSDate.msPerDay in *. lia. }
  now rewrite Hclip.
Qed.

Lemma make_month_end (y m0 : Z) :
  100 <= y <= 9999 -> 0 <= m0 <= 11 ->
  JSDate.make h (Some y) (option_map (Z.add 1) (Some m0)) (Some 0)
  = Some (JSDate.days_from_civil y (m0 + 1) (days_in_month y (m0 + 1)) * JSDate.msPerDay
          - offset).
Proof.
  intros Hy Hm. cbn [option_map]. unfold JSDate.make.
  assert (Hyear : ((0 <=? y) && (y <=? 99)) = false).
  { apply andb_false_iff. right. apply Z.leb_gt. lia. }
  rewrite Hyear. unfold JSDate.UTC, JSDate.MakeDay. rewrite fixed_offset.
  replace (1 + m0) with (m0 + 1) by lia.
  rewrite (next_month_start y (m0 + 1)) by lia.
  replace (JSDate.days_from_civil y (m0 + 1) (days_in_month y (m0 + 1)) + 1 + 0 - 1)
    with (JSDate.days_from_civil y (m0 + 1) (days_in_month y (m0 + 1))) by lia.
  pose proof (days_in_month_bounds y (m0 + 1)) as Hdim.
  pose proof (days_from_civil_bounded y (m0 + 1) (days_in_month y (m0 + 1)) ltac:(lia)
                ltac:(lia) ltac:(lia)) as Hbound.
  unfold JSDate.TimeClip.
  assert (Hclip : (Z.abs (JSDate.days_from_civil y (m0 + 1) (days_in_month y (m0 + 1))
                          * JSDate.msPerDay - offset) <=? 8640000000000000) = true).
  { apply Z.leb_le. unfold JSDate.msPerDay in *. lia. }
  now rewrite Hclip.
Qed.

Lemma LocalTime_of_local_midnight (D : Z) :
  JSDate.LocalTime h (D * JSDate.msPerDay - offset) = D * JSDate.msPerDay.
Proof. unfold JSDate.LocalTime. rewrite fixed_offset. lia. Qed.

(** The ISO day of any instant of a valid day, in a year 0..9999. *)
Lemma toISOString_of_day (y m d t : Z) :
  0 <= y <= 9999 -> 1 <= m <= 12 -> 1 <= d <= days_in_month y m ->
  JSDate.Day t = JSDate.days_from_civil y m d ->
  exists iso, JSDate.toISOString (Some t) = Normal iso
              /\ JSDate.slice_0_10 iso = iso_date y m d.
Proof.
  intros Hy Hm Hd Hday.
  unfold JSDate.toISOString, JSDate.YearFromTime, JSDate.MonthFromTime, JSDate.DateFromTime.
  rewrite Hday, (civil_roundtrip y m d Hm Hd). cbn [fst snd]. cbv zeta.
  assert (Hyear : ((0 <=? y) && (y <=? 9999)) = true).
  { apply andb_true_iff. split; apply Z.leb_le; lia. }
  rewrite Hyear. replace (m - 1 + 1) with m by lia.
  eexists. split; [reflexivity|].
  rewrite iso_date_app. apply slice_iso_date.
Qed.

(** At or west of UTC the cell of day [d] is the ISO date of day [d]. *)
Lemma cell_of_day_west (y m0 d : Z) :
  offset <= 0 ->
  100 <= y <= 9999 -> 0 <= m0 <= 11 -> 1 <= d <= days_in_month y (m0 + 1) ->
  exists iso,
    JSDate.toISOString (JSDate.make h (Some y) (Some m0) (Some d)) = Normal iso
    /\ JSDate.slice_0_10 iso = iso_date y (m0 + 1) d.
Proof.
  intros Hwest Hy Hm Hd. pose proof (days_in_month_bounds y (m0 + 1)) as Hdim.
  rewrite (make_local_midnight y m0 d Hy Hm ltac:(lia)).
  apply toISOString_of_day; [lia | lia | exact Hd |].
  now apply Day_of_local_midnight_west.
Qed.

(** East of UTC the cell of day [d] is the ISO date of the day before. *)
Lemma cell_of_day_east (y m0 d : Z) :
  0 < offset ->
  100 <= y <= 9999 -> 0 <= m0 <= 11 -> 1 <= d <= days_in_month y (m0 + 1) ->
  exists iso,
    JSDate.toISOString (JSDate.make h (Some y) (Some m0) (Some d)) = Normal iso
    /\ JSDate.slice_0_10 iso = eve y (m0 + 1) d.
Proof.
  intros Heast Hy Hm Hd. pose proof (days_in_month_bounds y (m0 + 1)) as Hdim.
  rewrite (make_local_midnight y m0 d Hy Hm ltac:(lia)).
  destruct (day_before y (m0 + 1) d ltac:(lia) Hd)
    as (y' & m' & d' & Hy' & Hm' & Hd' & Hdays & Heve).
  rewrite <- Heve.
  apply toISOString_of_day; [lia | exact Hm' | exact Hd' |].
  rewrite Day_of_local_midnight_east by exact Heast. now rewrite Hdays.
Qed.

(** The grid, given what the cell of each day of the month is. *)
Lemma grid_of_cells (isoDates : list string) (focusedIso : option string) (anchor : Z)
    (cell : Z -> string) :
  DefensiveChecker.anchor_of h (DefensiveChecker.selected_of isoDates focusedIso)
  = Some anchor ->
  100 <= JSDate.YearFromTime (anchor + offset) <= 9999 ->
  (forall d,
     1 <= d <= days_in_month (JSDate.YearFromTime (anchor + offset))
                 (JSDate.MonthFromTime (anchor + offset) + 1) ->
     exists iso,
       JSDate.toISOString
         (JSDate.make h (Some (JSDate.YearFromTime (anchor + offset)))
            (Some (JSDate.MonthFromTime (anchor + offset))) (Some d)) = Normal iso
       /\ JSDate.slice_0_10 iso = cell d) ->
  exists grid trailing,
    returned (DefensiveChecker.buildMonthGrid h isoDates focusedIso) = Some grid
    /\ DefensiveChecker.year grid = Some (JSDate.YearFromTime (anchor + offset))
    /\ DefensiveChecker.monthIndex grid = Some (JSDate.MonthFromTime (anchor + offset))
    /\ (trailing < 7)%nat
    /\ Forall full_week (DefensiveChecker.weeks grid)
    /\ concat (DefensiveChecker.weeks grid)
       = repeat EmptyString
           (Z.to_nat ((JSDate.days_from_civil (JSDate.YearFromTime (anchor + offset))
                         (JSDate.MonthFromTime (anchor + offset) + 1) 1 + 4) mod 7))
         ++ map cell
              (DefensiveChecker.days_of
                 (Some (days_in_month (JSDate.YearFromTime (anchor + offset))
                          (JSDate.MonthFromTime (anchor + offset) + 1))))
         ++ repeat EmptyString trailing.
Proof.
  intros Hanchor Hyear Hcells.
  set (y := JSDate.YearFromTime (anchor + offset)) in *.
  set (m0 := JSDate.MonthFromTime (anchor + offset)) in *.
  assert (Hm0 : 0 <= m0 <= 11).
  { subst m0. unfold JSDate.MonthFromTime.
    pose proof (civil_month_range (JSDate.Day (anchor + offset))). lia. }
  pose proof (days_in_month_bounds y (m0 + 1)) as Hdim.
  destruct (buildMonthGrid_full_weeks h isoDates focusedIso) as (grid0 & Hgrid0 & Hfull).
  set (D := JSDate.days_from_civil y (m0 + 1) 1).
  assert (Hstart : 0 <= (D + 4) mod 7 < 7) by (apply Z.mod_pos_bound; lia).
  destruct (fill_weeks_cells h (Some y) (Some m0) cell
              (DefensiveChecker.days_of (Some (days_in_month y (m0 + 1)))))
    with (weeks := @nil (list string))
         (week := repeat EmptyString (Z.to_nat ((D + 4) mod 7)))
    as (ws & wk & Hfill & Hconcat).
  { intros day Hday. apply days_of_range in Hday. now apply Hcells. }
  assert (Hwk : (List.length wk < 7)%nat).
  { eapply (fill_weeks_full h (Some y) (Some m0) _ [] _ ws wk); [constructor | | exact Hfill].
    rewrite repeat_length. lia. }
  destruct (flush_concat ws wk Hwk) as (trailing & Htrailing & Hflush).
  assert (Hrun : DefensiveChecker.buildMonthGrid h isoDates focusedIso
                 = ([], Normal {| DefensiveChecker.weeks := DefensiveChecker.flush ws wk;
                                  DefensiveChecker.year := Some y;
                                  DefensiveChecker.monthIndex := Some m0;
                                  DefensiveChecker.availableSet :=
                                    list_to_set (map (DefensiveChecker.available_day h) isoDates);
                                  DefensiveChecker.selectedIso :=
                                    DefensiveChecker.selected_of isoDates focusedIso |})).
  { unfold DefensiveChecker.buildMonthGrid. rewrite Hanchor.
    unfold JSDate.getFullYear, JSDate.getMonth, JSDate.getDay, JSDate.getDate.
    cbn [option_map].
    assert (Hlocal : JSDate.LocalTime h anchor = anchor + offset).
    { unfold JSDate.LocalTime. now rewrite fixed_offset. }
    rewrite Hlocal. fold y. fold m0.
    rewrite (make_local_midnight y m0 1 Hyear Hm0 ltac:(lia)).
    change (option_map (Z.add 1) (Some m0)) with (Some (1 + m0)).
    pose proof (make_month_end y m0 Hyear Hm0) as Hend.
    cbn [option_map] in Hend. rewrite Hend. cbn [option_map].
    rewrite !LocalTime_of_local_midnight.
    unfold JSDate.WeekDay, JSDate.DateFromTime. rewrite !Day_of_midnight.
    rewrite (civil_roundtrip y (m0 + 1) (days_in_month y (m0 + 1))) by lia.
    cbn [snd]. fold D.
    unfold DefensiveChecker.blanks.
    assert (Hlen : ((0 <=? (D + 4) mod 7) && ((D + 4) mod 7 <? 4294967296)) = true).
    { apply andb_true_iff. split; [apply Z.leb_le | apply Z.ltb_lt]; lia. }
    rewrite Hlen. unfold lift. cbn [mbind completion_bind]. rewrite Hfill. reflexivity. }
  exists {| DefensiveChecker.weeks := DefensiveChecker.flush ws wk;
            DefensiveChecker.year := Some y;
            DefensiveChecker.monthIndex := Some m0;
            DefensiveChecker.availableSet :=
              list_to_set (map (DefensiveChecker.available_day h) isoDates);
            DefensiveChecker.selectedIso :=
              DefensiveChecker.selected_of isoDates focusedIso |}, trailing.
  split; [now rewrite Hrun|]. split; [reflexivity|]. split; [reflexivity|].
  split; [exact Htrailing|]. split.
  - rewrite Hrun in Hgrid0. injection Hgrid0 as <-. exact Hfull.
  - cbn [DefensiveChecker.weeks]. rewrite Hflush, app_assoc, Hconcat. cbn [concat app].
    rewrite <- !app_assoc. reflexivity.
Qed.

End FixedOffset.

(** At UTC and west of it (a fixed offset of local time in (-24h, 0]),
    for an anchor date that is valid and falls in a year 100..9999,
    [buildMonthGrid] returns the grid of the anchor's month: weeks of
    seven cells which, read in order, are the blanks before the weekday
    of the 1st, then the ISO dates of the days 1 to the last of the
    month, then fewer than seven trailing blanks. *)
Theorem buildMonthGrid_west_of_UTC
    (h : Host) (offset : Z) (isoDates : list string) (focusedIso : option string)
    (anchor : Z) :
  (forall t isUTC, LocalTZA h t isUTC = offset) ->
  - JSDate.msPerDay < offset <= 0 ->
  DefensiveChecker.anchor_of h (DefensiveChecker.selected_of isoDates focusedIso)
  = Some anchor ->
  100 <= JSDate.YearFromTime (anchor + offset) <= 9999 ->
  exists grid trailing,
    returned (DefensiveChecker.buildMonthGrid h isoDates focusedIso) = Some grid
    /\ DefensiveChecker.year grid = Some (JSDate.YearFromTime (anchor + offset))
    /\ DefensiveChecker.monthIndex grid = Some (JSDate.MonthFromTime (anchor + offset))
    /\ (trailing < 7)%nat
    /\ Forall full_week (DefensiveChecker.weeks grid)
    /\ concat (DefensiveChecker.weeks grid)
       = repeat EmptyString
           (Z.to_nat ((JSDate.days_from_civil (JSDate.YearFromTime (anchor + offset))
                         (JSDate.MonthFromTime (anchor + offset) + 1) 1 + 4) mod 7))
         ++ map (iso_date (JSDate.YearFromTime (anchor + offset))
                   (JSDate.MonthFromTime (anchor + offset) + 1))
              (DefensiveChecker.days_of
                 (Some (days_in_month (JSDate.YearFromTime (anchor + offset))
                          (JSDate.MonthFromTime (anchor + offset) + 1))))
         ++ repeat EmptyString trailing.
Proof.
  intros Htz Hwest Hanchor Hyear.
  assert (Hday : - JSDate.msPerDay < offset < JSDate.msPerDay)
    by (unfold JSDate.msPerDay in *; lia).
  apply (grid_of_cells h offset Htz Hday isoDates focusedIso anchor _ Hanchor Hyear).
  intros d Hd. apply (cell_of_day_west h offset Htz Hday); try assumption; try lia.
  unfold JSDate.MonthFromTime.
  pose proof (civil_month_range (JSDate.Day (anchor + offset))). lia.
Qed.

(** East of UTC (a fixed offset of local time in (0, 24h)), under the
    same conditions, the blanks are the same but every cell is a day
    early: the cells are the ISO dates of the days before days 1 to the
    last of the month, so the first is the last day of the previous
    month and the last day of the month is missing. *)
Theorem buildMonthGrid_east_of_UTC
    (h : Host) (offset : Z) (isoDates : list string) (focusedIso : option string)
    (anchor : Z) :
  (forall t isUTC, LocalTZA h t isUTC = offset) ->
  0 < offset < JSDate.msPerDay ->
  DefensiveChecker.anchor_of h (DefensiveChecker.selected_of isoDates focusedIso)
  = Some anchor ->
  100 <= JSDate.YearFromTime (anchor + offset) <= 9999 ->
  exists grid trailing,
    returned (DefensiveChecker.buildMonthGrid h isoDates focusedIso) = Some grid
    /\ DefensiveChecker.year grid = Some (JSDate.YearFromTime (anchor + offset))
    /\ DefensiveChecker.monthIndex grid = Some (JSDate.MonthFromTime (anchor + offset))
    /\ (trailing < 7)%nat
    /\ Forall full_week (DefensiveChecker.weeks grid)
    /\ concat (DefensiveChecker.weeks grid)
       = repeat EmptyString
           (Z.to_nat ((JSDate.days_from_civil (JSDate.YearFromTime (anchor + offset))
                         (JSDate.MonthFromTime (anchor + offset) + 1) 1 + 4) mod 7))
         ++ map (eve (JSDate.YearFromTime (anchor + offset))
                   (JSDate.MonthFromTime (anchor + offset) + 1))
              (DefensiveChecker.days_of
                 (Some (days_in_month (JSDate.YearFromTime (anchor + offset))
                          (JSDate.MonthFromTime (anchor + offset) + 1))))
         ++ repeat EmptyString trailing.
Proof.
  intros Htz Heast Hanchor Hyear.
  assert (Hday : - JSDate.msPerDay < offset < JSDate.msPerDay)
    by (unfold JSDate.msPerDay in *; lia).
  apply (grid_of_cells h offset Htz Hday isoDates focusedIso anchor _ Hanchor Hyear).
  intros d Hd. apply (cell_of_day_east h offset Htz Hday); try assumption; try lia.
  unfold JSDate.MonthFromTime.
  pose proof (civil_month_range (JSDate.Day (anchor + offset))). lia.
Qed.

Lemma buildMonthGrid_west_of_UTC_witness :
  exists grid trailing,
    returned (DefensiveChecker.buildMonthGrid (browser (-300) network_down) ["2025-12-15"] None)
    = Some grid
    /\ DefensiveChecker.year grid
       = Some (JSDate.YearFromTime (1765756800000 + -18000000))
    /\ DefensiveChecker.monthIndex grid
       = Some (JSDate.MonthFromTime (1765756800000 + -18000000))
    /\ (trailing < 7)%nat
    /\ Forall full_week (DefensiveChecker.weeks grid)
    /\ concat (DefensiveChecker.weeks grid)
       = repeat EmptyString
           (Z.to_nat ((JSDate.days_from_civil
                         (JSDate.YearFromTime (1765756800000 + -18000000))
                         (JSDate.MonthFromTime (1765756800000 + -18000000) + 1) 1 + 4) mod 7))
         ++ map (iso_date (JSDate.YearFromTime (1765756800000 + -18000000))
                   (JSDate.MonthFromTime (1765756800000 + -18000000) + 1))
              (DefensiveChecker.days_of
                 (Some (days_in_month (JSDate.YearFromTime (1765756800000 + -18000000))
                          (JSDate.MonthFromTime (1765756800000 + -18000000) + 1))))
         ++ repeat EmptyString trailing.
Proof.
  refine (buildMonthGrid_west_of_UTC (browser (-300) network_down) (-18000000)
            ["2025-12-15"] None 1765756800000 _ _ _ _).
  - reflexivity.
  - unfold JSDate.msPerDay. lia.
  - reflexivity.
  - vm_compute. split; discriminate.
Defined.

Lemma buildMonthGrid_east_of_UTC_witness :
  exists grid trailing,
    returned (DefensiveChecker.buildMonthGrid (browser 330 network_down) ["2025-12-15"] None)
    = Some grid
    /\ DefensiveChecker.year grid
       = Some (JSDate.YearFromTime (1765756800000 + 19800000))
    /\ DefensiveChecker.monthIndex grid
       = Some (JSDate.MonthFromTime (1765756800000 + 19800000))
    /\ (trailing < 7)%nat
    /\ Forall full_week (DefensiveChecker.weeks grid)
    /\ concat (DefensiveChecker.weeks grid)
       = repeat EmptyString
           (Z.to_nat ((JSDate.days_from_civil
                         (JSDate.YearFromTime (1765756800000 + 19800000))
                         (JSDate.MonthFromTime (1765756800000 + 19800000) + 1) 1 + 4) mod 7))
         ++ map (eve (JSDate.YearFromTime (1765756800000 + 19800000))
                   (JSDate.MonthFromTime (1765756800000 + 19800000) + 1))
              (DefensiveChecker.days_of
                 (Some (days_in_month (JSDate.YearFromTime (1765756800000 + 19800000))
                          (JSDate.MonthFromTime (1765756800000 + 19800000) + 1))))
         ++ repeat EmptyString trailing.
Proof.
  refine (buildMonthGrid_east_of_UTC (browser 330 network_down) 19800000
            ["2025-12-15"] None 1765756800000 _ _ _ _).
  - reflexivity.
  - unfold JSDate.msPerDay. lia.
  - reflexivity.
  - vm_compute. split; discriminate.
Defined.

(** * Further properties *)

(** ** The effects on [slotsByCountry] *)

Lemma run_cons (e : effect) (t : list effect) (s : State) :
  run (e :: t) s = run t (apply_effect s e).
Proof. reflexivity. Qed.

Lemma run_stores (Q : string -> Prop) (P : SlotSummary.t -> Prop) (t : list effect)
    (s : State) :
  Forall (stores Q P) t ->
  map_Forall (fun _ v => P v) (slotsByCountry s) ->
  map_Forall (fun _ v => P v) (slotsByCountry (run t s)).
Proof.
  intros Ht. revert s. induction Ht as [|e t He _ IH]; intros s Hs; [exact Hs|].
  rewrite run_cons. apply IH. destruct e; try exact Hs.
  cbn. apply map_Forall_insert_2; [exact (proj2 He) | exact Hs].
Qed.

Lemma run_keeps_other_keys (Q : string -> Prop) (t : list effect) (s : State) (k : string) :
  Forall (stores Q (fun _ => True)) t -> ~ Q k ->
  slotsByCountry (run t s) !! k = slotsByCountry s !! k.
Proof.
  intros Ht Hk. revert s. induction Ht as [|e t He _ IH]; intros s; [reflexivity|].
  rewrite run_cons, IH. destruct e; try reflexivity.
  cbn. apply lookup_insert_ne. intros ->. apply Hk, He.
Qed.

Lemma run_keeps_slots (t : list effect) (s : State) :
  Forall (stores (fun _ => False) (fun _ => True)) t ->
  slotsByCountry (run t s) = slotsByCountry s.
Proof.
  intros Ht. revert s. induction Ht as [|e t He _ IH]; intros s; [reflexivity|].
  rewrite run_cons, IH. destruct e; try reflexivity. destruct He as [[] _].
Qed.

Lemma stores_weaken (Q Q' : string -> Prop) (P P' : SlotSummary.t -> Prop) (e : effect) :
  (forall k, Q k -> Q' k) -> (forall v, P v -> P' v) -> stores Q P e -> stores Q' P' e.
Proof. intros HQ HP. destruct e; cbn; intuition. Qed.

(** ** What the extraction builds *)

Lemma default_truthy (x : completion jsval) (d v : jsval) :
  x ||| Normal d = Normal v -> truthy d = true -> truthy v = true.
Proof.
  destruct x as [a|e]; [|discriminate]. cbn. destruct (truthy a) eqn:Ha; congruence.
Qed.

Lemma default_null (x : completion jsval) (v : jsval) :
  x ||| Normal JNull = Normal v -> v = JNull \/ truthy v = true.
Proof.
  destruct x as [a|e]; [|discriminate]. cbn. destruct (truthy a) eqn:Ha; intros [= <-]; auto.
Qed.

Lemma guarded_array_value (a : jsval) :
  Array_isArray (Normal a) &&& Normal a = Normal (if isArray a then a else JBool false).
Proof. now destruct a. Qed.

Lemma allDates_is_array (a b : jsval) :
  isArray (jor (jor (if isArray a then a else JBool false)
                    (if isArray b then b else JBool false)) (JArr [])) = true.
Proof. destruct a, b; reflexivity. Qed.

Lemma city_of_stored (c : jsval) (y : City.t) :
  Checker.city_of c = Normal y \/ DefensiveChecker.city_of c = Normal y -> stored_city y.
Proof.
  unfold Checker.city_of, DefensiveChecker.city_of. destruct (nullish c) eqn:Hc.
  { destruct (get_nullish c "centre_name_fe" Hc) as [msg Hmsg]. rewrite Hmsg.
    intros [H | H]; discriminate H. }
  rewrite !(get_defined c _ Hc).
  destruct (guarded_first_elem (prop c "actual_dates")) as [v1 ->].
  destruct (guarded_first_elem (prop c "all_dates")) as [v2 ->].
  rewrite !guarded_array_value.
  destruct (Normal (prop c "centre_name_fe") ||| Normal (prop c "centre_name")
              ||| Normal (prop c "cityName") ||| Normal (prop c "name")
              ||| Normal (prop c "city") ||| Normal (JStr "-")) as [name|e] eqn:Hname;
    [|rewrite !or_else_normal in Hname; discriminate Hname].
  destruct (Normal (prop c "earliest_date") ||| Normal v1 ||| Normal v2
              ||| Normal (prop c "nextDate") ||| Normal (prop c "firstAvailable")
              ||| Normal JNull) as [primaryDate|e] eqn:Hdate;
    [|rewrite !or_else_normal in Hdate; discriminate Hdate].
  rewrite !or_else_normal. cbn [mbind completion_bind mret completion_ret].
  apply default_truthy in Hname; [|reflexivity]. apply default_null in Hdate.
  intros [[= <-] | [= <-]]; (split; [exact Hname|]; split; [apply allDates_is_array|exact Hdate]).
Qed.

Lemma mapM_Forall {A B : Type} (f : A -> completion B) (P : B -> Prop) (l : list A)
    (ys : list B) :
  (forall x y, f x = Normal y -> P y) -> mapM f l = Normal ys -> Forall P ys.
Proof.
  intros Hf. revert ys. induction l as [|x l IH]; intros ys; cbn [mapM].
  - intros [= <-]. constructor.
  - destruct (f x) as [y|e] eqn:Hy; [|discriminate]. cbn.
    destruct (mapM f l) as [zs|e]; [|discriminate]. cbn. intros [= <-].
    constructor; [now apply (Hf x) | now apply IH].
Qed.

Lemma mapM_length {A B : Type} (f : A -> completion B) (l : list A) (ys : list B) :
  mapM f l = Normal ys -> List.length ys = List.length l.
Proof.
  revert ys. induction l as [|x l IH]; intros ys; cbn [mapM].
  - now intros [= <-].
  - destruct (f x) as [y|e]; [|discriminate]. cbn.
    destruct (mapM f l) as [zs|e]; [|discriminate]. cbn. intros [= <-].
    cbn. now rewrite (IH zs).
Qed.

Lemma stored_empty : stored_summary (Checker.summary JNull [] false).
Proof. split; [reflexivity|]. split; [constructor | now left]. Qed.

Lemma stored_from_cities (cities : list City.t) (x : completion jsval) (s : SlotSummary.t) :
  Forall stored_city cities ->
  (nextDate ← x ||| Normal JNull; mret (Checker.summary nextDate cities (nonempty cities)))
  = Normal s ->
  stored_summary s.
Proof.
  intros Hcities. destruct (x ||| Normal JNull) as [v|e] eqn:Hv; [|discriminate].
  cbn. intros [= <-]. split; [reflexivity|]. split; [exact Hcities|].
  now apply default_null in Hv.
Qed.

Lemma extractSummary_stored (h : Host) (data : jsval) (s : SlotSummary.t) :
  Checker.extractSummaryFromSlotsData h data = Normal s -> stored_summary s.
Proof.
  unfold Checker.extractSummaryFromSlotsData.
  destruct (truthy data) eqn:Hdata; cbn [negb].
  2:{ intros [= <-]. apply stored_empty. }
  pose proof (truthy_not_nullish _ Hdata) as Hn.
  rewrite !(get_defined data _ Hn). cbn [mbind completion_bind].
  assert (Hmap : forall l cities, mapM Checker.city_of l = Normal cities ->
                                  Forall stored_city cities).
  { intros l cities. apply mapM_Forall. intros x y Hy. apply (city_of_stored x). now left. }
  destruct (isArray (prop data "centre_dates")).
  { destruct (mapM Checker.city_of (elems_of (prop data "centre_dates"))) as [cities|e]
      eqn:Hcities; [|discriminate].
    cbn [mbind completion_bind]. apply stored_from_cities. now apply (Hmap _ _ Hcities). }
  destruct (isArray data).
  { destruct (mapM Checker.city_of (elems_of data)) as [cities|e] eqn:Hcities; [|discriminate].
    cbn [mbind completion_bind]. apply stored_from_cities. now apply (Hmap _ _ Hcities). }
  cbn [andb].
  destruct (Checker.says_not_available h (prop data "message")).
  { intros [= <-]. apply stored_empty. }
  destruct (typeof_object data).
  2:{ intros [= <-]. apply stored_empty. }
  destruct (List.filter isArray (Object_values data)) as [|arr arrays].
  { intros [= <-]. apply stored_empty. }
  destruct (mapM Checker.city_of (elems_of arr)) as [cities|e] eqn:Hcities; [|discriminate].
  cbn [mbind completion_bind]. apply stored_from_cities. now apply (Hmap _ _ Hcities).
Qed.

Lemma defensive_extractSummary_body_stored (data : jsval) (s : SlotSummary.t) :
  DefensiveChecker.extractSummary_body data = Normal s -> stored_summary s.
Proof.
  unfold DefensiveChecker.extractSummary_body.
  change DefensiveChecker.summary with Checker.summary.
  destruct (truthy data) eqn:Hdata; cbn [negb].
  2:{ intros [= <-]. apply stored_empty. }
  pose proof (truthy_not_nullish _ Hdata) as Hn.
  rewrite !(get_defined data _ Hn). cbn [mbind completion_bind].
  assert (Hmap : forall l cities, mapM DefensiveChecker.city_of l = Normal cities ->
                                  Forall stored_city cities).
  { intros l cities. apply mapM_Forall. intros x y Hy. apply (city_of_stored x). now right. }
  destruct (isArray (prop data "centre_dates")).
  { destruct (mapM DefensiveChecker.city_of (elems_of (prop data "centre_dates")))
      as [cities|e] eqn:Hcities; [|discriminate].
    cbn [mbind completion_bind]. apply stored_from_cities. now apply (Hmap _ _ Hcities). }
  cbn [andb]. destruct (typeof_object data).
  2:{ intros [= <-]. apply stored_empty. }
  destruct (List.filter isArray (Object_values data)) as [|arr arrays].
  { intros [= <-]. apply stored_empty. }
  destruct (mapM DefensiveChecker.city_of (elems_of arr)) as [cities|e] eqn:Hcities;
    [|discriminate].
  cbn [mbind completion_bind]. apply stored_from_cities. now apply (Hmap _ _ Hcities).
Qed.

Lemma stored_with_raw (s : SlotSummary.t) (data : jsval) :
  stored_summary s -> stored_summary (with_raw s data).
Proof. intros Hs. exact Hs. Qed.

Lemma stored_demo (code : string) (s : SlotSummary.t) :
  Checker.DEMO_SLOTS code = Some s \/ DefensiveChecker.DEMO_SLOTS code = Some s ->
  stored_summary s.
Proof.
  assert (Hcity : forall name nextDate allDates address,
             stored_city {| City.name := JStr name; City.nextDate := JStr nextDate;
                            City.allDates := JArr allDates; City.address := address |}
             \/ name = EmptyString \/ nextDate = EmptyString).
  { intros [|a name] [|b nextDate] allDates address; auto.
    left. split; [reflexivity|]. split; [reflexivity | now right]. }
  unfold Checker.DEMO_SLOTS, DefensiveChecker.DEMO_SLOTS.
  destruct (String.eqb code "FR"); [|destruct (String.eqb code "CH")];
    intros [H | H]; try discriminate H; injection H as <-;
    (split; [reflexivity|]; split; [|right; reflexivity]);
    repeat (apply Forall_cons; split;
            [split; [reflexivity|]; split; [reflexivity | right; reflexivity]|]);
    constructor.
Qed.

Lemma stored_fallbacks : stored_summary offline_fallback /\ stored_summary unreachable_fallback.
Proof. split; (split; [reflexivity|]; split; [constructor | now left]). Qed.

Ltac effect_by_effect :=
  repeat lazymatch goal with
         | |- Forall _ (_ :: _) => apply List.Forall_cons
         | |- Forall _ [] => apply List.Forall_nil
         end.

(** Every [setSlotsByCountry] of the request statement is for the
    code requested and stores a [stored_summary]. *)
Lemma request_slots_stores (h : Host) (code : string) :
  Forall (stores (eq code) stored_summary) (trace (Checker.request_slots h code))
  /\ Forall (stores (eq code) stored_summary) (trace (DefensiveChecker.request_slots h code)).
Proof.
  pose proof (stored_demo code) as Hdemo. destruct stored_fallbacks as [_ Hfall].
  destruct (has_lone_surrogate code) eqn:Hcode.
  { destruct (request_slots_malformed h code Hcode) as [-> ->]. unfold demo_or_fallback.
    destruct (Checker.DEMO_SLOTS code) eqn:Hd, (DefensiveChecker.DEMO_SLOTS code) eqn:Hd';
      split; effect_by_effect; cbn [stores]; try exact I;
      (split; [reflexivity|]); eauto. }
  with_the_url Hcode. unfold do_fetch.
  unfold DefensiveChecker.extractSummaryFromSlotsData.
  generalize (Checker.slots_url code) as url. intros url.
  pose proof stored_empty as Hempty.
  pose proof (extractSummary_stored h) as Hbuilt.
  pose proof defensive_extractSummary_body_stored as Hbuilt'.
  destruct (fetch h url) as [e | [] status [data | e]];
    cbn -[Checker.extractSummaryFromSlotsData DefensiveChecker.extractSummary_body];
    try destruct (Checker.extractSummaryFromSlotsData h data) as [s|e] eqn:Hs;
    try destruct (DefensiveChecker.extractSummary_body data) as [s'|e'] eqn:Hs';
    destruct (Checker.DEMO_SLOTS code) eqn:Hd, (DefensiveChecker.DEMO_SLOTS code) eqn:Hd';
    cbn; split; effect_by_effect; cbn [stores]; try exact I;
    (split; [reflexivity|]); try apply stored_with_raw; eauto.
Qed.

Lemma fetchSlots_stores (h : Host) (st : State) (code : string) :
  Forall (stores (eq code) stored_summary)
    (trace (Checker.fetchSlotsForCountry h st (Code code)))
  /\ Forall (stores (eq code) stored_summary)
       (trace (DefensiveChecker.fetchSlotsForCountry h st (Code code))).
Proof.
  destruct (request_slots_stores h code) as [Hr1 Hr2].
  pose proof (stored_demo code) as Hdemo. destruct stored_fallbacks as [Hoff _].
  destruct code as [|a code]; [split; constructor|].
  unfold Checker.fetchSlotsForCountry, DefensiveChecker.fetchSlotsForCountry.
  destruct (String.eqb (loadingSlots st) (String a code)),
           (has_slots (slotsByCountry st) (String a code));
    try (split; effect_by_effect; exact I);
    destruct (offlineMode st || negb (has_fetch h));
    rewrite ?trace_prefixed3, ?trace_prefixed;
    try destruct (Checker.DEMO_SLOTS (String a code)) eqn:Hd;
    try destruct (DefensiveChecker.DEMO_SLOTS (String a code)) eqn:Hd';
    cbn -[Checker.request_slots DefensiveChecker.request_slots];
    split; effect_by_effect; cbn [stores]; try exact I; try assumption;
    (split; [reflexivity|]); eauto.
Qed.

(** ** Invariants of the stored slots *)

(** Every summary [fetchSlotsForCountry] stores is well formed, so the
    summaries of [slotsByCountry] (empty at first, and written by no
    other function) stay well formed: available exactly when there are
    cities, every city with a truthy name, an array of dates and a
    [nextDate] that is [null] or truthy.  Both revisions, whatever the
    network answers and whatever render the call closed over. *)
Theorem fetchSlots_keeps_summaries_well_formed
    (h : Host) (st live : State) (countryCode : code_arg) :
  map_Forall (fun _ s => stored_summary s) (slotsByCountry live) ->
  map_Forall (fun _ s => stored_summary s)
    (slotsByCountry (run (trace (Checker.fetchSlotsForCountry h st countryCode)) live))
  /\ map_Forall (fun _ s => stored_summary s)
       (slotsByCountry
          (run (trace (DefensiveChecker.fetchSlotsForCountry h st countryCode)) live)).
Proof.
  intros Hlive. destruct countryCode as [| |code]; try (split; exact Hlive).
  destruct (fetchSlots_stores h st code) as [H1 H2].
  split; eapply run_stores; eassumption.
Qed.

Lemma fetchSlots_keeps_summaries_well_formed_witness :
  map_Forall (fun _ s => stored_summary s)
    (slotsByCountry
       (run (trace (Checker.fetchSlotsForCountry
                      (browser 330
                         (Resolves true 200
                            (Normal (JObj [("centre_dates",
                                            JArr [JObj [("city", JStr "Pune")]])]))))
                      initial_state (Code "PT")))
            initial_state)).
Proof.
  refine (proj1 (fetchSlots_keeps_summaries_well_formed _ initial_state initial_state _ _)).
  apply map_Forall_empty.
Defined.

Lemma fetchCountries_no_slots (h : Host) :
  Forall (stores (fun _ => False) (fun _ => True)) (trace (Checker.fetchCountries h))
  /\ Forall (stores (fun _ => False) (fun _ => True))
       (trace (DefensiveChecker.fetchCountries h)).
Proof.
  unfold Checker.fetchCountries, DefensiveChecker.fetchCountries, do_fetch.
  change DefensiveChecker.countries_url with Checker.countries_url.
  generalize Checker.countries_url as url. intros url.
  destruct (has_fetch h); cbn [negb]; [|split; cbn; effect_by_effect; exact I].
  destruct (fetch h url) as [e | [] status [data | e]];
    cbn -[mapM Checker.countries_list DefensiveChecker.countries_list];
    try destruct (mapM Checker.country_of (Checker.countries_list data));
    try destruct (mapM DefensiveChecker.country_of (DefensiveChecker.countries_list data));
    cbn; split; effect_by_effect; exact I.
Qed.

Lemma onSearch_no_slots (h : Host) (st : State) (q : string) :
  Forall (stores (fun _ => False) (fun _ => True)) (trace (Checker.onSearch h st q))
  /\ Forall (stores (fun _ => False) (fun _ => True))
       (trace (DefensiveChecker.onSearch h st q)).
Proof.
  unfold Checker.onSearch, DefensiveChecker.onSearch.
  destruct q as [|a q]; [split; cbn; effect_by_effect; exact I|].
  cbn -[filterM].
  destruct (filterM (Checker.matches h _) (countries st));
    destruct (filterM (DefensiveChecker.matches h _) (countries st));
    cbn; split; effect_by_effect; exact I.
Qed.

(** Once the slots of a country are stored they are never replaced or
    dropped: a further [fetchSlotsForCountry] (for any code), a refresh
    of the countries and a search all leave every stored entry as it is.
    So the "Refresh" button never refreshes slots.  Both revisions. *)
Theorem stored_slots_are_never_replaced
    (h : Host) (st : State) (countryCode : code_arg) (q k : string) (v : SlotSummary.t) :
  slotsByCountry st !! k = Some v ->
  (slotsByCountry (run (trace (Checker.fetchSlotsForCountry h st countryCode)) st) !! k
   = Some v
   /\ slotsByCountry (run (trace (Checker.fetchCountries h)) st) !! k = Some v
   /\ slotsByCountry (run (trace (Checker.onSearch h st q)) st) !! k = Some v)
  /\ (slotsByCountry (run (trace (DefensiveChecker.fetchSlotsForCountry h st countryCode)) st)
        !! k = Some v
      /\ slotsByCountry (run (trace (DefensiveChecker.fetchCountries h)) st) !! k = Some v
      /\ slotsByCountry (run (trace (DefensiveChecker.onSearch h st q)) st) !! k = Some v).
Proof.
  intros Hk.
  destruct (fetchCountries_no_slots h) as [Hc1 Hc2].
  destruct (onSearch_no_slots h st q) as [Hs1 Hs2].
  assert (Hfetch :
            slotsByCountry (run (trace (Checker.fetchSlotsForCountry h st countryCode)) st)
              !! k = Some v
            /\ slotsByCountry
                 (run (trace (DefensiveChecker.fetchSlotsForCountry h st countryCode)) st)
                 !! k = Some v).
  { destruct countryCode as [| |code]; try (split; exact Hk).
    destruct (String.eqb_spec code k) as [-> | Hne].
    - assert (Hhas : has_slots (slotsByCountry st) k = true)
        by (apply has_slots_stored; now exists v).
      destruct k as [|a k]; [split; exact Hk|].
      unfold Checker.fetchSlotsForCountry, DefensiveChecker.fetchSlotsForCountry.
      rewrite Hhas. destruct (String.eqb (loadingSlots st) (String a k)); split; exact Hk.
    - destruct (fetchSlots_stores h st code) as [H1 H2].
      split; (rewrite (run_keeps_other_keys (eq code)); [exact Hk | | exact Hne]);
        [apply (Forall_impl _ _ _ H1) | apply (Forall_impl _ _ _ H2)];
        intros e; apply stores_weaken; auto. }
  rewrite (run_keeps_slots _ st Hc1), (run_keeps_slots _ st Hc2),
    (run_keeps_slots _ st Hs1), (run_keeps_slots _ st Hs2).
  destruct Hfetch as [Hf1 Hf2]. repeat split; assumption.
Qed.

Lemma stored_slots_are_never_replaced_witness :
  slotsByCountry
    (run (trace (Checker.fetchCountries (browser 330 network_down)))
         (run [SetSlotsByCountry "FR" Checker.demo_FR] initial_state)) !! "FR"
  = Some Checker.demo_FR.
Proof.
  refine (proj1 (proj2 (proj1 (stored_slots_are_never_replaced
                                 (browser 330 network_down)
                                 (run [SetSlotsByCountry "FR" Checker.demo_FR] initial_state)
                                 CodeNull "" "FR" Checker.demo_FR _)))).
  reflexivity.
Defined.

(** ** The countries request, whatever happens *)

(** However the request goes, [fetchCountries] completes normally and
    leaves the component settled: the loading flag is cleared, the time
    of the update is recorded, the whole list is shown ([filtered] is
    [countries], although the query text is kept), the stored slots and
    the selection are untouched, and the component is either on line
    with no error or in offline mode with the demo countries and an
    error string.  Both revisions. *)
Theorem fetchCountries_always_settles (h : Host) (live : State) :
  (outcome (Checker.fetchCountries h) = Normal tt
   /\ countries_settled h live (run (trace (Checker.fetchCountries h)) live))
  /\ (outcome (DefensiveChecker.fetchCountries h) = Normal tt
      /\ countries_settled h live (run (trace (DefensiveChecker.fetchCountries h)) live)).
Proof.
  unfold Checker.fetchCountries, DefensiveChecker.fetchCountries, do_fetch, countries_settled.
  change DefensiveChecker.countries_url with Checker.countries_url.
  generalize Checker.countries_url as url. intros url.
  destruct (has_fetch h); cbn [negb].
  2:{ repeat split; try reflexivity; intros; discriminate. }
  destruct (fetch h url) as [e | [] status [data | e]];
    cbn -[mapM Checker.countries_list DefensiveChecker.countries_list];
    try destruct (mapM Checker.country_of (Checker.countries_list data));
    try destruct (mapM DefensiveChecker.country_of (DefensiveChecker.countries_list data));
    cbn; repeat split; try reflexivity; intros; discriminate.
Qed.

(** ** Offline mode *)

Lemma fetchSlots_offline_no_request (h : Host) (st : State) (countryCode : code_arg) :
  offlineMode st = true ->
  requests (trace (Checker.fetchSlotsForCountry h st countryCode)) = []
  /\ requests (trace (DefensiveChecker.fetchSlotsForCountry h st countryCode)) = [].
Proof.
  intros Hoff. destruct countryCode as [| |[|a code]]; try (split; reflexivity).
  unfold Checker.fetchSlotsForCountry, DefensiveChecker.fetchSlotsForCountry.
  rewrite Hoff. cbn [orb].
  destruct (String.eqb (loadingSlots st) (String a code)),
           (has_slots (slotsByCountry st) (String a code));
    destruct (Checker.DEMO_SLOTS (String a code)),
             (DefensiveChecker.DEMO_SLOTS (String a code));
    split; reflexivity.
Qed.

(** After a countries request that failed, the component is in offline
    mode: every later [fetchSlotsForCountry] (until a refresh succeeds)
    is served from the demo data and issues no request, even if the
    network is back.  Both revisions. *)
Theorem failed_refresh_takes_slots_offline
    (h h' : Host) (live : State) (countryCode : code_arg) :
  has_fetch h = true ->
  request_fails h Checker.countries_url ->
  requests (trace (Checker.fetchSlotsForCountry h'
                     (run (trace (Checker.fetchCountries h)) live) countryCode)) = []
  /\ requests (trace (DefensiveChecker.fetchSlotsForCountry h'
                        (run (trace (DefensiveChecker.fetchCountries h)) live) countryCode))
     = [].
Proof.
  intros Hfetch Hfails.
  assert (Hoff : offlineMode (run (trace (Checker.fetchCountries h)) live) = true
                 /\ offlineMode (run (trace (DefensiveChecker.fetchCountries h)) live) = true).
  { unfold Checker.fetchCountries, DefensiveChecker.fetchCountries, do_fetch.
    change DefensiveChecker.countries_url with Checker.countries_url.
    rewrite Hfetch. destruct Hfails as [[e He] | (status & json & He)]; rewrite He;
      split; reflexivity. }
  destruct Hoff as [Hoff1 Hoff2].
  split; [apply (fetchSlots_offline_no_request h' _ _ Hoff1)
         | apply (fetchSlots_offline_no_request h' _ _ Hoff2)].
Qed.

Lemma failed_refresh_takes_slots_offline_witness :
  requests
    (trace (Checker.fetchSlotsForCountry (browser 330 (Resolves true 200 (Normal JNull)))
              (run (trace (Checker.fetchCountries (browser 330 unavailable))) initial_state)
              (Code "PT"))) = [].
Proof.
  refine (proj1 (failed_refresh_takes_slots_offline (browser 330 unavailable)
                   (browser 330 (Resolves true 200 (Normal JNull))) initial_state (Code "PT")
                   _ _)).
  - reflexivity.
  - right. exists 503, (Normal JNull). reflexivity.
Defined.

Lemma get_prop_array (data : jsval) (k : string) (l : list jsval) :
  prop data k = JArr l -> truthy data = true.
Proof. destruct data; cbn; try discriminate; reflexivity. Qed.

Lemma city_of_centre_defined (c : jsval) :
  nullish c = false ->
  Checker.city_of c = Normal (city_of_centre c)
  /\ DefensiveChecker.city_of c = Normal (defensive_city_of_centre c).
Proof.
  intros Hc. unfold Checker.city_of, DefensiveChecker.city_of.
  rewrite !(get_defined c _ Hc), !guarded_array_value.
  assert (Hfirst : forall a,
             Array_isArray (Normal a) &&& (Normal a ≫= first_elem)
             = Normal (if isArray a then first_of a else JBool false)).
  { intros a. destruct a as [| | | | |[|x l]|]; reflexivity. }
  rewrite !Hfirst, !or_else_normal.
  pose proof (jor_chain (map (prop c) (tl centre_name_fields)) (prop c "centre_name_fe")
                (JStr "-")) as Hname.
  pose proof (jor_chain (map (prop c) (tl centre_address_fields)) (prop c "address") JNull)
    as Haddress.
  cbn [centre_name_fields centre_address_fields tl map app fold_left] in Hname, Haddress.
  rewrite Hname, Haddress.
  assert (Hnext : jor (jor (jor (jor (jor (prop c "earliest_date")
                                       (if isArray (prop c "actual_dates")
                                        then first_of (prop c "actual_dates")
                                        else JBool false))
                                  (if isArray (prop c "all_dates")
                                   then first_of (prop c "all_dates")
                                   else JBool false))
                             (prop c "nextDate")) (prop c "firstAvailable")) JNull
                  = centre_next c).
  { assert (Hguard : forall x a z,
               jor (jor x (if isArray a then first_of a else JBool false)) z
               = jor (jor x (first_of a)) z).
    { intros x a z. unfold jor.
      destruct a as [| | | | |[|y l]|]; cbn; destruct (truthy x); reflexivity. }
    rewrite !Hguard.
    exact (jor_chain [ first_of (prop c "actual_dates"); first_of (prop c "all_dates");
                       prop c "nextDate"; prop c "firstAvailable" ]
             (prop c "earliest_date") JNull). }
  rewrite Hnext.
  assert (Hdates : jor (jor (if isArray (prop c "actual_dates") then prop c "actual_dates"
                             else JBool false)
                            (if isArray (prop c "all_dates") then prop c "all_dates"
                             else JBool false)) (JArr [])
                   = centre_dates c).
  { unfold centre_dates.
    destruct (prop c "actual_dates"), (prop c "all_dates"); reflexivity. }
  rewrite Hdates. split; reflexivity.
Qed.

Lemma mapM_city_of_defined (l : list jsval) :
  Forall (fun c => nullish c = false) l ->
  mapM Checker.city_of l = Normal (map city_of_centre l)
  /\ mapM DefensiveChecker.city_of l = Normal (map defensive_city_of_centre l).
Proof.
  intros Hl. split; apply mapM_defined; (eapply Forall_impl; [exact Hl|]);
    intros c Hc; apply (city_of_centre_defined c Hc).
Qed.

Lemma mapM_city_of_null (l : list jsval) :
  Exists (fun c => nullish c = true) l ->
  (exists msg, mapM Checker.city_of l = Throw (TypeError msg))
  /\ (exists msg, mapM DefensiveChecker.city_of l = Throw (TypeError msg)).
Proof.
  induction 1 as [c l Hc | c l _ [[m1 IH1] [m2 IH2]]]; cbn [mapM].
  - unfold Checker.city_of, DefensiveChecker.city_of.
    destruct (get_nullish c "centre_name_fe" Hc) as [msg ->]. split; now exists msg.
  - rewrite IH1, IH2.
    destruct (city_of_outcomes c) as [[y ->] | [msg ->]],
             (defensive_city_of_outcomes c) as [[y' ->] | [msg' ->]];
      split; eexists; reflexivity.
Qed.

(** ** One city per centre record *)

Lemma nonempty_map {A B : Type} (f : A -> B) (l : list A) : nonempty (map f l) = nonempty l.
Proof. now destruct l. Qed.

Lemma extractSummary_of_centres (h : Host) (data : jsval) :
  (Forall (fun c => nullish c = false) (centres h data) ->
   Checker.extractSummaryFromSlotsData h data
   = Normal (Checker.summary (summary_next data (map city_of_centre (centres h data)))
               (map city_of_centre (centres h data)) (nonempty (centres h data))))
  /\ (Exists (fun c => nullish c = true) (centres h data) ->
      exists msg, Checker.extractSummaryFromSlotsData h data = Throw (TypeError msg)).
Proof.
  unfold Checker.extractSummaryFromSlotsData, centres, summary_next.
  destruct (truthy data) eqn:Hdata; cbn [negb].
  2:{ destruct data; try discriminate Hdata;
        split; intros Hx; try reflexivity; inversion Hx. }
  pose proof (truthy_not_nullish _ Hdata) as Hn.
  rewrite !(get_defined data _ Hn). cbn [mbind completion_bind andb].
  destruct (isArray (prop data "centre_dates")); [|destruct (isArray data)];
    [| |destruct (Checker.says_not_available h (prop data "message"));
        [|destruct (typeof_object data);
          [destruct (List.filter isArray (Object_values data)) as [|arr arrays]|]]];
    split; intros Hl; try reflexivity; try (now inversion Hl);
    try (destruct (mapM_city_of_defined _ Hl) as [-> _];
         cbn [mbind completion_bind]; rewrite !or_else_normal, nonempty_map; reflexivity);
    destruct (mapM_city_of_null _ Hl) as [[msg ->] _]; now exists msg.
Qed.

Lemma defensive_extractSummary_of_centres (data : jsval) :
  (Forall (fun c => nullish c = false) (defensive_centres data) ->
   DefensiveChecker.extractSummaryFromSlotsData data
   = ([], Normal (Checker.summary
                    (summary_next data (map defensive_city_of_centre (defensive_centres data)))
                    (map defensive_city_of_centre (defensive_centres data))
                    (nonempty (defensive_centres data)))))
  /\ (Exists (fun c => nullish c = true) (defensive_centres data) ->
      exists msg,
        DefensiveChecker.extractSummaryFromSlotsData data
        = ([Console ErrorLevel "extractSummaryFromSlotsData error" [LExn (TypeError msg)]],
           Normal (Checker.summary JNull [] false))).
Proof.
  unfold DefensiveChecker.extractSummaryFromSlotsData, DefensiveChecker.extractSummary_body,
    defensive_centres, summary_next.
  change DefensiveChecker.summary with Checker.summary.
  destruct (truthy data) eqn:Hdata; cbn [negb].
  2:{ destruct data; try discriminate Hdata;
        split; intros Hx; try reflexivity; inversion Hx. }
  pose proof (truthy_not_nullish _ Hdata) as Hn.
  rewrite !(get_defined data _ Hn). cbn [mbind completion_bind andb].
  destruct (isArray (prop data "centre_dates"));
    [|destruct (typeof_object data);
      [destruct (List.filter isArray (Object_values data)) as [|arr arrays]|]];
    split; intros Hl; try reflexivity; try (now inversion Hl);
    try (destruct (mapM_city_of_defined _ Hl) as [_ ->];
         cbn [mbind completion_bind]; rewrite !or_else_normal, nonempty_map; reflexivity);
    destruct (mapM_city_of_null _ Hl) as [_ [msg ->]]; now exists msg.
Qed.

(** The extraction maps the centre records of the payload ([centres]:
    in the first revision a payload whose [message] says "not available"
    has none, unless it has a [centre_dates] array or is an array) one
    to one, in order: when no record is [null] or [undefined] the
    summary has the city of each record (the first truthy name field,
    else ["-"]; the dates; the next date) and is available exactly when
    there is a record; when a record is [null] or [undefined] the first
    revision throws a [TypeError], and the defensive one logs the error
    and returns the empty summary. *)
Theorem extractSummary_maps_each_centre (h : Host) (data : jsval) :
  (Forall (fun c => nullish c = false) (centres h data) ->
   Checker.extractSummaryFromSlotsData h data
   = Normal (Checker.summary (summary_next data (map city_of_centre (centres h data)))
               (map city_of_centre (centres h data)) (nonempty (centres h data))))
  /\ (Exists (fun c => nullish c = true) (centres h data) ->
      exists msg, Checker.extractSummaryFromSlotsData h data = Throw (TypeError msg))
  /\ (Forall (fun c => nullish c = false) (defensive_centres data) ->
      DefensiveChecker.extractSummaryFromSlotsData data
      = ([], Normal (Checker.summary
                       (summary_next data
                          (map defensive_city_of_centre (defensive_centres data)))
                       (map defensive_city_of_centre (defensive_centres data))
                       (nonempty (defensive_centres data)))))
  /\ (Exists (fun c => nullish c = true) (defensive_centres data) ->
      exists msg,
        DefensiveChecker.extractSummaryFromSlotsData data
        = ([Console ErrorLevel "extractSummaryFromSlotsData error" [LExn (TypeError msg)]],
           Normal (Checker.summary JNull [] false))).
Proof.
  destruct (extractSummary_of_centres h data) as [H1 H2].
  destruct (defensive_extractSummary_of_centres data) as [H3 H4].
  repeat split; assumption.
Qed.

Lemma extractSummary_maps_each_centre_witness :
  Checker.extractSummaryFromSlotsData (browser 330 network_down)
    (JObj [("centre_dates",
            JArr [JObj [("centre_name", JStr "Pune"); ("all_dates", JArr [JStr "2026-01-05"])]])])
  = Normal (Checker.summary (JStr "2026-01-05")
              [ {| City.name := JStr "Pune"; City.nextDate := JStr "2026-01-05";
                   City.allDates := JArr [JStr "2026-01-05"]; City.address := JUndefined |} ]
              true)
  /\ (exists msg,
        Checker.extractSummaryFromSlotsData (browser 330 network_down)
          (JObj [("centre_dates", JArr [JNull])])
        = Throw (TypeError msg))
  /\ DefensiveChecker.extractSummaryFromSlotsData
       (JObj [("centre_dates", JArr [JObj [("centre_name", JStr "Pune")]])])
     = ([], Normal (Checker.summary JNull
                      [ {| City.name := JStr "Pune"; City.nextDate := JNull;
                           City.allDates := JArr []; City.address := JNull |} ]
                      true))
  /\ (exists msg,
        DefensiveChecker.extractSummaryFromSlotsData (JObj [("centre_dates", JArr [JNull])])
        = ([Console ErrorLevel "extractSummaryFromSlotsData error" [LExn (TypeError msg)]],
           Normal (Checker.summary JNull [] false))).
Proof.
  split; [|split; [|split]].
  - refine (proj1 (extractSummary_maps_each_centre (browser 330 network_down)
                     (JObj [("centre_dates",
                             JArr [JObj [("centre_name", JStr "Pune");
                                         ("all_dates", JArr [JStr "2026-01-05"])]])])) _).
    repeat constructor.
  - refine (proj1 (proj2 (extractSummary_maps_each_centre (browser 330 network_down)
                            (JObj [("centre_dates", JArr [JNull])]))) _).
    constructor. reflexivity.
  - refine (proj1 (proj2 (proj2 (extractSummary_maps_each_centre
                                   (browser 330 network_down)
                                   (JObj [("centre_dates",
                                           JArr [JObj [("centre_name", JStr "Pune")]])]))))
              _).
    repeat constructor.
  - refine (proj2 (proj2 (proj2 (extractSummary_maps_each_centre
                                   (browser 330 network_down)
                                   (JObj [("centre_dates", JArr [JNull])])))) _).
    constructor. reflexivity.
Defined.

(** A payload that is itself an array of centre records (none of them
    an array) is read by the first revision, one city per record, and
    is no longer recognised by the defensive revision, which returns the
    empty summary for it. *)
Theorem top_level_array_is_dropped_by_the_defensive_revision (h : Host) (l : list jsval) :
  Forall (fun c => isArray c = false /\ nullish c = false) l ->
  Checker.extractSummaryFromSlotsData h (JArr l)
  = Normal (Checker.summary (jor (found_nextDate (map city_of_centre l)) JNull)
              (map city_of_centre l) (nonempty l))
  /\ DefensiveChecker.extractSummaryFromSlotsData (JArr l)
     = ([], Normal (Checker.summary JNull [] false)).
Proof.
  intros Hl.
  assert (Hnone : List.filter isArray l = []).
  { induction Hl as [|c l [Hc _] _ IH]; [reflexivity|]. cbn. now rewrite Hc. }
  split.
  - assert (Hcentres : centres h (JArr l) = l) by reflexivity.
    destruct (extractSummary_of_centres h (JArr l)) as [Hmap _].
    rewrite Hcentres in Hmap. apply Hmap.
    eapply Forall_impl; [exact Hl|]. now intros c [_ Hc].
  - unfold DefensiveChecker.extractSummaryFromSlotsData, DefensiveChecker.extractSummary_body.
    cbn. rewrite Hnone. reflexivity.
Qed.

Lemma top_level_array_is_dropped_by_the_defensive_revision_witness :
  Checker.extractSummaryFromSlotsData (browser 330 network_down)
    (JArr [JObj [("city", JStr "Pune")]])
  = Normal (Checker.summary
              (jor (found_nextDate (map city_of_centre [JObj [("city", JStr "Pune")]])) JNull)
              (map city_of_centre [JObj [("city", JStr "Pune")]])
              (nonempty [JObj [("city", JStr "Pune")]]))
  /\ DefensiveChecker.extractSummaryFromSlotsData (JArr [JObj [("city", JStr "Pune")]])
     = ([], Normal (Checker.summary JNull [] false)).
Proof.
  refine (top_level_array_is_dropped_by_the_defensive_revision
            (browser 330 network_down) [JObj [("city", JStr "Pune")]] _).
  repeat constructor.
Defined.

(** ** A payload with a missing centre *)

(** An OK response whose [centre_dates] holds a [null] (or [undefined])
    record: in the first revision the [TypeError] of the extraction
    lands in the [catch] of the request, so the user is told that the
    API could not be reached and sees the demo entry (or the fallback
    record); the defensive revision catches it inside the extraction
    and stores the empty summary, with the payload as [raw] and no
    error. *)
Theorem null_centre_is_reported_as_unreachable
    (h : Host) (st live : State) (code : string) (status : Z) (data : jsval)
    (l : list jsval) :
  issues_request h st code ->
  fetch h (Checker.slots_url code) = Resolves true status (Normal data) ->
  prop data "centre_dates" = JArr l ->
  Exists (fun c => nullish c = true) l ->
  slots_substituted Checker.DEMO_SLOTS code
    (run (trace (Checker.fetchSlotsForCountry h st (Code code))) live)
  /\ (loadingSlots st <> code ->
      slotsByCountry (run (trace (DefensiveChecker.fetchSlotsForCountry h st (Code code))) live)
        !! code = Some (with_raw empty_summary data)
      /\ error (run (trace (DefensiveChecker.fetchSlotsForCountry h st (Code code))) live)
         = None).
Proof.
  intros Hreq Hres Hcentre Hnull. pose proof Hreq as (_ & _ & _ & _ & Hcode).
  pose proof (get_prop_array _ _ _ Hcentre) as Hdata.
  assert (Hc1 : centres h data = l).
  { unfold centres. now rewrite Hdata, Hcentre. }
  assert (Hc2 : defensive_centres data = l).
  { unfold defensive_centres. now rewrite Hdata, Hcentre. }
  destruct (extractSummary_of_centres h data) as [_ Hthrow1].
  destruct (defensive_extractSummary_of_centres data) as [_ Hthrow2].
  rewrite Hc1 in Hthrow1. rewrite Hc2 in Hthrow2.
  destruct (Hthrow1 Hnull) as [msg1 Hx1]. destruct (Hthrow2 Hnull) as [msg2 Hx2].
  split; [|intros Hloading].
  - rewrite (fetchSlots_online _ _ _ Hreq), trace_prefixed.
    with_the_url Hcode. unfold do_fetch. rewrite Hres.
    cbn -[Checker.extractSummaryFromSlotsData]. rewrite Hx1.
    unfold slots_substituted, demo_or_fallback.
    destruct (Checker.DEMO_SLOTS code); cbn; (split; [apply lookup_insert_eq | reflexivity]).
  - rewrite (defensive_fetchSlots_online _ _ _ Hreq Hloading), trace_prefixed3.
    with_the_url Hcode. unfold do_fetch. rewrite Hres.
    cbn -[DefensiveChecker.extractSummaryFromSlotsData]. rewrite Hx2.
    cbn. split; [apply lookup_insert_eq | reflexivity].
Qed.

Lemma null_centre_is_reported_as_unreachable_witness :
  slots_substituted Checker.DEMO_SLOTS "PT"
    (run (trace (Checker.fetchSlotsForCountry
                   (browser 330 (Resolves true 200
                                   (Normal (JObj [("centre_dates", JArr [JNull])]))))
                   initial_state (Code "PT")))
         initial_state)
  /\ slotsByCountry
       (run (trace (DefensiveChecker.fetchSlotsForCountry
                      (browser 330 (Resolves true 200
                                      (Normal (JObj [("centre_dates", JArr [JNull])]))))
                      initial_state (Code "PT")))
            initial_state) !! "PT"
     = Some (with_raw empty_summary (JObj [("centre_dates", JArr [JNull])])).
Proof.
  assert (Hboth := null_centre_is_reported_as_unreachable
                     (browser 330 (Resolves true 200
                                     (Normal (JObj [("centre_dates", JArr [JNull])]))))
                     initial_state initial_state "PT" 200
                     (JObj [("centre_dates", JArr [JNull])]) [JNull]).
  destruct Hboth as [Hfirst Hdefensive].
  - repeat split; [discriminate | reflexivity..].
  - reflexivity.
  - reflexivity.
  - constructor. reflexivity.
  - split; [exact Hfirst|]. apply Hdefensive. discriminate.
Defined.

(** ** One request per country *)

Lemma request_slots_settles (h : Host) (code : string) (live : State) :
  slots_settled h code (run (trace (Checker.request_slots h code)) live)
  /\ slots_settled h code (run (trace (DefensiveChecker.request_slots h code)) live).
Proof.
  destruct (has_lone_surrogate code) eqn:Hcode.
  { destruct (request_slots_malformed h code Hcode) as [-> ->].
    unfold slots_settled, demo_or_fallback.
    destruct (Checker.DEMO_SLOTS code), (DefensiveChecker.DEMO_SLOTS code);
      cbn; repeat split; try reflexivity; eexists; apply lookup_insert_eq. }
  with_the_url Hcode. unfold do_fetch, slots_settled.
  unfold DefensiveChecker.extractSummaryFromSlotsData.
  generalize (Checker.slots_url code) as url. intros url.
  destruct (fetch h url) as [e | [] status [data | e]];
    cbn -[Checker.extractSummaryFromSlotsData DefensiveChecker.extractSummary_body];
    try destruct (Checker.extractSummaryFromSlotsData h data) as [s|e] eqn:Hs;
    try destruct (DefensiveChecker.extractSummary_body data) as [s'|e'] eqn:Hs';
    destruct (Checker.DEMO_SLOTS code) eqn:Hd, (DefensiveChecker.DEMO_SLOTS code) eqn:Hd';
    cbn; repeat split; try reflexivity; eexists; apply lookup_insert_eq.
Qed.

Lemma fetchSlots_settles (h : Host) (st live : State) (code : string) :
  code <> EmptyString ->
  has_slots (slotsByCountry st) code = false ->
  slots_settled h code (run (trace (Checker.fetchSlotsForCountry h st (Code code))) live)
  /\ (loadingSlots st <> code ->
      slots_settled h code
        (run (trace (DefensiveChecker.fetchSlotsForCountry h st (Code code))) live)).
Proof.
  intros Hne Hslots. destruct code as [|a code]; [congruence|].
  unfold Checker.fetchSlotsForCountry, DefensiveChecker.fetchSlotsForCountry.
  rewrite Hslots.
  destruct (offlineMode st || negb (has_fetch h)).
  - split; [|intros Hloading; apply String.eqb_neq in Hloading; rewrite Hloading];
      [destruct (Checker.DEMO_SLOTS (String a code))
      |destruct (DefensiveChecker.DEMO_SLOTS (String a code))];
      cbn; repeat split; try reflexivity; eexists; apply lookup_insert_eq.
  - split; [|intros Hloading; apply String.eqb_neq in Hloading; rewrite Hloading].
    + rewrite trace_prefixed, !run_cons.
      apply (request_slots_settles h (String a code)).
    + rewrite trace_prefixed3, !run_cons.
      apply (request_slots_settles h (String a code)).
Qed.

(** A call for a non-empty code under which [slotsByCountry] reads
    falsy (nothing is stored under it, and it is not a name that every
    object inherits, such as ["constructor"]; in the defensive revision,
    a code that is not already loading) always ends with an entry stored
    for that code, the loading marker cleared and the time recorded,
    whatever the network does; and a second call for the same code, in
    the state the first one left, does nothing: no request and no state
    update (the defensive revision logs that the slots are cached).  So
    each country is requested at most once. *)
Theorem fetchSlots_requests_a_country_once (h h' : Host) (st : State) (code : string) :
  code <> EmptyString ->
  has_slots (slotsByCountry st) code = false ->
  (slots_settled h code (run (trace (Checker.fetchSlotsForCountry h st (Code code))) st)
   /\ Checker.fetchSlotsForCountry h'
        (run (trace (Checker.fetchSlotsForCountry h st (Code code))) st) (Code code)
      = ([], Normal tt))
  /\ (loadingSlots st <> code ->
      slots_settled h code
        (run (trace (DefensiveChecker.fetchSlotsForCountry h st (Code code))) st)
      /\ DefensiveChecker.fetchSlotsForCountry h'
           (run (trace (DefensiveChecker.fetchSlotsForCountry h st (Code code))) st)
           (Code code)
         = ([Console DebugLevel "slots cached for" [LVal (JStr code)]], Normal tt)).
Proof.
  intros Hne Hslots.
  destruct (fetchSlots_settles h st st code Hne Hslots) as [H1 H2].
  split; [|intros Hloading; specialize (H2 Hloading)].
  - split; [exact H1|]. destruct H1 as (Hstored & _ & _).
    apply has_slots_stored in Hstored.
    destruct code as [|a code]; [congruence|].
    unfold Checker.fetchSlotsForCountry at 1. now rewrite Hstored.
  - split; [exact H2|]. destruct H2 as (Hstored & Hidle & _).
    apply has_slots_stored in Hstored.
    destruct code as [|a code]; [congruence|].
    unfold DefensiveChecker.fetchSlotsForCountry at 1. rewrite Hidle, Hstored. reflexivity.
Qed.

Lemma fetchSlots_requests_a_country_once_witness :
  Checker.fetchSlotsForCountry (browser 330 network_down)
    (run (trace (Checker.fetchSlotsForCountry (browser 330 unavailable) initial_state
                   (Code "DE")))
         initial_state) (Code "DE")
  = ([], Normal tt)
  /\ DefensiveChecker.fetchSlotsForCountry (browser 330 network_down)
       (run (trace (DefensiveChecker.fetchSlotsForCountry (browser 330 unavailable)
                      initial_state (Code "DE")))
            initial_state) (Code "DE")
     = ([Console DebugLevel "slots cached for" [LVal (JStr "DE")]], Normal tt).
Proof.
  assert (Hboth := fetchSlots_requests_a_country_once (browser 330 unavailable)
                     (browser 330 network_down) initial_state "DE").
  destruct Hboth as [[_ Hfirst] Hdefensive].
  - discriminate.
  - reflexivity.
  - split; [exact Hfirst|]. apply Hdefensive. discriminate.
Defined.

(** ** The code of a country *)

Lemma find_none_falsy (vs : list jsval) (v : jsval) :
  find truthy vs = None -> In v vs -> truthy v = false.
Proof.
  induction vs as [|x vs IH]; [intros _ []|]. cbn [find].
  destruct (truthy x) eqn:Hx; [discriminate|]. intros Hnone [<- | Hin]; auto.
Qed.

Lemma or_else_truthy (v : jsval) (y : completion jsval) :
  truthy v = true -> Normal v ||| y = Normal v.
Proof. intros Hv. unfold or_else. now rewrite Hv. Qed.

Lemma jor_falsy (a b : jsval) : truthy a = false -> jor a b = b.
Proof. intros Ha. unfold jor. now rewrite Ha. Qed.

Lemma getCountryCode_normalized (c : jsval) :
  nullish c = false ->
  Checker.getCountryCode (normalized c) = Normal (Country.code (normalized c))
  /\ (truthy (Country.code (normalized c)) = true \/ Country.code (normalized c) = JStr "").
Proof.
  intros Hc. unfold Checker.getCountryCode, normalized, first_truthy, first_such.
  cbn [Country.code Country.__raw].
  destruct (find truthy (map (prop c) code_fields)) as [v|] eqn:Hfind.
  - apply find_some in Hfind as [_ Hv]. split; [|now left].
    now rewrite !(or_else_truthy v) by exact Hv.
  - split; [|now right].
    assert (Hf : forall k, In k code_fields -> truthy (prop c k) = false).
    { intros k Hk. apply (find_none_falsy _ _ Hfind). now apply in_map. }
    assert (Hraw : exists w,
               Normal c &&& (get c "iso2_code" ||| get c "iso2" ||| get c "code"
                               ||| get c "countryCode") = Normal w
               /\ truthy w = false).
    { rewrite !(get_defined c _ Hc), !or_else_normal. unfold and_then.
      destruct (truthy c) eqn:Htruthy; [|now exists c].
      exists (prop c "countryCode").
      rewrite (jor_falsy (prop c "iso2_code")), (jor_falsy (prop c "iso2")),
        (jor_falsy (prop c "code")) by (apply Hf; cbn; tauto).
      split; [reflexivity | apply Hf; cbn; tauto]. }
    destruct Hraw as (w & -> & Hw). rewrite !or_else_normal.
    rewrite (jor_falsy (JStr "")), (jor_falsy JUndefined), (jor_falsy w)
      by (exact Hw || reflexivity).
    reflexivity.
Qed.

(** For every country [fetchCountries] can put in the list (one mapped
    from a record of the payload, or a demo country) the code the table
    row and the modal use, [getCountryCode(c) || c.code], is the [code]
    field of the country: the fields of [__raw] it falls back on are
    never needed.  Both revisions. *)
Theorem row_code_is_the_country_code (c : jsval) (k : Country.t) :
  Checker.country_of c = Normal k \/ In k DEMO_COUNTRIES ->
  Checker.getCountryCode k = Normal (Country.code k)
  /\ Checker.row_code k = Normal (Country.code k)
  /\ DefensiveChecker.modal_code k = Normal (Country.code k).
Proof.
  assert (Hchain : forall k : Country.t,
             Checker.getCountryCode k = Normal (Country.code k) ->
             truthy (Country.code k) = true \/ Country.code k = JStr "" ->
             Checker.getCountryCode k = Normal (Country.code k)
             /\ Checker.row_code k = Normal (Country.code k)
             /\ DefensiveChecker.modal_code k = Normal (Country.code k)).
  { intros k' Hcode Hshape. unfold Checker.row_code, DefensiveChecker.modal_code.
    change DefensiveChecker.getCountryCode with Checker.getCountryCode.
    rewrite Hcode, !or_else_normal. unfold jor.
    destruct Hshape as [Ht | He]; [rewrite Ht; cbn; now rewrite ?Ht | now rewrite He]. }
  intros [Hmapped | Hdemo].
  - destruct (nullish c) eqn:Hc.
    + unfold Checker.country_of in Hmapped.
      destruct (get_nullish c "code" Hc) as [msg Hmsg]. rewrite Hmsg in Hmapped.
      discriminate Hmapped.
    + destruct (country_of_defined c Hc) as [Hk _]. rewrite Hk in Hmapped.
      injection Hmapped as <-. destruct (getCountryCode_normalized c Hc) as [H1 H2].
      now apply Hchain.
  - cbn in Hdemo. destruct Hdemo as [<- | [<- | [<- | []]]];
      apply Hchain; (reflexivity || (left; reflexivity)).
Qed.

Lemma row_code_is_the_country_code_witness :
  Checker.row_code (normalized (JObj [("name", JStr "Atlantis")])) = Normal (JStr "").
Proof.
  refine (proj1 (proj2 (row_code_is_the_country_code
                          (JObj [("name", JStr "Atlantis")]) _ _))).
  left. reflexivity.
Defined.

(** ** Stepping through the dates *)

Lemma indexOf_bounds (l : list string) (x : string) :
  -1 <= indexOf l x < Z.of_nat (List.length l).
Proof.
  induction l as [|y l IH]; cbn [indexOf List.length]; [lia|].
  destruct (String.eqb y x); [lia|].
  destruct (indexOf l x <? 0) eqn:Hneg; [lia|]. apply Z.ltb_ge in Hneg. lia.
Qed.

Lemma indexOf_absent (l : list string) (x : string) : ~ In x l -> indexOf l x = -1.
Proof.
  induction l as [|y l IH]; [reflexivity|]. intros Hx. cbn [indexOf].
  destruct (String.eqb_spec y x) as [-> | _]; [destruct Hx; now left|].
  rewrite IH by (intros Hin; apply Hx; now right). reflexivity.
Qed.

Lemma indexOf_nth (l : list string) (i : nat) (x : string) :
  NoDup l -> nth_error l i = Some x -> indexOf l x = Z.of_nat i.
Proof.
  intros Hl. revert i. induction Hl as [|y l Hy _ IH]; intros i; [now destruct i|].
  destruct i as [|i]; cbn [nth_error indexOf].
  - intros [= ->]. now rewrite String.eqb_refl.
  - intros Hi. destruct (String.eqb_spec y x) as [-> | _].
    + destruct Hy. apply list_elem_of_In. eapply nth_error_In. exact Hi.
    + rewrite (IH _ Hi). destruct (Z.of_nat i <? 0) eqn:Hneg; [apply Z.ltb_lt in Hneg|]; lia.
Qed.

Lemma at_index_nth {A : Type} (l : list A) (i : nat) : at_index l (Z.of_nat i) = nth_error l i.
Proof.
  unfold at_index. destruct (Z.of_nat i <? 0) eqn:Hneg; [apply Z.ltb_lt in Hneg; lia|].
  now rewrite Nat2Z.id.
Qed.

Lemma existsb_eqb_In (x : string) (l : list string) :
  existsb (String.eqb x) l = true <-> In x l.
Proof.
  rewrite existsb_exists. split.
  - intros (y & Hy & Heq). apply String.eqb_eq in Heq. now subst.
  - intros Hx. exists x. split; [exact Hx | apply String.eqb_refl].
Qed.

Lemma first_date_In (dates : list string) (d : string) :
  first_date dates = Some d -> In d dates /\ d <> EmptyString.
Proof.
  destruct dates as [|[|a x] dates]; try discriminate. intros [= <-].
  split; [now left | discriminate].
Qed.

(** The date the modal of the first revision shows as selected is
    always one of the dates of the active city, and never the empty
    string: it is the selected date when the city has it, and the first
    date of the city otherwise (after a change of city, say); there is
    none only when the city has no first date. *)
Theorem effective_date_is_a_date_of_the_city (selectedDate : option string)
    (dates : list string) :
  (forall d, Checker.effectiveSelectedDate_of selectedDate dates = Some d ->
             In d dates /\ d <> EmptyString)
  /\ (forall d, selectedDate = Some d -> d <> EmptyString -> In d dates ->
                Checker.effectiveSelectedDate_of selectedDate dates = Some d)
  /\ (forall d, selectedDate = Some d -> ~ In d dates ->
                Checker.effectiveSelectedDate_of selectedDate dates = first_date dates)
  /\ (Checker.effectiveSelectedDate_of selectedDate dates = None ->
      first_date dates = None).
Proof.
  unfold Checker.effectiveSelectedDate_of. split; [|split; [|split]].
  - intros d. destruct selectedDate as [[|a s]|]; try apply first_date_In.
    destruct (existsb (String.eqb (String a s)) dates) eqn:Hin; [|apply first_date_In].
    intros [= <-]. apply existsb_eqb_In in Hin. split; [exact Hin | discriminate].
  - intros [|a s] -> Hne Hin; [congruence|].
    apply existsb_eqb_In in Hin. now rewrite Hin.
  - intros [|a s] -> Hin; [reflexivity|].
    destruct (existsb (String.eqb (String a s)) dates) eqn:Hex; [|reflexivity].
    apply existsb_eqb_In in Hex. contradiction.
  - destruct selectedDate as [[|a s]|]; try tauto.
    destruct (existsb (String.eqb (String a s)) dates); [discriminate | tauto].
Qed.

Lemma effective_date_is_a_date_of_the_city_witness :
  Checker.effectiveSelectedDate_of (Some "2025-12-20") ["2025-12-15"; "2025-12-16"]
  = Some "2025-12-15".
Proof.
  refine (proj1 (proj2 (proj2 (effective_date_is_a_date_of_the_city
                                 (Some "2025-12-20") ["2025-12-15"; "2025-12-16"])))
            "2025-12-20" eq_refl _).
  intros [H | [H | []]]; discriminate H.
Defined.

Lemma distinct_nth (dates : list string) (i : nat) (d : string) :
  distinct_dates dates -> nth_error dates i = Some d ->
  exists a rest, d = String a rest.
Proof.
  intros [_ Hne] Hi. rewrite List.Forall_forall in Hne.
  specialize (Hne d (nth_error_In _ _ Hi)). destruct d as [|a rest]; [congruence|].
  now exists a, rest.
Qed.

Lemma effective_at (dates : list string) (i : nat) (d : string) :
  distinct_dates dates -> nth_error dates i = Some d ->
  Checker.effectiveSelectedDate_of (Some d) dates = Some d.
Proof.
  intros Hdates Hi. destruct (distinct_nth _ _ _ Hdates Hi) as (a & rest & ->).
  unfold Checker.effectiveSelectedDate_of.
  assert (Hin : existsb (String.eqb (String a rest)) dates = true).
  { apply existsb_eqb_In. eapply nth_error_In. exact Hi. }
  now rewrite Hin.
Qed.

Lemma changeSelectedDate_at (dates : list string) (i : nat) (d : string) (direction : Z) :
  distinct_dates dates -> nth_error dates i = Some d ->
  Checker.changeSelectedDate (Some (dates, Some d)) direction
  = if (Z.of_nat i + direction <? 0) || (Z.of_nat (List.length dates) <=? Z.of_nat i + direction)
    then ([], Normal tt)
    else ([SetSelectedDate (at_index dates (Z.of_nat i + direction))], Normal tt).
Proof.
  intros Hdates Hi. destruct (distinct_nth _ _ _ Hdates Hi) as (a & rest & ->).
  unfold Checker.changeSelectedDate. destruct dates as [|x dates]; [now destruct i|].
  rewrite (indexOf_nth _ _ _ (proj1 Hdates) Hi).
  destruct ((Z.of_nat i + direction <? 0)
            || (Z.of_nat (List.length (x :: dates)) <=? Z.of_nat i + direction));
    reflexivity.
Qed.

(** In the first revision, for a city whose dates are distinct (and not
    empty), "Next Slot" and "Previous Slot" step through the dates in
    order: from the date at position [i] a click moves the selection to
    position [i + direction] when the city has such a position and does
    nothing otherwise (at either end); so "Next Slot" followed by
    "Previous Slot" comes back to the same date. *)
Theorem changeSelectedDate_steps_through_the_dates
    (st : State) (dates : list string) (i : nat) (d : string) (direction : Z) :
  distinct_dates dates ->
  nth_error dates i = Some d ->
  selectedDate st = Some d ->
  (0 <= Z.of_nat i + direction < Z.of_nat (List.length dates) ->
   selectedDate (after_change dates direction st)
   = nth_error dates (Z.to_nat (Z.of_nat i + direction)))
  /\ (~ 0 <= Z.of_nat i + direction < Z.of_nat (List.length dates) ->
      after_change dates direction st = st)
  /\ ((S i < List.length dates)%nat ->
      selectedDate (after_change dates (-1) (after_change dates 1 st)) = Some d).
Proof.
  intros Hdates Hi Hsel.
  assert (Hstep : forall (s : State) (j : nat) (x : string) (dir : Z),
             nth_error dates j = Some x -> selectedDate s = Some x ->
             after_change dates dir s
             = run (if (Z.of_nat j + dir <? 0)
                       || (Z.of_nat (List.length dates) <=? Z.of_nat j + dir)
                    then []
                    else [SetSelectedDate (at_index dates (Z.of_nat j + dir))]) s).
  { intros s j x dir Hj Hs. unfold after_change.
    rewrite Hs, (effective_at _ _ _ Hdates Hj), (changeSelectedDate_at _ _ _ dir Hdates Hj).
    now destruct ((Z.of_nat j + dir <? 0)
                  || (Z.of_nat (List.length dates) <=? Z.of_nat j + dir)). }
  assert (Hin : forall (j : nat) (dir : Z),
             0 <= Z.of_nat j + dir < Z.of_nat (List.length dates) ->
             (Z.of_nat j + dir <? 0) || (Z.of_nat (List.length dates) <=? Z.of_nat j + dir)
             = false).
  { intros j dir Hrange. apply orb_false_iff. split; [apply Z.ltb_ge | apply Z.leb_gt]; lia. }
  split; [|split].
  - intros Hrange. rewrite (Hstep st i d direction Hi Hsel), (Hin _ _ Hrange).
    cbn. unfold at_index.
    destruct (Z.of_nat i + direction <? 0) eqn:Hneg; [apply Z.ltb_lt in Hneg; lia|].
    reflexivity.
  - intros Hrange. rewrite (Hstep st i d direction Hi Hsel).
    destruct ((Z.of_nat i + direction <? 0)
              || (Z.of_nat (List.length dates) <=? Z.of_nat i + direction)) eqn:Hout;
      [reflexivity|].
    apply orb_false_iff in Hout as [H1 H2]. apply Z.ltb_ge in H1. apply Z.leb_gt in H2. lia.
  - intros Hnext.
    destruct (nth_error dates (S i)) as [d'|] eqn:Hd';
      [|apply nth_error_None in Hd'; lia].
    assert (Hafter : selectedDate (after_change dates 1 st) = Some d').
    { rewrite (Hstep st i d 1 Hi Hsel), (Hin i 1) by lia. cbn.
      replace (Z.of_nat i + 1) with (Z.of_nat (S i)) by lia. now rewrite at_index_nth. }
    rewrite (Hstep _ (S i) d' (-1) Hd' Hafter), (Hin (S i) (-1)) by lia. cbn.
    replace (Z.of_nat (S i) + -1) with (Z.of_nat i) by lia. now rewrite at_index_nth.
Qed.

Lemma changeSelectedDate_steps_through_the_dates_witness :
  selectedDate
    (after_change ["2025-12-15"; "2025-12-16"; "2025-12-17"] 1
       (run [SetSelectedDate (Some "2025-12-16")] initial_state))
  = Some "2025-12-17".
Proof.
  refine (proj1 (changeSelectedDate_steps_through_the_dates
                   (run [SetSelectedDate (Some "2025-12-16")] initial_state)
                   ["2025-12-15"; "2025-12-16"; "2025-12-17"] 1%nat "2025-12-16" 1 _ _ _) _).
  - split; [apply (bool_decide_unpack _); vm_compute; exact I|].
    repeat constructor; discriminate.
  - reflexivity.
  - reflexivity.
  - cbn. lia.
Defined.

Lemma next_click_at (dates : list string) (i : nat) (d : string) (focused : option string) :
  distinct_dates dates -> nth_error dates i = Some d ->
  focused = Some d \/ ((focused = None \/ focused = Some EmptyString) /\ i = 0%nat) ->
  DefensiveChecker.onNextSlotClick dates focused
  = match nth_error dates (S i) with
    | Some d' => ([SetSelectedDate (Some d')], Normal tt)
    | None => ([], Normal tt)
    end
  /\ DefensiveChecker.onPreviousSlotClick dates focused
     = match i with
       | S j => match nth_error dates j with
                | Some d' => ([SetSelectedDate (Some d')], Normal tt)
                | None => ([], Normal tt)
                end
       | O => ([], Normal tt)
       end.
Proof.
  intros Hdates Hi Hfocus.
  destruct (distinct_nth _ _ _ Hdates Hi) as (a & rest & ->).
  unfold DefensiveChecker.onNextSlotClick, DefensiveChecker.onPreviousSlotClick.
  destruct dates as [|x dates]; [now destruct i|].
  assert (Hcurrent : match focused with
                     | Some (String b r) => String b r
                     | _ => x
                     end = String a rest).
  { destruct Hfocus as [-> | [[-> | ->] ->]]; [reflexivity| |]; cbn in Hi; congruence. }
  rewrite Hcurrent, (indexOf_nth _ _ _ (proj1 Hdates) Hi).
  replace (Z.of_nat i + 1) with (Z.of_nat (S i)) by lia. rewrite at_index_nth.
  split.
  - destruct (nth_error (x :: dates) (S i)) as [d'|] eqn:Hd'; [|reflexivity].
    now destruct (distinct_nth _ _ _ Hdates Hd') as (b & r & ->).
  - destruct i as [|j]; [reflexivity|].
    replace (Z.of_nat (S j) - 1) with (Z.of_nat j) by lia. rewrite at_index_nth.
    destruct (nth_error (x :: dates) j) as [d'|] eqn:Hd'; [|reflexivity].
    now destruct (distinct_nth _ _ _ Hdates Hd') as (b & r & ->).
Qed.

(** In [ModalContent], for a city whose dates are distinct (and not
    empty), "Next Slot" moves the focus from the date at position [i]
    (the first date when none is focused) to the next one and
    "Previous Slot" to the one before; at the last date "Next Slot"
    does nothing, and at the first one "Previous Slot" does nothing. *)
Theorem slot_buttons_step_through_the_dates
    (st : State) (dates : list string) (i : nat) (d : string) :
  distinct_dates dates ->
  nth_error dates i = Some d ->
  selectedDate st = Some d \/ (selectedDate st = None /\ i = 0%nat) ->
  (forall d', nth_error dates (S i) = Some d' ->
              selectedDate (after_next dates st) = Some d')
  /\ (nth_error dates (S i) = None -> after_next dates st = st)
  /\ (forall j d', i = S j -> nth_error dates j = Some d' ->
                   selectedDate (after_previous dates st) = Some d')
  /\ (i = 0%nat -> after_previous dates st = st).
Proof.
  intros Hdates Hi Hfocus.
  assert (Hfocus' : selectedDate st = Some d
                    \/ ((selectedDate st = None \/ selectedDate st = Some EmptyString)
                        /\ i = 0%nat)) by tauto.
  destruct (next_click_at dates i d (selectedDate st) Hdates Hi Hfocus') as [Hnext Hprev].
  unfold after_next, after_previous. rewrite Hnext, Hprev.
  split; [|split; [|split]].
  - intros d' ->. reflexivity.
  - intros ->. reflexivity.
  - intros j d' -> ->. reflexivity.
  - intros ->. reflexivity.
Qed.

Lemma slot_buttons_step_through_the_dates_witness :
  selectedDate
    (after_next ["2025-12-15"; "2025-12-16"; "2025-12-17"] initial_state)
  = Some "2025-12-16".
Proof.
  refine (proj1 (slot_buttons_step_through_the_dates initial_state
                   ["2025-12-15"; "2025-12-16"; "2025-12-17"] 0%nat "2025-12-15" _ _ _)
            "2025-12-16" _).
  - split; [apply (bool_decide_unpack _); vm_compute; exact I|].
    repeat constructor; discriminate.
  - reflexivity.
  - right. split; reflexivity.
  - reflexivity.
Defined.

(** In [ModalContent] the focused date need not be one of the dates of
    the list (the calendar focuses the day of a date, which the list
    may write otherwise).  Then "Next Slot" does not step from it: it
    jumps to the first date of the list, and "Previous Slot" does
    nothing. *)
Theorem next_slot_restarts_from_a_foreign_date
    (st : State) (dates : list string) (x first : string) :
  selectedDate st = Some x ->
  x <> EmptyString ->
  ~ In x dates ->
  head dates = Some first ->
  first <> EmptyString ->
  selectedDate (after_next dates st) = Some first
  /\ after_previous dates st = st.
Proof.
  intros Hsel Hx Hout Hfirst Hne.
  unfold after_next, after_previous, DefensiveChecker.onNextSlotClick,
    DefensiveChecker.onPreviousSlotClick.
  destruct dates as [|y dates]; [discriminate|]. injection Hfirst as ->.
  destruct x as [|a x]; [congruence|]. destruct first as [|b first]; [congruence|].
  rewrite Hsel, (indexOf_absent _ _ Hout). split; reflexivity.
Qed.

Lemma next_slot_restarts_from_a_foreign_date_witness :
  selectedDate
    (after_next ["2025-12-15T09:00:00Z"; "2025-12-16T09:00:00Z"]
       (run [SetSelectedDate (Some "2025-12-16")] initial_state))
  = Some "2025-12-15T09:00:00Z".
Proof.
  refine (proj1 (next_slot_restarts_from_a_foreign_date
                   (run [SetSelectedDate (Some "2025-12-16")] initial_state)
                   ["2025-12-15T09:00:00Z"; "2025-12-16T09:00:00Z"]
                   "2025-12-16" "2025-12-15T09:00:00Z" _ _ _ _ _)).
  - reflexivity.
  - discriminate.
  - intros [H | [H | []]]; discriminate H.
  - reflexivity.
  - discriminate.
Defined.

(** ** The address of a centre *)

Lemma centre_address_truthy (h : Host) (city : option City.t) (c addr : jsval) :
  DefensiveChecker.centre_address h city c = Normal (Some addr) -> truthy addr = true.
Proof.
  unfold DefensiveChecker.centre_address.
  destruct (DefensiveChecker.name_matches h c city "centre_name"
              ||| DefensiveChecker.name_matches h c city "cityName") as [nameMatch|e];
    [|discriminate].
  cbn [mbind completion_bind].
  destruct (get c "address" ||| get c "center_address" ||| get c "vfs_address"
              ||| get c "location" ||| get c "address_text" ||| get c "address_line")
    as [a|e]; [|discriminate].
  cbn [mbind completion_bind].
  destruct (truthy a) eqn:Ha; rewrite ?andb_false_r, ?andb_true_r.
  - destruct (truthy nameMatch || negb (truthy (DefensiveChecker.city_operand city)));
      [intros [= <-]; exact Ha | discriminate].
  - discriminate.
Qed.

Lemma scan_centres_truthy (h : Host) (city : option City.t) (arr : list jsval) (addr : jsval) :
  DefensiveChecker.scan_centres h city arr = Normal (Some addr) -> truthy addr = true.
Proof.
  induction arr as [|c arr IH]; cbn [DefensiveChecker.scan_centres]; [discriminate|].
  destruct (DefensiveChecker.centre_address h city c) as [[a|]|e] eqn:Hc; cbn; try discriminate.
  - intros [= <-]. now apply (centre_address_truthy h city c).
  - exact IH.
Qed.

Lemma scan_arrays_truthy (h : Host) (city : option City.t) (arrays : list jsval)
    (addr : jsval) :
  DefensiveChecker.scan_arrays h city arrays = Normal (Some addr) -> truthy addr = true.
Proof.
  induction arrays as [|arr arrays IH]; cbn [DefensiveChecker.scan_arrays]; [discriminate|].
  destruct (DefensiveChecker.scan_centres h city (elems_of arr)) as [[a|]|e] eqn:Hc; cbn;
    try discriminate.
  - intros [= <-]. now apply (scan_centres_truthy h city (elems_of arr)).
  - exact IH.
Qed.

(** [extractAddress] never throws (an exception met while reading the
    payload is logged and gives [null]) and returns [null] or a truthy
    value, so that the caller's [extractAddress(...) || fallback] shows
    the fallback exactly for [null]; the address of the city itself,
    when it has one, is returned without the payload being read; and
    with no city address and no payload the result is [null]. *)
Theorem extractAddress_gives_an_address_or_null
    (h : Host) (city : option City.t) (slot : option SlotSummary.t) :
  (exists v, outcome (DefensiveChecker.extractAddress h city slot) = Normal v
             /\ (v = JNull \/ truthy v = true))
  /\ (forall c, city = Some c -> truthy (City.address c) = true ->
                DefensiveChecker.extractAddress h city slot = ([], Normal (City.address c)))
  /\ ((forall c, city = Some c -> truthy (City.address c) = false) ->
      DefensiveChecker.raw_of slot = None ->
      DefensiveChecker.extractAddress h city slot = ([], Normal JNull)).
Proof.
  unfold DefensiveChecker.extractAddress. split; [|split].
  - destruct (truthy match city with
                     | Some c => jor (City.address c) JUndefined
                     | None => JNull
                     end) eqn:Hown.
    { eexists. split; [reflexivity | right; exact Hown]. }
    destruct (DefensiveChecker.raw_of slot) as [raw|].
    2:{ exists JNull. split; [reflexivity | now left]. }
    destruct (DefensiveChecker.scan_arrays h city (List.filter isArray (Object_values raw)))
      as [[addr|]|e] eqn:Hscan; cbn.
    + exists addr. split; [reflexivity|]. right.
      now apply (scan_arrays_truthy h city _ addr Hscan).
    + destruct (truthy (prop raw "address")) eqn:Ha;
        [eexists; split; [reflexivity | right; exact Ha]|].
      destruct (truthy (prop raw "contact")) eqn:Hc; cbn [andb];
        [|exists JNull; split; [reflexivity | now left]].
      destruct (typeof_string (prop raw "contact"));
        [eexists; split; [reflexivity | right; exact Hc]
        |exists JNull; split; [reflexivity | now left]].
    + exists JNull. split; [reflexivity | now left].
  - intros c -> Haddress. unfold jor. rewrite Haddress, Haddress. reflexivity.
  - intros Hnone Hraw. rewrite Hraw.
    destruct city as [c|]; [|reflexivity].
    unfold jor. rewrite (Hnone c eq_refl). reflexivity.
Qed.

Lemma extractAddress_gives_an_address_or_null_witness :
  DefensiveChecker.extractAddress (browser 330 network_down)
    (Some (DefensiveChecker.demo_city "Ahmedabad" "2025-12-15" ["2025-12-15"]
             "VFS Global Ahmedabad"))
    (Some DefensiveChecker.demo_FR)
  = ([], Normal (JStr "VFS Global Ahmedabad")).
Proof.
  refine (proj1 (proj2 (extractAddress_gives_an_address_or_null (browser 330 network_down)
                          _ (Some DefensiveChecker.demo_FR))) _ eq_refl _).
  reflexivity.
Defined.

(** ** The overview cards *)

Lemma stats_scan_max (entries : list (string * SlotSummary.t)) (earliest : jsval)
    (mostCode : option string) (mostCount : nat) :
  let '(_, code, count) := fold_left Checker.stats_step entries (earliest, mostCode, mostCount) in
  (mostCount <= count)%nat
  /\ (forall k s, In (k, s) entries -> (List.length (SlotSummary.cities s) <= count)%nat)
  /\ ((code = mostCode /\ count = mostCount)
      \/ exists k s, code = Some k /\ In (k, s) entries
                     /\ List.length (SlotSummary.cities s) = count
                     /\ (mostCount < count)%nat).
Proof.
  revert earliest mostCode mostCount.
  induction entries as [|[k s] entries IH]; intros earliest mostCode mostCount.
  { cbn. split; [lia|]. split; [intros k s []|]. now left. }
  cbn [fold_left]. unfold Checker.stats_step at 2.
  set (earliest' := if truthy (SlotSummary.nextDate s) && negb (truthy earliest)
                    then SlotSummary.nextDate s else earliest).
  destruct (mostCount <? List.length (SlotSummary.cities s))%nat eqn:Hmore.
  - apply Nat.ltb_lt in Hmore.
    specialize (IH earliest' (Some k) (List.length (SlotSummary.cities s))).
    destruct (fold_left Checker.stats_step entries
                (earliest', Some k, List.length (SlotSummary.cities s)))
      as [[e code] count].
    destruct IH as (Hle & Hall & Hwho). split; [lia|]. split.
    + intros k' s' [[= <- <-] | Hin]; [exact Hle | exact (Hall k' s' Hin)].
    + right. destruct Hwho as [[-> ->] | (k' & s' & -> & Hin & Hlen & Hlt)].
      * exists k, s. repeat split; try reflexivity; [now left | exact Hmore].
      * exists k', s'. repeat split; try assumption; [now right | lia].
  - apply Nat.ltb_ge in Hmore.
    specialize (IH earliest' mostCode mostCount).
    destruct (fold_left Checker.stats_step entries (earliest', mostCode, mostCount))
      as [[e code] count].
    destruct IH as (Hle & Hall & Hwho). split; [exact Hle|]. split.
    + intros k' s' [[= <- <-] | Hin]; [lia | exact (Hall k' s' Hin)].
    + destruct Hwho as [[-> ->] | (k' & s' & -> & Hin & Hlen & Hlt)]; [now left|].
      right. exists k', s'. repeat split; try assumption. now right.
Qed.

(** The card "Most available country": whatever the countries and the
    stored slots, a name shown there is the name of a country of the
    list whose code is the key of a stored summary with the largest
    number of centres of all stored summaries, and at least one; when no
    stored summary has a centre, a name can only come from a country
    whose code is [null].  The count of "countries with appointments"
    never exceeds the number of stored summaries. *)
Theorem stats_names_a_country_with_the_most_centres
    (countries : list Country.t) (entries : list (string * SlotSummary.t)) :
  (Checker.mostCountryName (Checker.stats countries entries) = JNull
   \/ exists c,
        In c countries
        /\ Checker.mostCountryName (Checker.stats countries entries) = Country.name c
        /\ truthy (Country.name c) = true
        /\ ((exists k s,
               Country.code c = JStr k /\ In (k, s) entries
               /\ SlotSummary.cities s <> []
               /\ forall k' s', In (k', s') entries ->
                    (List.length (SlotSummary.cities s')
                     <= List.length (SlotSummary.cities s))%nat)
            \/ (Country.code c = JNull
                /\ forall k' s', In (k', s') entries -> SlotSummary.cities s' = [])))
  /\ (Checker.withSlots (Checker.stats countries entries) <= List.length entries)%nat
  /\ Checker.total (Checker.stats countries entries) = List.length countries.
Proof.
  unfold Checker.stats.
  pose proof (stats_scan_max entries JNull None 0%nat) as Hscan.
  destruct (fold_left Checker.stats_step entries (JNull, None, 0%nat))
    as [[earliest mostCode] mostCount].
  cbn [Checker.mostCountryName Checker.withSlots Checker.total].
  destruct Hscan as (_ & Hall & Hwho).
  split; [|split; [apply filter_length_le | reflexivity]].
  destruct (find (Checker.is_code mostCode) countries) as [c|] eqn:Hfind; [|now left].
  apply find_some in Hfind as [Hc Hcode].
  destruct (truthy (Country.name c)) eqn:Hname; [|left; now apply jor_falsy].
  right. exists c. split; [exact Hc|]. split; [unfold jor; now rewrite Hname|].
  split; [exact Hname|].
  unfold Checker.is_code in Hcode.
  destruct Hwho as [[-> ->] | (k & s & -> & Hin & Hlen & Hlt)].
  - right. destruct (Country.code c); try discriminate. split; [reflexivity|].
    intros k' s' Hin. specialize (Hall k' s' Hin).
    destruct (SlotSummary.cities s'); [reflexivity | cbn in Hall; lia].
  - left. destruct (Country.code c) as [| | | |k'| |]; try discriminate.
    apply String.eqb_eq in Hcode. subst k'. exists k, s.
    split; [reflexivity|]. split; [exact Hin|]. split.
    + intros Hnil. rewrite Hnil in Hlen. cbn in Hlen. lia.
    + intros k' s' Hin'. rewrite Hlen. exact (Hall k' s' Hin').
Qed.

(** ** Reading an ISO date *)

Lemma iso_date_chars (y m d : Z) :
  iso_date y m d
  = String (JSDate.digit_char (y / 10 / 10 / 10))
      (String (JSDate.digit_char (y / 10 / 10))
         (String (JSDate.digit_char (y / 10))
            (String (JSDate.digit_char y)
               (String "-"
                  (String (JSDate.digit_char (m / 10))
                     (String (JSDate.digit_char m)
                        (String "-"
                           (String (JSDate.digit_char (d / 10))
                              (String (JSDate.digit_char d) EmptyString))))))))).
Proof. reflexivity. Qed.

Lemma iso_date_not_empty (y m d : Z) : iso_date y m d <> EmptyString.
Proof. rewrite iso_date_chars. discriminate. Qed.

Lemma digit_value_digit_char (n : Z) :
  digit_value (JSDate.digit_char n) = Some (n mod 10).
Proof.
  assert (Hn : 0 <= n mod 10 < 10) by (apply Z.mod_pos_bound; lia).
  unfold JSDate.digit_char.
  assert (Hcases : n mod 10 = 0 \/ n mod 10 = 1 \/ n mod 10 = 2 \/ n mod 10 = 3
                   \/ n mod 10 = 4 \/ n mod 10 = 5 \/ n mod 10 = 6 \/ n mod 10 = 7
                   \/ n mod 10 = 8 \/ n mod 10 = 9) by lia.
  destruct Hcases as [-> | [-> | [-> | [-> | [-> | [-> | [-> | [-> | [-> | ->]]]]]]]]];
    reflexivity.
Qed.

Lemma parse_iso_date_canonical (y m d : Z) :
  0 <= y <= 9999 -> 1 <= m <= 12 -> 1 <= d <= 31 ->
  parse_iso_date (iso_date y m d)
  = Some (JSDate.days_from_civil y m d * JSDate.msPerDay).
Proof.
  intros Hy Hm Hd. unfold parse_iso_date. rewrite length_iso_date, iso_date_chars.
  cbn [Nat.eqb String.substring String.eqb Ascii.eqb Bool.eqb andb number_of].
  rewrite !digit_value_digit_char.
  replace (10 * (10 * (10 * (10 * 0 + (y / 10 / 10 / 10) mod 10) + (y / 10 / 10) mod 10)
                 + (y / 10) mod 10) + y mod 10) with y
    by (Z.div_mod_to_equations; lia).
  replace (10 * (10 * 0 + (m / 10) mod 10) + m mod 10) with m
    by (Z.div_mod_to_equations; lia).
  replace (10 * (10 * 0 + (d / 10) mod 10) + d mod 10) with d
    by (Z.div_mod_to_equations; lia).
  assert (Hok : (1 <=? m) && (m <=? 12) && (1 <=? d) && (d <=? 31) = true).
  { repeat (apply andb_true_iff; split); apply Z.leb_le; lia. }
  now rewrite Hok.
Qed.

Lemma browser_reads_iso_dates (offset_minutes : Z) (response : fetch_outcome) :
  reads_iso_dates (browser offset_minutes response).
Proof.
  intros y m d Hy Hm Hd. pose proof (days_in_month_bounds y m).
  apply parse_iso_date_canonical; lia.
Qed.

(** ** The day before *)

Lemma eve_of_spec (y m d : Z) :
  1 <= m <= 12 -> 1 <= d <= days_in_month y m ->
  y - 1 <= fst (fst (eve_of y m d)) <= y
  /\ 1 <= snd (fst (eve_of y m d)) <= 12
  /\ 1 <= snd (eve_of y m d)
          <= days_in_month (fst (fst (eve_of y m d))) (snd (fst (eve_of y m d)))
  /\ JSDate.days_from_civil (fst (fst (eve_of y m d))) (snd (fst (eve_of y m d)))
       (snd (eve_of y m d))
     = JSDate.days_from_civil y m d - 1
  /\ iso_date (fst (fst (eve_of y m d))) (snd (fst (eve_of y m d))) (snd (eve_of y m d))
     = eve y m d.
Proof.
  intros Hm Hd. unfold eve_of, eve. destruct (d =? 1) eqn:Hfirst.
  - apply Z.eqb_eq in Hfirst. subst d. destruct (m =? 1) eqn:Hjan; cbn [fst snd].
    + apply Z.eqb_eq in Hjan. subst m.
      repeat split; try lia; try reflexivity.
      pose proof (next_month_start (y - 1) 12 ltac:(lia)) as Hnext.
      change (days_in_month (y - 1) 12) with 31 in Hnext.
      change (12 / 12) with 1 in Hnext. change (12 mod 12 + 1) with 1 in Hnext.
      replace (y - 1 + 1) with y in Hnext by lia. lia.
    + apply Z.eqb_neq in Hjan. pose proof (days_in_month_bounds y (m - 1)) as Hdim.
      repeat split; try lia.
      pose proof (next_month_start y (m - 1) ltac:(lia)) as Hnext.
      rewrite Z.div_small, Z.mod_small in Hnext by lia.
      replace (y + 0) with y in Hnext by lia.
      replace (m - 1 + 1) with m in Hnext by lia. lia.
  - apply Z.eqb_neq in Hfirst. cbn [fst snd].
    repeat split; try lia.
    rewrite (days_from_civil_day y m d), (days_from_civil_day y m (d - 1)). lia.
Qed.

Section LocalDates.

Variable h : Host.
Variable offset : Z.
Hypothesis fixed_offset : forall t isUTC, LocalTZA h t isUTC = offset.
Hypothesis within_a_day : - JSDate.msPerDay < offset < JSDate.msPerDay.
Hypothesis reads : reads_iso_dates h.

Lemma Day_of_local (D : Z) :
  JSDate.Day (D * JSDate.msPerDay + offset) = if offset <? 0 then D - 1 else D.
Proof.
  unfold JSDate.Day, JSDate.msPerDay in *.
  destruct (offset <? 0) eqn:Hneg; [apply Z.ltb_lt in Hneg | apply Z.ltb_ge in Hneg];
    Z.div_mod_to_equations; lia.
Qed.

(** The local date of a date-only ISO string: the day itself at UTC and
    east of it, the day before west of it. *)
Lemma local_date_of_iso (y m d : Z) :
  0 <= y <= 9999 -> 1 <= m <= 12 -> 1 <= d <= days_in_month y m ->
  JSDate.civil_from_days
    (JSDate.Day (JSDate.days_from_civil y m d * JSDate.msPerDay + offset))
  = if offset <? 0 then eve_of y m d else (y, m, d).
Proof.
  intros Hy Hm Hd. rewrite Day_of_local. destruct (offset <? 0).
  - destruct (eve_of_spec y m d Hm Hd) as (_ & Hm' & Hd' & <- & _).
    rewrite (civil_roundtrip _ _ _ Hm' Hd').
    now destruct (eve_of y m d) as [[y' m'] d'].
  - apply civil_roundtrip; assumption.
Qed.

Lemma local_fields_of_iso (y m d : Z) :
  0 <= y <= 9999 -> 1 <= m <= 12 -> 1 <= d <= days_in_month y m ->
  JSDate.getFullYear h (Date_parse h (iso_date y m d))
  = Some (fst (fst (if offset <? 0 then eve_of y m d else (y, m, d))))
  /\ JSDate.getMonth h (Date_parse h (iso_date y m d))
     = Some (snd (fst (if offset <? 0 then eve_of y m d else (y, m, d))) - 1)
  /\ JSDate.getDate h (Date_parse h (iso_date y m d))
     = Some (snd (if offset <? 0 then eve_of y m d else (y, m, d))).
Proof.
  intros Hy Hm Hd. rewrite (reads y m d Hy Hm Hd).
  unfold JSDate.getFullYear, JSDate.getMonth, JSDate.getDate, option_map,
    JSDate.YearFromTime, JSDate.MonthFromTime, JSDate.DateFromTime, JSDate.LocalTime.
  rewrite fixed_offset, (local_date_of_iso y m d Hy Hm Hd). repeat split.
Qed.

End LocalDates.

Lemma calendar_cell_day (h : Host) (grid : DefensiveChecker.MonthGrid) (iso : string) :
  iso <> EmptyString ->
  DefensiveChecker.calendar_cell h grid iso
  = Some {| DefensiveChecker.cell_iso := iso;
            DefensiveChecker.cell_available :=
              bool_decide (iso ∈ DefensiveChecker.availableSet grid);
            DefensiveChecker.cell_selected :=
              match DefensiveChecker.selectedIso grid with
              | Some s => String.eqb iso s
              | None => false
              end;
            DefensiveChecker.cell_label := JSDate.getDate h (Date_parse h iso) |}.
Proof. destruct iso; [congruence | reflexivity]. Qed.

(** ** The numbers the calendar displays *)

(** In a time zone with a fixed offset from UTC, for a month of a year
    100..9999: the button that [CalendarGrid] renders in the place of
    day [k] of the month displays the number [k] at UTC only.  Anywhere
    else it displays the number of the day before (east of UTC the cell
    holds the date of the day before; west of UTC it holds the date of
    the day but [new Date(iso).getDate()] reads it a day early), so the
    first button of the month shows the last day of the month before. *)
Theorem calendar_numbers_are_a_day_early_off_UTC
    (h : Host) (offset y m0 k : Z) (grid : DefensiveChecker.MonthGrid) :
  (forall t isUTC, LocalTZA h t isUTC = offset) ->
  - JSDate.msPerDay < offset < JSDate.msPerDay ->
  reads_iso_dates h ->
  100 <= y <= 9999 -> 0 <= m0 <= 11 -> 1 <= k <= days_in_month y (m0 + 1) ->
  exists iso cell,
    JSDate.toISOString (JSDate.make h (Some y) (Some m0) (Some k)) = Normal iso
    /\ DefensiveChecker.calendar_cell h grid (JSDate.slice_0_10 iso) = Some cell
    /\ DefensiveChecker.cell_label cell
       = Some (if offset =? 0 then k else snd (eve_of y (m0 + 1) k)).
Proof.
  intros Htz Hday Hreads Hy Hm Hk.
  destruct (eve_of_spec y (m0 + 1) k ltac:(lia) Hk) as (Hy' & Hm' & Hd' & _ & Heve).
  destruct (Z_le_gt_dec offset 0) as [Hwest | Heast].
  - destruct (cell_of_day_west h offset Htz Hday y m0 k Hwest Hy Hm Hk) as (iso & Hiso & Hcell).
    exists iso. eexists. split; [exact Hiso|]. rewrite Hcell.
    split; [apply calendar_cell_day, iso_date_not_empty|]. cbn [DefensiveChecker.cell_label].
    destruct (local_fields_of_iso h offset Htz Hday Hreads y (m0 + 1) k ltac:(lia)
                ltac:(lia) Hk) as (_ & _ & ->).
    destruct (offset =? 0) eqn:Hzero.
    + apply Z.eqb_eq in Hzero. subst offset. reflexivity.
    + apply Z.eqb_neq in Hzero.
      assert (Hneg : (offset <? 0) = true) by (apply Z.ltb_lt; lia).
      now rewrite Hneg.
  - destruct (cell_of_day_east h offset Htz Hday y m0 k ltac:(lia) Hy Hm Hk)
      as (iso & Hiso & Hcell).
    exists iso. eexists. split; [exact Hiso|]. rewrite Hcell, <- Heve.
    split; [apply calendar_cell_day, iso_date_not_empty|]. cbn [DefensiveChecker.cell_label].
    destruct (local_fields_of_iso h offset Htz Hday Hreads
                (fst (fst (eve_of y (m0 + 1) k))) (snd (fst (eve_of y (m0 + 1) k)))
                (snd (eve_of y (m0 + 1) k)) ltac:(lia) Hm' Hd')
      as (_ & _ & ->).
    assert (Hpos : (offset <? 0) = false) by (apply Z.ltb_ge; lia).
    assert (Hzero : (offset =? 0) = false) by (apply Z.eqb_neq; lia).
    now rewrite Hpos, Hzero.
Qed.

Lemma calendar_numbers_are_a_day_early_off_UTC_witness :
  exists iso cell,
    JSDate.toISOString
      (JSDate.make (browser 330 network_down) (Some 2025) (Some 11) (Some 1)) = Normal iso
    /\ DefensiveChecker.calendar_cell (browser 330 network_down)
         {| DefensiveChecker.weeks := []; DefensiveChecker.year := None;
            DefensiveChecker.monthIndex := None; DefensiveChecker.availableSet := ∅;
            DefensiveChecker.selectedIso := None |}
         (JSDate.slice_0_10 iso) = Some cell
    /\ DefensiveChecker.cell_label cell
       = Some (if 19800000 =? 0 then 1 else snd (eve_of 2025 (11 + 1) 1)).
Proof.
  refine (calendar_numbers_are_a_day_early_off_UTC (browser 330 network_down) 19800000
            2025 11 1 _ _ _ _ _ _ _).
  - reflexivity.
  - unfold JSDate.msPerDay. lia.
  - apply browser_reads_iso_dates.
  - lia.
  - lia.
  - vm_compute. split; discriminate.
Defined.

(** ** The calendar at UTC *)

(** When [buildMonthGrid] returns a grid that has weeks, it came out of
    the [try] block: nothing was logged, and the set of available days
    and the selected date are those of the arguments. *)
Lemma buildMonthGrid_fields (h : Host) (isoDates : list string) (focusedIso : option string)
    (grid : DefensiveChecker.MonthGrid) :
  returned (DefensiveChecker.buildMonthGrid h isoDates focusedIso) = Some grid ->
  DefensiveChecker.weeks grid <> [] ->
  DefensiveChecker.buildMonthGrid h isoDates focusedIso = ([], Normal grid)
  /\ DefensiveChecker.availableSet grid
     = list_to_set (map (DefensiveChecker.available_day h) isoDates)
  /\ DefensiveChecker.selectedIso grid = DefensiveChecker.selected_of isoDates focusedIso.
Proof.
  unfold DefensiveChecker.buildMonthGrid, returned, outcome, lift, try_catch.
  destruct (DefensiveChecker.blanks _) as [week|e]; cbn [mbind completion_bind].
  2:{ intros [= <-] Hweeks. now destruct Hweeks. }
  destruct (DefensiveChecker.fill_weeks _ _ _ _ _ _) as [[weeks week']|e];
    cbn [mbind completion_bind].
  2:{ intros [= <-] Hweeks. now destruct Hweeks. }
  intros [= <-] _. repeat split.
Qed.

(** The set of available days holds an ISO date as it is, in every
    time zone: [toISOString] gives back the UTC day that was read. *)
Lemma available_day_iso (h : Host) (s : string) :
  reads_iso_dates h -> iso_day s -> DefensiveChecker.available_day h s = s.
Proof.
  intros Hreads (y & m & d & Hy & Hm & Hd & ->).
  unfold DefensiveChecker.available_day. rewrite (Hreads y m d Hy Hm Hd).
  destruct (toISOString_of_day y m d (JSDate.days_from_civil y m d * JSDate.msPerDay)
              Hy Hm Hd (Day_of_midnight _)) as (iso & -> & Hslice).
  exact Hslice.
Qed.

Lemma selected_of_focused (l : list string) (s : string) :
  s <> EmptyString -> DefensiveChecker.selected_of l (Some s) = Some s.
Proof. destruct s; [congruence | reflexivity]. Qed.

Lemma selected_of_first (s : string) (l : list string) :
  s <> EmptyString -> DefensiveChecker.selected_of (s :: l) None = Some s.
Proof. destruct s; [congruence | reflexivity]. Qed.

Lemma days_of_length (n : Z) : List.length (DefensiveChecker.days_of (Some n)) = Z.to_nat n.
Proof. unfold DefensiveChecker.days_of. now rewrite length_map, length_seq. Qed.

(** The calendar at UTC or east of it, where the local day of an ISO
    date is the day itself: given what the cell of each day of the
    anchor's month holds, the rows [CalendarGrid] renders, the selected
    date and the days that are available (the dates of the list that
    fall in the anchor's month). *)
Lemma CalendarGrid_cells (h : Host) (offset : Z) (dates rest : list string) (y m d0 : Z)
    (cell : Z -> string) :
  (forall t isUTC, LocalTZA h t isUTC = offset) ->
  0 <= offset < JSDate.msPerDay ->
  reads_iso_dates h ->
  100 <= y <= 9999 -> 1 <= m <= 12 -> 1 <= d0 <= days_in_month y m ->
  dates = iso_date y m d0 :: rest ->
  Forall iso_day rest ->
  (forall k, 1 <= k <= days_in_month y m ->
     exists iso,
       JSDate.toISOString (JSDate.make h (Some y) (Some (m - 1)) (Some k)) = Normal iso
       /\ JSDate.slice_0_10 iso = cell k) ->
  exists cells trailing grid,
    DefensiveChecker.CalendarGrid h dates None = ([], Normal (Some cells))
    /\ (trailing < 7)%nat
    /\ Forall (fun week => List.length week = 7%nat) cells
    /\ DefensiveChecker.selectedIso grid = Some (iso_date y m d0)
    /\ (forall y' m' d', 0 <= y' <= 9999 -> 1 <= m' <= 12 -> 1 <= d' <= days_in_month y' m' ->
          iso_date y' m' d' ∈ DefensiveChecker.availableSet grid
          <-> (iso_date y' m' d' ∈ dates /\ y' = y /\ m' = m))
    /\ concat cells
       = repeat None (Z.to_nat ((JSDate.days_from_civil y m 1 + 4) mod 7))
         ++ map (fun k => DefensiveChecker.calendar_cell h grid (cell k))
              (DefensiveChecker.days_of (Some (days_in_month y m)))
         ++ repeat None trailing.
Proof.
  intros Htz Heast Hreads Hy Hm Hd0 Hdates Hrest Hcells.
  assert (Hday : - JSDate.msPerDay < offset < JSDate.msPerDay)
    by (unfold JSDate.msPerDay in *; lia).
  assert (Hpos : (offset <? 0) = false) by (apply Z.ltb_ge; lia).
  set (A := iso_date y m d0) in *.
  assert (HA : A <> EmptyString) by apply iso_date_not_empty.
  assert (Hall : Forall iso_day dates).
  { rewrite Hdates. constructor; [|exact Hrest].
    exists y, m, d0. repeat split; try lia; reflexivity. }
  pose proof (local_fields_of_iso h offset Htz Hday Hreads) as Hlocal.
  rewrite Hpos in Hlocal. cbn [fst snd] in Hlocal.
  destruct (Hlocal y m d0 ltac:(lia) Hm Hd0) as (Hyear & Hmonth & _).
  fold A in Hyear, Hmonth.
  set (monthDates := List.filter (DefensiveChecker.in_month h (Some y) (Some (m - 1))) dates).
  assert (Hanchor : Date_parse h A = Some (JSDate.days_from_civil y m d0 * JSDate.msPerDay)).
  { apply Hreads; lia. }
  pose proof (local_date_of_iso offset Hday y m d0 ltac:(lia) Hm Hd0) as Hcivil.
  rewrite Hpos in Hcivil.
  assert (HY : JSDate.YearFromTime
                 (JSDate.days_from_civil y m d0 * JSDate.msPerDay + offset) = y).
  { unfold JSDate.YearFromTime. now rewrite Hcivil. }
  assert (HM : JSDate.MonthFromTime
                 (JSDate.days_from_civil y m d0 * JSDate.msPerDay + offset) = m - 1).
  { unfold JSDate.MonthFromTime. now rewrite Hcivil. }
  pose proof (grid_of_cells h offset Htz Hday monthDates (Some A)
                (JSDate.days_from_civil y m d0 * JSDate.msPerDay) cell) as Hgrid.
  rewrite HY, HM in Hgrid. replace (m - 1 + 1) with m in Hgrid by lia.
  destruct Hgrid as (grid & trailing & Hret & _ & _ & Htrailing & Hfull & Hconcat).
  { rewrite (selected_of_focused _ _ HA). exact Hanchor. }
  { exact Hy. }
  { exact Hcells. }
  pose proof (days_in_month_bounds y m) as Hdim.
  assert (Hweeks : DefensiveChecker.weeks grid <> []).
  { intros Hnil. rewrite Hnil in Hconcat. cbn [concat] in Hconcat.
    apply (f_equal (@List.length string)) in Hconcat.
    rewrite !length_app, length_map, days_of_length in Hconcat.
    cbn [List.length] in Hconcat. lia. }
  destruct (buildMonthGrid_fields h monthDates (Some A) grid Hret Hweeks)
    as (Hrun & Havailable & Hselected).
  rewrite (selected_of_focused _ _ HA) in Hselected.
  exists (map (map (DefensiveChecker.calendar_cell h grid)) (DefensiveChecker.weeks grid)),
    trailing, grid.
  split; [|split; [exact Htrailing|split; [|split; [exact Hselected|split]]]].
  - unfold DefensiveChecker.CalendarGrid. rewrite Hdates, (selected_of_first _ _ HA).
    rewrite <- Hdates. cbn [DefensiveChecker.anchor_of]. rewrite Hyear, Hmonth.
    fold monthDates. rewrite Hrun. reflexivity.
  - apply Forall_map. eapply Forall_impl; [exact Hfull|].
    intros week Hweek. unfold full_week in Hweek. now rewrite length_map.
  - intros y' m' d' Hy' Hm' Hd'.
    rewrite Havailable, elem_of_list_to_set, !list_elem_of_In, in_map_iff.
    assert (Hin_month : DefensiveChecker.in_month h (Some y) (Some (m - 1)) (iso_date y' m' d')
                        = (y' =? y) && (m' - 1 =? m - 1)).
    { unfold DefensiveChecker.in_month.
      destruct (Hlocal y' m' d' Hy' Hm' Hd') as (-> & -> & _). reflexivity. }
    split.
    + intros (e & He & Hin). apply filter_In in Hin as [Hin Hmonth'].
      rewrite List.Forall_forall in Hall.
      rewrite (available_day_iso h e Hreads (Hall e Hin)) in He. subst e.
      split; [exact Hin|]. rewrite Hin_month in Hmonth'.
      apply andb_true_iff in Hmonth' as [H1 H2].
      apply Z.eqb_eq in H1, H2. lia.
    + intros (Hin & -> & ->). exists (iso_date y m d'). split.
      * apply (available_day_iso h _ Hreads). exists y, m, d'. repeat split; try lia.
      * apply filter_In. split; [exact Hin|]. rewrite Hin_month.
        now rewrite !Z.eqb_refl.
  - rewrite <- concat_map, Hconcat, !map_app, map_map, !map_repeat. reflexivity.
Qed.

(** At UTC, for dates written as ISO days and an anchor (the first
    date, none being focused) in a year 100..9999, [CalendarGrid]
    renders the month of the anchor: rows of seven cells which, read in
    order, are the blanks before the weekday of the 1st, then one button
    for each day of the month, showing the number of the day, holding
    its ISO date, available exactly when that date is in the list and
    selected exactly when it is the anchor, then fewer than seven
    blanks.  Nothing is logged. *)
Theorem CalendarGrid_is_right_at_UTC
    (h : Host) (dates rest : list string) (y m d0 : Z) :
  (forall t isUTC, LocalTZA h t isUTC = 0) ->
  reads_iso_dates h ->
  100 <= y <= 9999 -> 1 <= m <= 12 -> 1 <= d0 <= days_in_month y m ->
  dates = iso_date y m d0 :: rest ->
  Forall iso_day rest ->
  exists cells trailing,
    DefensiveChecker.CalendarGrid h dates None = ([], Normal (Some cells))
    /\ (trailing < 7)%nat
    /\ Forall (fun week => List.length week = 7%nat) cells
    /\ concat cells
       = repeat None (Z.to_nat ((JSDate.days_from_civil y m 1 + 4) mod 7))
         ++ map (day_button dates y m d0)
              (DefensiveChecker.days_of (Some (days_in_month y m)))
         ++ repeat None trailing.
Proof.
  intros Htz Hreads Hy Hm Hd0 Hdates Hrest.
  assert (Hday : - JSDate.msPerDay < 0 < JSDate.msPerDay) by (unfold JSDate.msPerDay; lia).
  assert (Hzero : 0 <= 0 < JSDate.msPerDay) by (unfold JSDate.msPerDay; lia).
  destruct (CalendarGrid_cells h 0 dates rest y m d0 (iso_date y m) Htz Hzero Hreads Hy Hm Hd0
              Hdates Hrest)
    as (cells & trailing & grid & Hrun & Htrailing & Hfull & Hselected & Havailable & Hconcat).
  { intros k Hk.
    assert (Hk' : 1 <= k <= days_in_month y (m - 1 + 1))
      by now replace (m - 1 + 1) with m by lia.
    destruct (cell_of_day_west h 0 Htz Hday y (m - 1) k ltac:(lia) Hy ltac:(lia) Hk')
      as (iso & Hiso & Hcell).
    replace (m - 1 + 1) with m in Hcell by lia.
    exists iso. split; [exact Hiso | exact Hcell]. }
  exists cells, trailing.
  split; [exact Hrun|]. split; [exact Htrailing|]. split; [exact Hfull|].
  rewrite Hconcat. f_equal. f_equal. apply map_ext_in. intros k Hk.
  apply days_of_range in Hk.
  rewrite (calendar_cell_day h grid _ (iso_date_not_empty y m k)).
  unfold day_button. rewrite Hselected.
  destruct (local_fields_of_iso h 0 Htz Hday Hreads y m k ltac:(lia) Hm Hk) as (_ & _ & ->).
  cbn [Z.ltb Z.compare fst snd].
  f_equal. f_equal. apply bool_decide_ext.
  rewrite (Havailable y m k ltac:(lia) Hm Hk). tauto.
Qed.

Lemma CalendarGrid_is_right_at_UTC_witness :
  exists cells trailing,
    DefensiveChecker.CalendarGrid (browser 0 network_down) ["2025-12-15"; "2025-12-16"] None
    = ([], Normal (Some cells))
    /\ (trailing < 7)%nat
    /\ Forall (fun week => List.length week = 7%nat) cells
    /\ concat cells
       = repeat None (Z.to_nat ((JSDate.days_from_civil 2025 12 1 + 4) mod 7))
         ++ map (day_button ["2025-12-15"; "2025-12-16"] 2025 12 15)
              (DefensiveChecker.days_of (Some (days_in_month 2025 12)))
         ++ repeat None trailing.
Proof.
  refine (CalendarGrid_is_right_at_UTC (browser 0 network_down)
            ["2025-12-15"; "2025-12-16"] ["2025-12-16"] 2025 12 15 _ _ _ _ _ _ _).
  - reflexivity.
  - apply browser_reads_iso_dates.
  - lia.
  - lia.
  - vm_compute. split; discriminate.
  - reflexivity.
  - constructor; [|constructor].
    exists 2025, 12, 16. repeat split; try lia; vm_compute; discriminate.
Defined.

(** ** The calendar east of UTC *)

Lemma focused_date_inj (a b : string) :
  SetSelectedDate (Some a) = SetSelectedDate (Some b) -> a = b.
Proof. now intros [= ->]. Qed.

Lemma days_from_civil_of_iso (y m d y' m' d' : Z) :
  0 <= y <= 9999 -> 1 <= m <= 12 -> 1 <= d <= 31 ->
  0 <= y' <= 9999 -> 1 <= m' <= 12 -> 1 <= d' <= 31 ->
  iso_date y m d = iso_date y' m' d' ->
  JSDate.days_from_civil y m d = JSDate.days_from_civil y' m' d'.
Proof.
  intros Hy Hm Hd Hy' Hm' Hd' Heq.
  pose proof (parse_iso_date_canonical y m d Hy Hm Hd) as H1.
  pose proof (parse_iso_date_canonical y' m' d' Hy' Hm' Hd') as H2.
  rewrite Heq, H2 in H1. injection H1 as H1. unfold JSDate.msPerDay in H1. lia.
Qed.

(** East of UTC (a fixed offset in (0, 24h)), under the same
    conditions, the calendar is a day late throughout: the button in
    the place of day [k] of the month holds, and shows the number of,
    the day before; it is available exactly when [k] is not 1 and the
    day before is in the list.  So the first button, for the last day of
    the month before, can never be picked, and no button holds the last
    day of the month: a date on the last day of a month cannot be picked
    in the calendar. *)
Theorem CalendarGrid_is_a_day_late_east_of_UTC
    (h : Host) (offset : Z) (dates rest : list string) (y m d0 : Z) :
  (forall t isUTC, LocalTZA h t isUTC = offset) ->
  0 < offset < JSDate.msPerDay ->
  reads_iso_dates h ->
  100 <= y <= 9999 -> 1 <= m <= 12 -> 1 <= d0 <= days_in_month y m ->
  dates = iso_date y m d0 :: rest ->
  Forall iso_day rest ->
  exists cells trailing,
    DefensiveChecker.CalendarGrid h dates None = ([], Normal (Some cells))
    /\ (trailing < 7)%nat
    /\ Forall (fun week => List.length week = 7%nat) cells
    /\ concat cells
       = repeat None (Z.to_nat ((JSDate.days_from_civil y m 1 + 4) mod 7))
         ++ map (late_button dates y m d0)
              (DefensiveChecker.days_of (Some (days_in_month y m)))
         ++ repeat None trailing
    /\ Forall (fun c => match c with
                        | Some button =>
                            ~ In (SetSelectedDate (Some (iso_date y m (days_in_month y m))))
                                 (trace (DefensiveChecker.onDayClick button))
                        | None => True
                        end) (concat cells).
Proof.
  intros Htz Heast Hreads Hy Hm Hd0 Hdates Hrest.
  assert (Hday : - JSDate.msPerDay < offset < JSDate.msPerDay)
    by (unfold JSDate.msPerDay in *; lia).
  assert (Hpos : (offset <? 0) = false) by (apply Z.ltb_ge; lia).
  pose proof (days_in_month_bounds y m) as Hdim.
  destruct (CalendarGrid_cells h offset dates rest y m d0 (eve y m) Htz ltac:(lia) Hreads
              Hy Hm Hd0 Hdates Hrest)
    as (cells & trailing & grid & Hrun & Htrailing & Hfull & Hselected & Havailable & Hconcat).
  { intros k Hk.
    assert (Hk' : 1 <= k <= days_in_month y (m - 1 + 1))
      by now replace (m - 1 + 1) with m by lia.
    destruct (cell_of_day_east h offset Htz Hday y (m - 1) k ltac:(lia) Hy ltac:(lia) Hk')
      as (iso & Hiso & Hcell).
    replace (m - 1 + 1) with m in Hcell by lia.
    exists iso. split; [exact Hiso | exact Hcell]. }
  assert (Hbuttons :
            map (fun k => DefensiveChecker.calendar_cell h grid (eve y m k))
              (DefensiveChecker.days_of (Some (days_in_month y m)))
            = map (late_button dates y m d0)
                (DefensiveChecker.days_of (Some (days_in_month y m)))).
  { apply map_ext_in. intros k Hk. apply days_of_range in Hk.
    destruct (eve_of_spec y m k Hm Hk) as (Hy' & Hm' & Hd' & Hdays & Heve).
    rewrite <- Heve.
    rewrite (calendar_cell_day h grid _ (iso_date_not_empty _ _ _)).
    unfold late_button. rewrite Hselected, <- Heve.
    destruct (local_fields_of_iso h offset Htz Hday Hreads _ _ _
                (conj (Z.le_trans 0 (y - 1) _ ltac:(lia) (proj1 Hy'))
                      (Z.le_trans _ y 9999 (proj2 Hy') ltac:(lia))) Hm' Hd')
      as (_ & _ & ->).
    rewrite Hpos. f_equal. f_equal. apply eq_true_iff_eq.
    rewrite bool_decide_eq_true, andb_true_iff, bool_decide_eq_true, negb_true_iff.
    rewrite (Havailable _ _ _
               (conj (Z.le_trans 0 (y - 1) _ ltac:(lia) (proj1 Hy'))
                     (Z.le_trans _ y 9999 (proj2 Hy') ltac:(lia))) Hm' Hd').
    unfold eve_of in *. destruct (k =? 1) eqn:Hfirst.
    - destruct (m =? 1) eqn:Hjan; cbn [fst snd] in *;
        [apply Z.eqb_eq in Hjan | apply Z.eqb_neq in Hjan]; split;
        intros H; try discriminate (proj2 H); lia.
    - cbn [fst snd]. tauto. }
  exists cells, trailing.
  split; [exact Hrun|]. split; [exact Htrailing|]. split; [exact Hfull|].
  rewrite Hconcat, Hbuttons. split; [reflexivity|].
  apply Forall_app. split; [apply List.Forall_forall; intros c Hc;
                            apply repeat_spec in Hc; now subst c|].
  apply Forall_app. split; [|apply List.Forall_forall; intros c Hc;
                             apply repeat_spec in Hc; now subst c].
  apply List.Forall_forall. intros c Hc. apply in_map_iff in Hc as (k & <- & Hk).
  apply days_of_range in Hk. unfold late_button, DefensiveChecker.onDayClick.
  cbn [DefensiveChecker.cell_iso DefensiveChecker.cell_available].
  destruct (bool_decide (eve y m k ∈ dates) && negb (k =? 1)); [|intros []].
  destruct (eve_of_spec y m k Hm Hk) as (Hy' & Hm' & Hd' & Hdays & Heve).
  rewrite <- Heve. intros [Heq | []]. apply focused_date_inj in Heq.
  pose proof (days_in_month_bounds (fst (fst (eve_of y m k))) (snd (fst (eve_of y m k)))).
  apply days_from_civil_of_iso in Heq; try lia.
  rewrite Hdays, (days_from_civil_day y m k), (days_from_civil_day y m (days_in_month y m))
    in Heq. lia.
Qed.

Lemma CalendarGrid_is_a_day_late_east_of_UTC_witness :
  exists cells trailing,
    DefensiveChecker.CalendarGrid (browser 330 network_down) ["2025-12-31"] None
    = ([], Normal (Some cells))
    /\ (trailing < 7)%nat
    /\ Forall (fun week => List.length week = 7%nat) cells
    /\ concat cells
       = repeat None (Z.to_nat ((JSDate.days_from_civil 2025 12 1 + 4) mod 7))
         ++ map (late_button ["2025-12-31"] 2025 12 31)
              (DefensiveChecker.days_of (Some (days_in_month 2025 12)))
         ++ repeat None trailing
    /\ Forall (fun c => match c with
                        | Some button =>
                            ~ In (SetSelectedDate
                                    (Some (iso_date 2025 12 (days_in_month 2025 12))))
                                 (trace (DefensiveChecker.onDayClick button))
                        | None => True
                        end) (concat cells).
Proof.
  refine (CalendarGrid_is_a_day_late_east_of_UTC (browser 330 network_down) 19800000
            ["2025-12-31"] [] 2025 12 31 _ _ _ _ _ _ _ _).
  - reflexivity.
  - unfold JSDate.msPerDay. lia.
  - apply browser_reads_iso_dates.
  - lia.
  - lia.
  - vm_compute. split; discriminate.
  - reflexivity.
  - constructor.
Defined.

(** ** The city of the modal *)

(** For a stored summary, whatever the selected index: the modal has an
    active city exactly when the summary is available; the active city
    is a city of the summary, the one at the selected index when there
    is one and the first city otherwise (a stale index of another
    country); and it has no date to show exactly when its list of dates
    is empty and its next date is [null].  The active city is chosen the
    same way in both revisions. *)
Theorem modal_shows_a_city_of_the_summary (s : SlotSummary.t) (i : nat) :
  stored_summary s ->
  Checker.activeCity_of (SlotSummary.cities s) i
  = DefensiveChecker.activeCity (SlotSummary.cities s) i
  /\ match DefensiveChecker.activeCity (SlotSummary.cities s) i with
     | Some city =>
         SlotSummary.isAvailable s = true
         /\ In city (SlotSummary.cities s)
         /\ ((i < List.length (SlotSummary.cities s))%nat ->
             nth_error (SlotSummary.cities s) i = Some city)
         /\ ((List.length (SlotSummary.cities s) <= i)%nat ->
             head (SlotSummary.cities s) = Some city)
         /\ (DefensiveChecker.datesForActiveCity (Some city) = []
             <-> elems_of (City.allDates city) = [] /\ City.nextDate city = JNull)
     | None => SlotSummary.isAvailable s = false /\ SlotSummary.cities s = []
     end.
Proof.
  intros (Havailable & Hcities & _). split; [reflexivity|].
  unfold DefensiveChecker.activeCity.
  destruct (nth_error (SlotSummary.cities s) i) as [city|] eqn:Hnth.
  - pose proof (nth_error_In _ _ Hnth) as Hin.
    rewrite List.Forall_forall in Hcities. destruct (Hcities city Hin) as (_ & Harray & Hnext).
    split; [rewrite Havailable; now destruct (SlotSummary.cities s)|].
    split; [exact Hin|]. split; [tauto|]. split.
    + intros Hlen. apply nth_error_None in Hlen. congruence.
    + unfold DefensiveChecker.datesForActiveCity. rewrite Harray. cbn [andb].
      destruct (elems_of (City.allDates city)) as [|x l]; cbn [nonempty].
      * destruct Hnext as [-> | Ht]; [cbn; tauto|]. rewrite Ht.
        split; [discriminate|]. intros [_ Hnull]. rewrite Hnull in Ht. discriminate Ht.
      * split; [discriminate | intros [H _]; discriminate H].
  - apply nth_error_None in Hnth.
    destruct (SlotSummary.cities s) as [|city cities] eqn:Hlist; cbn [head].
    + split; [rewrite Havailable; reflexivity | reflexivity].
    + rewrite List.Forall_forall in Hcities.
      destruct (Hcities city (or_introl eq_refl)) as (_ & Harray & Hnext).
      split; [rewrite Havailable; reflexivity|]. split; [now left|].
      split; [cbn [List.length] in *; lia|]. split; [reflexivity|].
      unfold DefensiveChecker.datesForActiveCity. rewrite Harray. cbn [andb].
      destruct (elems_of (City.allDates city)) as [|x l]; cbn [nonempty].
      * destruct Hnext as [-> | Ht]; [cbn; tauto|]. rewrite Ht.
        split; [discriminate|]. intros [_ Hnull]. rewrite Hnull in Ht. discriminate Ht.
      * split; [discriminate | intros [H _]; discriminate H].
Qed.

Lemma modal_shows_a_city_of_the_summary_witness :
  DefensiveChecker.activeCity (SlotSummary.cities DefensiveChecker.demo_FR) 7
  = head (SlotSummary.cities DefensiveChecker.demo_FR).
Proof.
  pose proof (modal_shows_a_city_of_the_summary DefensiveChecker.demo_FR 7
                (stored_demo "FR" _ (or_intror eq_refl))) as [_ Hcity].
  destruct (DefensiveChecker.activeCity (SlotSummary.cities DefensiveChecker.demo_FR) 7)
    as [city|] eqn:Hactive.
  - destruct Hcity as (_ & _ & _ & Hfirst & _). symmetry. apply Hfirst. cbn. lia.
  - destruct Hcity as [_ Hnil]. discriminate Hnil.
Defined.

(** ** The URL of a country *)

Lemma hex_digit_code (n : N) :
  (n < 16)%N ->
  N_of_ascii (hex_digit n) = if (n <? 10)%N then (48 + n)%N else (55 + n)%N.
Proof.
  intros Hn. unfold hex_digit.
  destruct (n <? 10)%N; apply N_ascii_embedding; lia.
Qed.

Lemma hex_digit_inj (a b : N) :
  (a < 16)%N -> (b < 16)%N -> hex_digit a = hex_digit b -> a = b.
Proof.
  intros Ha Hb Heq. apply (f_equal N_of_ascii) in Heq.
  rewrite (hex_digit_code a Ha), (hex_digit_code b Hb) in Heq.
  destruct (a <? 10)%N eqn:Ha', (b <? 10)%N eqn:Hb';
    try apply N.ltb_lt in Ha'; try apply N.ltb_lt in Hb';
    try apply N.ltb_ge in Ha'; try apply N.ltb_ge in Hb'; lia.
Qed.

Lemma percent_encode_inj (a b : ascii) : percent_encode a = percent_encode b -> a = b.
Proof.
  unfold percent_encode. intros [= Hhigh Hlow].
  pose proof (N_ascii_bounded a) as Ha. pose proof (N_ascii_bounded b) as Hb.
  apply hex_digit_inj in Hhigh;
    [|apply N.Div0.div_lt_upper_bound; lia | apply N.Div0.div_lt_upper_bound; lia].
  apply hex_digit_inj in Hlow; [|apply N.mod_lt; lia | apply N.mod_lt; lia].
  rewrite <- (ascii_N_embedding a), <- (ascii_N_embedding b). f_equal.
  rewrite (N.div_mod (N_of_ascii a) 16), (N.div_mod (N_of_ascii b) 16) by lia.
  now rewrite Hhigh, Hlow.
Qed.

Lemma uri_escape_inj (s1 s2 : string) :
  uri_escape s1 = uri_escape s2 -> s1 = s2.
Proof.
  revert s2. induction s1 as [|a s1 IH]; intros [|b s2]; cbn [uri_escape].
  - reflexivity.
  - destruct (uri_unreserved b); discriminate.
  - destruct (uri_unreserved a); discriminate.
  - destruct (uri_unreserved a) eqn:Ha, (uri_unreserved b) eqn:Hb;
      unfold percent_encode; rewrite ?append_cons; cbn [String.append].
    + intros [= -> Hrest]. f_equal. now apply IH.
    + intros [= -> _]. discriminate Ha.
    + intros [= <- _]. discriminate Hb.
    + intros [= Hhigh Hlow Hrest].
      f_equal; [|now apply IH].
      apply percent_encode_inj. unfold percent_encode. now rewrite Hhigh, Hlow.
Qed.

Lemma append_cancel_l (p a b : string) : p +:+ a = p +:+ b -> a = b.
Proof.
  induction p as [|c p IH]; [exact (fun H => H)|].
  rewrite !append_cons. intros [= H]. now apply IH.
Qed.

Lemma append_cancel_r (a b q : string) : a +:+ q = b +:+ q -> a = b.
Proof.
  intros Heq. apply (f_equal list_ascii_of_string) in Heq.
  rewrite !list_ascii_of_app in Heq. apply app_inv_tail in Heq.
  rewrite <- (string_of_list_ascii_of_string a), <- (string_of_list_ascii_of_string b).
  now rewrite Heq.
Qed.

(** The URL of the slots request determines the country code: two
    different codes are never requested at the same URL, whatever
    characters they hold (the encoding of the code can be read back),
    so the entry stored under a code comes from the request made for
    that code.  The URL is the same in both revisions. *)
Theorem slots_url_determines_the_code (code1 code2 : string) :
  code1 <> code2 -> Checker.slots_url code1 <> Checker.slots_url code2.
Proof.
  unfold Checker.slots_url, Checker.slots_url_with. intros Hne Heq. apply Hne.
  apply append_cancel_l, append_cancel_r in Heq.
  now apply uri_escape_inj.
Qed.

Lemma slots_url_determines_the_code_witness :
  Checker.slots_url "A&B" <> Checker.slots_url "A".
Proof.
  refine (slots_url_determines_the_code "A&B" "A" _). discriminate.
Defined.

(** ** The days marked as available *)

(** In a time zone with a fixed offset, for dates written as ISO days
    and an anchor in a year 100..9999, the set of available days that
    [buildMonthGrid] returns is exactly the set of the dates it was
    given, and the selected date is the anchor string: the days are
    marked on the dates as written, whatever the time zone (it is the
    cells that move with the time zone, not the marks). *)
Theorem buildMonthGrid_marks_the_dates_as_written
    (h : Host) (offset : Z) (isoDates : list string) (focusedIso : option string)
    (anchor : Z) :
  (forall t isUTC, LocalTZA h t isUTC = offset) ->
  - JSDate.msPerDay < offset < JSDate.msPerDay ->
  reads_iso_dates h ->
  Forall iso_day isoDates ->
  DefensiveChecker.anchor_of h (DefensiveChecker.selected_of isoDates focusedIso)
  = Some anchor ->
  100 <= JSDate.YearFromTime (anchor + offset) <= 9999 ->
  exists grid,
    DefensiveChecker.buildMonthGrid h isoDates focusedIso = ([], Normal grid)
    /\ DefensiveChecker.selectedIso grid = DefensiveChecker.selected_of isoDates focusedIso
    /\ forall s, s ∈ DefensiveChecker.availableSet grid <-> In s isoDates.
Proof.
  intros Htz Hday Hreads Hdates Hanchor Hyear.
  set (y := JSDate.YearFromTime (anchor + offset)) in *.
  set (m0 := JSDate.MonthFromTime (anchor + offset)).
  assert (Hm0 : 0 <= m0 <= 11).
  { subst m0. unfold JSDate.MonthFromTime.
    pose proof (civil_month_range (JSDate.Day (anchor + offset))). lia. }
  pose proof (days_in_month_bounds y (m0 + 1)) as Hdim.
  assert (Hgrid : exists grid,
             returned (DefensiveChecker.buildMonthGrid h isoDates focusedIso) = Some grid
             /\ DefensiveChecker.weeks grid <> []).
  { assert (Hnonempty : forall (cell : Z -> string) (grid : DefensiveChecker.MonthGrid)
                               (n trailing : nat),
               concat (DefensiveChecker.weeks grid)
               = repeat EmptyString n
                 ++ map cell (DefensiveChecker.days_of (Some (days_in_month y (m0 + 1))))
                 ++ repeat EmptyString trailing ->
               DefensiveChecker.weeks grid <> []).
    { intros cell grid n trailing Hconcat Hnil. rewrite Hnil in Hconcat.
      cbn [concat] in Hconcat. apply (f_equal (@List.length string)) in Hconcat.
      rewrite !length_app, length_map, days_of_length in Hconcat.
      cbn [List.length] in Hconcat. lia. }
    destruct (Z_le_gt_dec offset 0) as [Hwest | Heast].
    - destruct (grid_of_cells h offset Htz Hday isoDates focusedIso anchor
                  (iso_date y (m0 + 1)) Hanchor Hyear)
        as (grid & trailing & Hret & _ & _ & _ & _ & Hconcat).
      { intros d Hd. apply (cell_of_day_west h offset Htz Hday); assumption. }
      exists grid. split; [exact Hret | exact (Hnonempty _ _ _ _ Hconcat)].
    - destruct (grid_of_cells h offset Htz Hday isoDates focusedIso anchor
                  (eve y (m0 + 1)) Hanchor Hyear)
        as (grid & trailing & Hret & _ & _ & _ & _ & Hconcat).
      { intros d Hd. apply (cell_of_day_east h offset Htz Hday); try assumption. lia. }
      exists grid. split; [exact Hret | exact (Hnonempty _ _ _ _ Hconcat)]. }
  destruct Hgrid as (grid & Hret & Hweeks).
  destruct (buildMonthGrid_fields h isoDates focusedIso grid Hret Hweeks)
    as (Hrun & Havailable & Hselected).
  exists grid. split; [exact Hrun|]. split; [exact Hselected|].
  intros s. rewrite Havailable, elem_of_list_to_set, list_elem_of_In.
  assert (Hsame : map (DefensiveChecker.available_day h) isoDates = isoDates).
  { rewrite <- (map_id isoDates) at 2. apply map_ext_in. intros d Hd.
    rewrite List.Forall_forall in Hdates. apply (available_day_iso h d Hreads (Hdates d Hd)). }
  now rewrite Hsame.
Qed.

Lemma buildMonthGrid_marks_the_dates_as_written_witness :
  exists grid,
    DefensiveChecker.buildMonthGrid (browser 330 network_down) ["2025-12-15"] None
    = ([], Normal grid)
    /\ DefensiveChecker.selectedIso grid
       = DefensiveChecker.selected_of ["2025-12-15"] None
    /\ forall s, s ∈ DefensiveChecker.availableSet grid <-> In s ["2025-12-15"].
Proof.
  refine (buildMonthGrid_marks_the_dates_as_written (browser 330 network_down) 19800000
            ["2025-12-15"] None 1765756800000 _ _ _ _ _ _).
  - reflexivity.
  - unfold JSDate.msPerDay. lia.
  - apply browser_reads_iso_dates.
  - constructor; [|constructor].
    exists 2025, 12, 15. repeat split; try lia; vm_compute; discriminate.
  - reflexivity.
  - vm_compute. split; discriminate.
Defined.
